(** * mcp-map-agents: the query orchestration loop and its three tool backends

    A shallow embedding of

    - [src/agents/schemas.py]          (ToolResponse, ToolUsage),
    - [src/servers/tiles/*.py]         (tile provider metadata),
    - [src/servers/routing/*.py]       (OSRM client and handler),
    - [src/servers/geocoding/*.py]     (Nominatim / Overpass client and handler),
    - [src/agents/orchestrator.py]     (MapAgentOrchestrator),

    followed by the properties of the specification.

    Python values are an inductive type of JSON-like data, exceptions are
    explicit ([exn + A]), and everything that talks to the outside (HTTP, the
    clock, the completion service) is a transition on an abstract
    environment supplied by a [Runtime] instance.  Floating-point
    arithmetic, string formatting of numbers and JSON (de)serialization are
    operations of the runtime as well.

    The orchestrator also keeps a log of what it does to the outside (each
    submission with its transcript, each dispatch); the log is not in the
    Python code and is only there to state what was submitted, when, and
    how often.

    The file has the program first, then the vocabulary of the properties
    and a scripted runtime, then the properties and concrete runs. *)

From Stdlib Require Import List String Ascii ZArith QArith Bool Lia Arith.
From Stdlib Require Import Sorted Permutation DecimalString.
Import ListNotations.
Open Scope Z_scope.
Open Scope list_scope.
Open Scope string_scope.

Set Implicit Arguments.

(* ================================================================== *)
(** ** Python values and exceptions *)
(* ================================================================== *)

Section Values.
Variable flt : Type.

Unset Elimination Schemes.

(** What [json.loads] can return, plus [datetime] (the [timestamp] of a
    dumped [ToolUsage], kept as its ISO text).  An [int] is exact, a
    [float] is a value of the runtime's float type.  A dict is an
    association list in insertion order. *)
Inductive value : Type :=
| VNone
| VBool (b : bool)
| VInt (z : Z)
| VFloat (f : flt)
| VStr (s : string)
| VList (l : list value)
| VDict (d : list (string * value))
| VDatetime (iso : string).

Set Elimination Schemes.

End Values.

Arguments VNone {flt}.
Arguments VBool {flt} b.
Arguments VInt {flt} z.
Arguments VStr {flt} s.
Arguments VDatetime {flt} iso.

Inductive exn_class : Type :=
| TimeoutError | AttributeError | TypeError | KeyError | IndexError
| ValueError | OverflowError | OtherException.

(** An exception: its class (what an [except] clause tests) and [str(e)]. *)
Record exn : Type := mkExn { exn_cls : exn_class; exn_str : string }.

Definition is_TimeoutError (e : exn) : bool :=
  match exn_cls e with TimeoutError => true | _ => false end.

(** Result of a computation that may raise. *)
Definition res (A : Type) : Type := (exn + A)%type.

Definition ok {A} (a : A) : res A := inr a.
Definition throw {A} (c : exn_class) (msg : string) : res A := inl (mkExn c msg).

(* ------------------------------------------------------------------ *)
(** *** Strings *)

(** [sub in s] on Python strings. *)
Fixpoint contains (sub s : string) : bool :=
  String.prefix sub s ||
  match s with
  | EmptyString => false
  | String _ s' => contains sub s'
  end.

Definition dquote : string := String (ascii_of_nat 34) EmptyString.

(** [sep.join(l)] *)
Fixpoint join (sep : string) (l : list string) : string :=
  match l with
  | [] => ""
  | [x] => x
  | x :: rest => x ++ sep ++ join sep rest
  end.

(** [str(n)] for a non-negative machine-independent integer. *)
Definition str_of_nat (n : nat) : string :=
  NilEmpty.string_of_uint (Nat.to_uint n).

Definition str_of_Z (z : Z) : string :=
  NilEmpty.string_of_int (Z.to_int z).

(* ------------------------------------------------------------------ *)
(** *** dicts *)

Section Dict.
Context {V : Type}.

(** [d.get(k)] as an option *)
Fixpoint dict_lookup (k : string) (d : list (string * V)) : option V :=
  match d with
  | [] => None
  | (k', v) :: rest => if String.eqb k k' then Some v else dict_lookup k rest
  end.

(** [k in d] *)
Definition dict_has (k : string) (d : list (string * V)) : bool :=
  match dict_lookup k d with Some _ => true | None => false end.

(** [d[k] = v]: overwrite in place when present, append otherwise *)
Fixpoint dict_set (k : string) (v : V) (d : list (string * V)) : list (string * V) :=
  match d with
  | [] => [(k, v)]
  | (k', v') :: rest =>
      if String.eqb k k' then (k, v) :: rest else (k', v') :: dict_set k v rest
  end.
End Dict.

(* ================================================================== *)
(** ** HTTP and the completion service, as seen by the program *)
(* ================================================================== *)

Inductive http_method : Type := GET | POST.

Section Wire.
Variable flt : Type.

Record http_request : Type := mkRequest {
  req_method  : http_method;
  req_url     : string;
  req_params  : list (string * value flt);
  req_content : option string;
  req_timeout : flt;
}.

(** What one [httpx] exchange (request, [raise_for_status], [json()])
    ends in. *)
Inductive http_outcome : Type :=
| HttpTimeout                  (* httpx.TimeoutException *)
| HttpError (msg : string)     (* any other httpx.HTTPError, with str(e) *)
| HttpRaises (e : exn)         (* anything else, e.g. a body that is not JSON *)
| HttpJson (body : value flt). (* response.json() *)
End Wire.

Arguments HttpTimeout {flt}.
Arguments HttpError {flt} msg.
Arguments HttpRaises {flt} e.

(** A requested tool invocation: [tc.id], [tc.function.name],
    [tc.function.arguments] (a JSON text). *)
Record tool_call : Type := mkToolCall {
  tc_id : string;
  tc_name : string;
  tc_arguments : string;
}.

(** One entry of [response.choices]. *)
Record choice : Type := mkChoice {
  finish_reason : string;
  content : option string;
  tool_calls : option (list tool_call);
}.

Record chat_completion : Type := mkCompletion { choices : list choice }.

(** The transcript: the four shapes of message dict the orchestrator
    builds. *)
Inductive chat_message : Type :=
| SystemMsg (text : string)
| UserMsg (text : string)
| AssistantMsg (requests : list tool_call)      (* content None, tool_calls *)
| ToolMsg (tool_call_id : string) (text : string).

Section Catalog.
Variable flt : Type.

(** One entry of a tool catalog,
    [{type: function, function: {name, description, parameters}}]. *)
Record tool_spec : Type := mkToolSpec {
  ts_name : string;
  ts_description : string;
  ts_parameters : value flt;
}.

(** The keyword arguments of [client.chat.completions.create]. *)
Record chat_request : Type := mkChatRequest {
  rq_model : string;
  rq_max_tokens : Z;
  rq_tools : list tool_spec;
  rq_tool_choice : string;
  rq_messages : list chat_message;
}.
End Catalog.

(** An awaitable as [asyncio.wait_for] sees it: it completes after some
    time with a value or an exception, or it never does. *)
Inductive awaitable (A : Type) : Type :=
| Completes (elapsed : Q) (r : res A)
| Hangs.

Arguments Hangs {A}.

(** [asyncio.wait_for(aw, timeout)]: the awaited outcome when it arrives
    within [timeout], [TimeoutError] otherwise ([asyncio.TimeoutError] is
    the builtin [TimeoutError] that the orchestrator catches). *)
Definition wait_for {A} (aw : awaitable A) (timeout : Q) : res A :=
  match aw with
  | Completes elapsed r =>
      if Qle_bool elapsed timeout then r else throw TimeoutError ""
  | Hangs => throw TimeoutError ""
  end.

(* ================================================================== *)
(** ** Effects: state passing with exceptions *)
(* ================================================================== *)

(** a computation on a state [S] that returns or raises *)
Definition M (S A : Type) : Type := S -> res A * S.

Definition ret {S A} (a : A) : M S A := fun s => (inr a, s).

Definition raise {S A} (x : exn) : M S A := fun s => (inl x, s).

Definition bind {S A B} (m : M S A) (k : A -> M S B) : M S B :=
  fun s =>
    match m s with
    | (inr a, s') => k a s'
    | (inl x, s') => (inl x, s')
    end.

(** a pure computation that may raise *)
Definition lift {S A} (r : res A) : M S A := fun s => (r, s).

(** a total transition of the state *)
Definition perform {S A} (f : S -> A * S) : M S A :=
  fun s => let (a, s') := f s in (inr a, s').

(** [try: m except Exception as e: h e] *)
Definition catch {S A} (m : M S A) (h : exn -> M S A) : M S A :=
  fun s =>
    match m s with
    | (inr a, s') => (inr a, s')
    | (inl x, s') => h x s'
    end.

Notation "x <- m ;; k" := (bind m (fun x => k))
  (at level 61, m at next level, right associativity).
Notation "' pat <- m ;; k" := (bind m (fun x => match x with pat => k end))
  (at level 61, pat pattern, m at next level, right associativity).

(* ================================================================== *)
(** ** The runtime: numbers, library functions and the outside world *)
(* ================================================================== *)

Class Runtime : Type := {
  (** Python floats *)
  flt : Type;
  flt_lit : Q -> flt;                        (* a numeric literal as a float *)
  flt_is_zero : flt -> bool;                 (* x == 0 *)
  flt_sub : flt -> flt -> flt;
  flt_mul : flt -> flt -> flt;
  flt_div : flt -> flt -> flt;               (* by a non-zero divisor *)
  flt_of_Z : Z -> res flt;                   (* float(n), OverflowError *)
  int_truediv : Z -> Z -> res flt;           (* n / k on ints *)
  int_of_flt : flt -> res Z;                 (* int(x): inf and nan raise *)
  int_of_str : string -> res Z;              (* int(s) *)
  float_of_str : string -> res flt;          (* float(s) *)
  fmt_1f : flt -> string;                    (* format(x, ".1f") *)
  py_str : value flt -> string;              (* str(x), "{x}" *)
  str_lower : string -> string;              (* s.lower() *)
  str_strip : string -> string;              (* s.strip() *)
  (** [_haversine_distance(lat1, lon1, lat2, lon2)]: floating-point
      trigonometry, [TypeError] on a non-number, [ValueError] from [sqrt] *)
  _haversine_distance :
    value flt -> value flt -> value flt -> value flt -> res flt;
  (** json *)
  json_loads : string -> res (value flt);
  json_dumps : value flt -> string;          (* with _DateTimeEncoder *)
  (** process environment *)
  getenv : string -> option string;
  (** the outside world *)
  Env : Type;
  time_time : Env -> flt * Env;
  utcnow : Env -> string * Env;
  http_send : http_request flt -> Env -> http_outcome flt * Env;
  AsyncOpenAI : option string -> res unit;
  chat_completions_create :
    chat_request flt -> Env -> awaitable chat_completion * Env;
}.

Section Program.
Context {RT : Runtime}.

Local Abbreviation val := (value flt).

(* ------------------------------------------------------------------ *)
(** *** Python operations on values *)

(** [bool(v)] *)
Definition truthy (v : val) : bool :=
  match v with
  | VNone => false
  | VBool b => b
  | VInt z => negb (z =? 0)%Z
  | VFloat f => negb (flt_is_zero f)
  | VStr s => negb (String.eqb s "")
  | VList l => match l with [] => false | _ => true end
  | VDict d => match d with [] => false | _ => true end
  | VDatetime _ => true
  end.

(** [v is None] *)
Definition is_none (v : val) : bool :=
  match v with VNone => true | _ => false end.

(** [v.get(k, default)]: only a dict has [get]. *)
Definition py_get (v : val) (k : string) (default : val) : res val :=
  match v with
  | VDict d => ok (match dict_lookup k d with Some x => x | None => default end)
  | _ => throw AttributeError "object has no attribute 'get'"
  end.

Fixpoint chars (s : string) : list val :=
  match s with
  | EmptyString => []
  | String c s' => VStr (String c EmptyString) :: chars s'
  end.

(** the items that [for x in v] visits *)
Definition py_iter (v : val) : res (list val) :=
  match v with
  | VList l => ok l
  | VStr s => ok (chars s)
  | VDict d => ok (map (fun kv => VStr (fst kv)) d)
  | _ => throw TypeError "object is not iterable"
  end.

(** [v[i]] for a literal index [i] *)
Definition py_index (v : val) (i : nat) : res val :=
  match v with
  | VList l =>
      match nth_error l i with
      | Some x => ok x
      | None => throw IndexError "list index out of range"
      end
  | VStr s =>
      match nth_error (chars s) i with
      | Some x => ok x
      | None => throw IndexError "string index out of range"
      end
  | VDict _ => throw KeyError (str_of_nat i)
  | _ => throw TypeError "object is not subscriptable"
  end.

(** [len(v)] *)
Definition py_len (v : val) : res nat :=
  match v with
  | VList l => ok (List.length l)
  | VStr s => ok (String.length s)
  | VDict d => ok (List.length d)
  | _ => throw TypeError "object has no len()"
  end.

(** [d[k]] on a dict *)
Definition dict_getitem (k : string) (d : list (string * val)) : res val :=
  match dict_lookup k d with
  | Some v => ok v
  | None => throw KeyError k
  end.

Definition Z_of_bool (b : bool) : Z := if b then 1 else 0.

(** [int(v)]; [bool] is a subclass of [int] *)
Definition py_int (v : val) : res Z :=
  match v with
  | VInt z => ok z
  | VBool b => ok (Z_of_bool b)
  | VFloat f => int_of_flt f
  | VStr s => int_of_str s
  | _ => throw TypeError "int() argument must be a string or a number"
  end.

(** [float(v)] *)
Definition py_float (v : val) : res flt :=
  match v with
  | VInt z => flt_of_Z z
  | VBool b => flt_of_Z (Z_of_bool b)
  | VFloat f => ok f
  | VStr s => float_of_str s
  | _ => throw TypeError "float() argument must be a string or a number"
  end.

(** [v / k] for a positive int literal [k] *)
Definition py_truediv (v : val) (k : Z) : res flt :=
  match v with
  | VInt z => int_truediv z k
  | VBool b => int_truediv (Z_of_bool b) k
  | VFloat f => ok (flt_div f (flt_lit (inject_Z k)))
  | _ => throw TypeError "unsupported operand type(s) for /"
  end.

(** [v * x] for a float literal [x] *)
Definition py_mul_float (v : val) (x : Q) : res val :=
  match v with
  | VInt z =>
      match flt_of_Z z with
      | inl e => inl e
      | inr f => ok (VFloat (flt_mul f (flt_lit x)))
      end
  | VBool b =>
      match flt_of_Z (Z_of_bool b) with
      | inl e => inl e
      | inr f => ok (VFloat (flt_mul f (flt_lit x)))
      end
  | VFloat f => ok (VFloat (flt_mul f (flt_lit x)))
  | _ => throw TypeError "unsupported operand type(s) for *"
  end.

(** [v * k] for an int literal [k], on a number *)
Definition py_mul_int (v : val) (k : Z) : res val :=
  match v with
  | VInt z => ok (VInt (z * k)%Z)
  | VBool b => ok (VInt (Z_of_bool b * k)%Z)
  | VFloat f => ok (VFloat (flt_mul f (flt_lit (inject_Z k))))
  | _ => throw TypeError "unsupported operand type(s) for *"
  end.

Definition VLen (n : nat) : val := VInt (Z.of_nat n).

(** backend code runs on the environment alone *)
Definition IO (A : Type) : Type := M Env A.

(* ================================================================== *)
(** ** src/agents/schemas.py *)
(* ================================================================== *)

Record ToolUsage : Type := mkToolUsage {
  endpoint : string;
  duration_ms : flt;
  timestamp : string;
}.

Record ToolResponse : Type := mkToolResponse {
  status : string;
  data : option (list (string * val));
  message : option string;
  usage : option ToolUsage;
  error_code : option string;
}.

(** [ToolUsage(endpoint=..., duration_ms=...)]: the timestamp comes from
    [default_factory=datetime.utcnow]. *)
Definition new_ToolUsage (ep : string) (ms : flt) : IO ToolUsage :=
  ts <- perform utcnow ;;
  ret (mkToolUsage ep ms ts).

Definition dump_usage (u : ToolUsage) : val :=
  VDict [("endpoint", VStr (endpoint u));
         ("duration_ms", VFloat (duration_ms u));
         ("timestamp", VDatetime (timestamp u))].

Definition field {A} (k : string) (f : A -> val) (o : option A)
  : list (string * val) :=
  match o with
  | Some a => [(k, f a)]
  | None => []
  end.

(** [r.model_dump(exclude_none=True)]: fields in declaration order, those
    that are [None] left out. *)
Definition model_dump (r : ToolResponse) : list (string * val) :=
  [("status", VStr (status r))]
  ++ field "data" (fun d => VDict d) (data r)
  ++ field "message" (fun s => VStr s) (message r)
  ++ field "usage" dump_usage (usage r)
  ++ field "error_code" (fun s => VStr s) (error_code r).

(* ================================================================== *)
(** ** src/servers/tiles/providers.py *)
(* ================================================================== *)

Definition provider_entry (name description url_template : string)
    (min_zoom max_zoom : Z) (attribution license : string)
  : list (string * val) :=
  [("name", VStr name);
   ("description", VStr description);
   ("url_template", VStr url_template);
   ("min_zoom", VInt min_zoom);
   ("max_zoom", VInt max_zoom);
   ("attribution", VStr attribution);
   ("license", VStr license)].

Definition TILE_PROVIDERS : list (string * list (string * val)) :=
  [("openstreetmap",
    provider_entry "OpenStreetMap"
      "The Free and Open Collaborative Mapping Project"
      "https://tile.openstreetmap.org/{z}/{x}/{y}.png"
      0 19 "&copy; OpenStreetMap contributors" "ODbL");
   ("stamen_toner",
    provider_entry "Stamen Toner" "Minimalist map tiles"
      "https://tiles.stadiamaps.com/tiles/stamen_toner/{z}/{x}/{y}.png"
      0 20 "Map tiles by Stadia Maps, Data by OpenStreetMap" "CC BY 3.0");
   ("stamen_tonerbackground",
    provider_entry "Stamen Toner Background" "Toner map without labels"
      "https://tiles.stadiamaps.com/tiles/stamen_toner_background/{z}/{x}/{y}.png"
      0 20 "Map tiles by Stadia Maps, Data by OpenStreetMap" "CC BY 3.0");
   ("carto_positron",
    provider_entry "CARTO Positron" "Light basemap with detailed labels"
      "https://cartodb-basemaps-a.global.ssl.fastly.net/light_all/{z}/{x}/{y}.png"
      0 19 "&copy; OpenStreetMap contributors &copy; CARTO" "CC BY 4.0");
   ("carto_voyager",
    provider_entry "CARTO Voyager" "Colorful and detailed basemap"
      "https://cartodb-basemaps-a.global.ssl.fastly.net/rastered_and_labels/{z}/{x}/{y}.png"
      0 19 "&copy; OpenStreetMap contributors &copy; CARTO" "CC BY 4.0");
   ("usgs_topo",
    provider_entry "USGS Topo" "USGS topographic maps"
      "https://basemap.nationalmap.gov/arcgis/rest/services/USGSTopo/MapServer/tile/{z}/{y}/{x}"
      0 16 "USGS" "Public Domain")].

Definition get_tile_providers : list (string * list (string * val)) :=
  TILE_PROVIDERS.

(** [TILE_PROVIDERS.get(provider_id)]: a list or dict key is unhashable,
    any other non-string key is simply absent. *)
Definition get_tile_provider (provider_id : val)
  : res (option (list (string * val))) :=
  match provider_id with
  | VStr s => ok (dict_lookup s TILE_PROVIDERS)
  | VList _ | VDict _ => throw TypeError "unhashable type"
  | _ => ok None
  end.

Definition list_providers : list string := map fst TILE_PROVIDERS.

Definition nonempty {A} (l : list A) : bool :=
  match l with [] => false | _ => true end.

Definition get_provider_info (provider_id : val)
  : res (option (list (string * val))) :=
  match get_tile_provider provider_id with
  | inl e => inl e
  | inr (Some provider) =>
      if nonempty provider
      then ok (Some (dict_set "id" provider_id provider))
      else ok None
  | inr None => ok None
  end.

Definition get_attribution (provider_id : val) : res val :=
  match get_tile_provider provider_id with
  | inl e => inl e
  | inr (Some provider) =>
      if nonempty provider
      then ok (match dict_lookup "attribution" provider with
               | Some a => a
               | None => VNone
               end)
      else ok VNone
  | inr None => ok VNone
  end.

(* ================================================================== *)
(** ** src/servers/tiles/tools.py *)
(* ================================================================== *)

(** a JSON-schema property with a type and a description *)
Definition described (ty description : string) : val :=
  VDict [("type", VStr ty); ("description", VStr description)].

(** the same with a default value *)
Definition described_default (ty description : string) (default : val) : val :=
  VDict [("type", VStr ty); ("description", VStr description);
         ("default", default)].

(** an object schema *)
Definition object_schema (properties : list (string * val))
    (required : list string) : val :=
  VDict [("type", VStr "object");
         ("properties", VDict properties);
         ("required", VList (map (fun s => VStr s) required))].

Definition get_tiles_tools : list (tool_spec flt) :=
  [mkToolSpec "list_tile_providers"
     "List all available tile layer providers with basic information"
     (object_schema [] []);
   mkToolSpec "get_tile_provider_info"
     "Get detailed information about a specific tile provider including URL template and attribution"
     (object_schema
        [("provider_id",
          described "string"
            "The ID of the tile provider (e.g., 'openstreetmap', 'carto_positron')")]
        ["provider_id"]);
   mkToolSpec "get_tile_attribution"
     "Get the attribution/credit string for a specific tile provider"
     (object_schema
        [("provider_id", described "string" "The ID of the tile provider")]
        ["provider_id"])].

Fixpoint tile_provider_list (ps : list (string * list (string * val)))
  : res (list val) :=
  match ps with
  | [] => ok []
  | (provider_id, info) :: rest =>
      match dict_getitem "name" info with
      | inl e => inl e
      | inr name =>
          match dict_getitem "description" info with
          | inl e => inl e
          | inr description =>
              match tile_provider_list rest with
              | inl e => inl e
              | inr tl =>
                  ok (VDict [("id", VStr provider_id);
                             ("name", name);
                             ("description", description)] :: tl)
              end
          end
      end
  end.

Definition handle_tiles_tool (tool_name : string) (tool_input : val)
  : IO (list (string * val)) :=
  result <-
    (if String.eqb tool_name "list_tile_providers" then
       provider_list <- lift (tile_provider_list get_tile_providers) ;;
       ret (mkToolResponse "success"
              (Some [("providers", VList provider_list);
                     ("count", VLen (List.length provider_list))])
              (Some ("Found " ++ str_of_nat (List.length provider_list)
                     ++ " tile providers"))
              None None)
     else if String.eqb tool_name "get_tile_provider_info" then
       provider_id <- lift (py_get tool_input "provider_id" (VStr "")) ;;
       info <- lift (get_provider_info provider_id) ;;
       match info with
       | None =>
           ret (mkToolResponse "error" None
                  (Some ("Provider '" ++ py_str provider_id ++ "' not found"))
                  None (Some "NOT_FOUND"))
       | Some info =>
           ret (mkToolResponse "success" (Some info)
                  (Some ("Provider information for " ++ py_str provider_id))
                  None None)
       end
     else if String.eqb tool_name "get_tile_attribution" then
       provider_id <- lift (py_get tool_input "provider_id" (VStr "")) ;;
       attribution <- lift (get_attribution provider_id) ;;
       if is_none attribution then
         ret (mkToolResponse "error" None
                (Some ("Provider '" ++ py_str provider_id ++ "' not found"))
                None (Some "NOT_FOUND"))
       else
         ret (mkToolResponse "success"
                (Some [("provider_id", provider_id);
                       ("attribution", attribution)])
                (Some ("Attribution for " ++ py_str provider_id))
                None None)
     else
       ret (mkToolResponse "error" None
              (Some ("Unknown tool: " ++ tool_name))
              None (Some "UNKNOWN_TOOL"))) ;;
  ret (model_dump result).

(* ================================================================== *)
(** ** src/servers/routing/client.py *)
(* ================================================================== *)

Definition getenv_default (k default : string) : string :=
  match getenv k with Some v => v | None => default end.

Record OSRMClient : Type := mkOSRMClient {
  osrm_base_url : string;
  osrm_timeout : flt;
  osrm_user_agent : string;
}.

(** [OSRMClient()]: both arguments default to [None], so the base URL and
    the timeout come from the process environment. *)
Definition new_OSRMClient : res OSRMClient :=
  match py_float (VStr (getenv_default "OSRM_TIMEOUT_SECONDS" "15")) with
  | inl e => inl e
  | inr t =>
      ok (mkOSRMClient
            (getenv_default "OSRM_BASE_URL" "http://router.project-osrm.org")
            t "mcp-map-agents/0.1")
  end.

(** [(time.time() - start_time) * 1000] *)
Definition elapsed_ms (start_time : flt) : IO flt :=
  now <- perform time_time ;;
  ret (flt_mul (flt_sub now start_time) (flt_lit (inject_Z 1000))).

(** [v == s] for a string literal [s] *)
Definition val_eq_str (v : val) (s : string) : bool :=
  match v with VStr s' => String.eqb s' s | _ => false end.

(** the [try] of every OSRM call: the body [k] runs on the decoded
    response, the two [except] clauses turn an httpx failure into an error
    response, anything else propagates *)
Definition osrm_try (start_time : flt) (ep : string)
    (out : http_outcome flt) (k : val -> IO ToolResponse) : IO ToolResponse :=
  match out with
  | HttpJson result => k result
  | HttpTimeout =>
      ms <- elapsed_ms start_time ;;
      u <- new_ToolUsage ep ms ;;
      ret (mkToolResponse "error" None (Some "OSRM request timed out")
             (Some u) (Some "TIMEOUT"))
  | HttpError msg =>
      ms <- elapsed_ms start_time ;;
      u <- new_ToolUsage ep ms ;;
      ret (mkToolResponse "error" None (Some ("OSRM API error: " ++ msg))
             (Some u) (Some "HTTP_ERROR"))
  | HttpRaises e => raise e
  end.

Definition route (self : OSRMClient)
    (start_lat start_lon end_lat end_lon profile : val) : IO ToolResponse :=
  start_time <- perform time_time ;;
  let ep := osrm_base_url self ++ "/route/v1/" ++ py_str profile ++ "/"
            ++ py_str start_lon ++ "," ++ py_str start_lat ++ ";"
            ++ py_str end_lon ++ "," ++ py_str end_lat in
  out <- perform (http_send
           (mkRequest GET ep
              [("overview", VStr "full"); ("steps", VStr "true");
               ("geometries", VStr "geojson")]
              None (osrm_timeout self))) ;;
  osrm_try start_time ep out (fun result =>
      ms <- elapsed_ms start_time ;;
      routes <- lift (py_get result "routes" VNone) ;;
      if negb (truthy routes) then
        u <- new_ToolUsage ep ms ;;
        ret (mkToolResponse "error" None (Some "No route found")
               (Some u) (Some "NO_ROUTE"))
      else
        (* result["routes"][0]: the key is present, [routes] is its value *)
        rt <- lift (py_index routes 0) ;;
        distance <- lift (py_get rt "distance" (VInt 0)) ;;
        duration <- lift (py_get rt "duration" (VInt 0)) ;;
        geometry <- lift (py_get rt "geometry" VNone) ;;
        legs <- lift (py_get rt "legs" VNone) ;;
        km <- lift (py_truediv distance 1000) ;;
        minutes <- lift (py_truediv duration 60) ;;
        u <- new_ToolUsage ep ms ;;
        ret (mkToolResponse "success"
               (Some [("distance_meters", distance);
                      ("duration_seconds", duration);
                      ("geometry", geometry);
                      ("legs", legs);
                      ("profile", profile)])
               (Some ("Route found: " ++ fmt_1f km ++ " km, "
                      ++ fmt_1f minutes ++ " minutes"))
               (Some u) None)).

(** ["{lon},{lat}"] for each [(lat, lon)] *)
Definition lonlat (p : val * val) : string :=
  py_str (snd p) ++ "," ++ py_str (fst p).

Definition distance_matrix (self : OSRMClient)
    (sources destinations : list (val * val)) (profile : val)
  : IO ToolResponse :=
  start_time <- perform time_time ;;
  if negb (nonempty sources) || negb (nonempty destinations) then
    ret (mkToolResponse "error" None
           (Some "Sources and destinations must not be empty")
           None (Some "INVALID_INPUT"))
  else
    let coords_str := join ";" (map lonlat (sources ++ destinations)) in
    let ep := osrm_base_url self ++ "/table/v1/" ++ py_str profile ++ "/"
              ++ coords_str in
    let num_sources := List.length sources in
    let source_indices := join "," (map str_of_nat (seq 0 num_sources)) in
    let dest_indices :=
      join "," (map str_of_nat (seq num_sources (List.length destinations))) in
    out <- perform (http_send
             (mkRequest GET ep
                [("sources", VStr source_indices);
                 ("destinations", VStr dest_indices)]
                None (osrm_timeout self))) ;;
    osrm_try start_time ep out (fun result =>
        ms <- elapsed_ms start_time ;;
        code <- lift (py_get result "code" VNone) ;;
        if negb (val_eq_str code "Ok") then
          msg <- lift (py_get result "message" (VStr "Unknown error")) ;;
          u <- new_ToolUsage ep ms ;;
          ret (mkToolResponse "error" None
                 (Some ("OSRM error: " ++ py_str msg))
                 (Some u) (Some "OSRM_ERROR"))
        else
          distances <- lift (py_get result "distances" VNone) ;;
          durations <- lift (py_get result "durations" VNone) ;;
          srcs <- lift (py_get result "sources" VNone) ;;
          dsts <- lift (py_get result "destinations" VNone) ;;
          u <- new_ToolUsage ep ms ;;
          ret (mkToolResponse "success"
                 (Some [("distances", distances);
                        ("durations", durations);
                        ("sources", srcs);
                        ("destinations", dsts);
                        ("profile", profile)])
                 (Some ("Distance matrix computed for "
                        ++ str_of_nat num_sources ++ " sources and "
                        ++ str_of_nat (List.length destinations)
                        ++ " destinations"))
                 (Some u) None)).

Definition match_trace (self : OSRMClient)
    (coordinates : list (val * val)) (profile : val) : IO ToolResponse :=
  start_time <- perform time_time ;;
  if negb (nonempty coordinates) || (List.length coordinates <? 2)%nat then
    ret (mkToolResponse "error" None (Some "Need at least 2 coordinates")
           None (Some "INVALID_INPUT"))
  else
    let coords_str := join ";" (map lonlat coordinates) in
    let ep := osrm_base_url self ++ "/match/v1/" ++ py_str profile ++ "/"
              ++ coords_str in
    out <- perform (http_send
             (mkRequest GET ep
                [("overview", VStr "full"); ("geometries", VStr "geojson")]
                None (osrm_timeout self))) ;;
    osrm_try start_time ep out (fun result =>
        ms <- elapsed_ms start_time ;;
        code <- lift (py_get result "code" VNone) ;;
        if negb (val_eq_str code "Ok") then
          msg <- lift (py_get result "message" (VStr "Unknown error")) ;;
          u <- new_ToolUsage ep ms ;;
          ret (mkToolResponse "error" None
                 (Some ("OSRM error: " ++ py_str msg))
                 (Some u) (Some "OSRM_ERROR"))
        else
          matchings <- lift (py_get result "matchings" VNone) ;;
          tracepoints <- lift (py_get result "tracepoints" VNone) ;;
          matchings' <- lift (py_get result "matchings" (VList [])) ;;
          n <- lift (py_len matchings') ;;
          u <- new_ToolUsage ep ms ;;
          ret (mkToolResponse "success"
                 (Some [("matchings", matchings);
                        ("tracepoints", tracepoints);
                        ("profile", profile)])
                 (Some ("Matched " ++ str_of_nat n ++ " segment(s)"))
                 (Some u) None)).

(* ================================================================== *)
(** ** src/servers/routing/tools.py *)
(* ================================================================== *)

(** the [profile] property shared by the three routing tools *)
Definition profile_property : val :=
  VDict [("type", VStr "string");
         ("description", VStr "Routing profile: 'car', 'bike', or 'foot'");
         ("enum", VList [VStr "car"; VStr "bike"; VStr "foot"]);
         ("default", VStr "car")].

(** an array of [latitude, longitude] pairs *)
Definition pairs_property (description : string) : val :=
  VDict [("type", VStr "array");
         ("description", VStr description);
         ("items",
          VDict [("type", VStr "array");
                 ("minItems", VInt 2);
                 ("maxItems", VInt 2);
                 ("items", VDict [("type", VStr "number")])])].

Definition get_routing_tools : list (tool_spec flt) :=
  [mkToolSpec "route"
     "Calculate the best route between two points"
     (object_schema
        [("start_latitude",
          described "number" "Starting latitude (e.g., 40.7128)");
         ("start_longitude",
          described "number" "Starting longitude (e.g., -74.0060)");
         ("end_latitude", described "number" "Ending latitude");
         ("end_longitude", described "number" "Ending longitude");
         ("profile", profile_property)]
        ["start_latitude"; "start_longitude"; "end_latitude";
         "end_longitude"]);
   mkToolSpec "distance_matrix"
     "Calculate distances and travel times between multiple source and destination points"
     (object_schema
        [("sources",
          pairs_property
            "List of [latitude, longitude] pairs for source points");
         ("destinations",
          pairs_property
            "List of [latitude, longitude] pairs for destination points");
         ("profile", profile_property)]
        ["sources"; "destinations"]);
   mkToolSpec "match_trace"
     "Match a GPS trace (sequence of coordinates) to the road network"
     (object_schema
        [("coordinates",
          pairs_property
            "List of [latitude, longitude] pairs representing the trace");
         ("profile", profile_property)]
        ["coordinates"])].

(** [[(coord[0], coord[1]) for coord in items]] *)
Fixpoint coord_pairs (items : list val) : res (list (val * val)) :=
  match items with
  | [] => ok []
  | coord :: rest =>
      match py_index coord 0 with
      | inl e => inl e
      | inr c0 =>
          match py_index coord 1 with
          | inl e => inl e
          | inr c1 =>
              match coord_pairs rest with
              | inl e => inl e
              | inr tl => ok ((c0, c1) :: tl)
              end
          end
      end
  end.

(** [[(coord[0], coord[1]) for coord in tool_input.get(k, [])]] *)
Definition input_pairs (tool_input : val) (k : string)
  : IO (list (val * val)) :=
  v <- lift (py_get tool_input k (VList [])) ;;
  items <- lift (py_iter v) ;;
  lift (coord_pairs items).

(** the dict an unknown name is answered with, built without ToolResponse *)
Definition unknown_tool (tool_name : string) : list (string * val) :=
  [("status", VStr "error");
   ("message", VStr ("Unknown tool: " ++ tool_name))].

Definition handle_routing_tool (tool_name : string) (tool_input : val)
  : IO (list (string * val)) :=
  client <- lift new_OSRMClient ;;
  if String.eqb tool_name "route" then
    start_lat <- lift (py_get tool_input "start_latitude" (VInt 0)) ;;
    start_lon <- lift (py_get tool_input "start_longitude" (VInt 0)) ;;
    end_lat <- lift (py_get tool_input "end_latitude" (VInt 0)) ;;
    end_lon <- lift (py_get tool_input "end_longitude" (VInt 0)) ;;
    profile <- lift (py_get tool_input "profile" (VStr "car")) ;;
    result <- route client start_lat start_lon end_lat end_lon profile ;;
    ret (model_dump result)
  else if String.eqb tool_name "distance_matrix" then
    sources <- input_pairs tool_input "sources" ;;
    destinations <- input_pairs tool_input "destinations" ;;
    match sources, destinations with
    | [s], [d] =>
        (* OPTIMIZATION: for single A->B queries, use /route, not /table *)
        profile <- lift (py_get tool_input "profile" (VStr "car")) ;;
        result <- route client (fst s) (snd s) (fst d) (snd d) profile ;;
        ret (model_dump result)
    | _, _ =>
        profile <- lift (py_get tool_input "profile" (VStr "car")) ;;
        result <- distance_matrix client sources destinations profile ;;
        ret (model_dump result)
    end
  else if String.eqb tool_name "match_trace" then
    coordinates <- input_pairs tool_input "coordinates" ;;
    profile <- lift (py_get tool_input "profile" (VStr "car")) ;;
    result <- match_trace client coordinates profile ;;
    ret (model_dump result)
  else
    ret (unknown_tool tool_name).

(* ================================================================== *)
(** ** src/servers/geocoding/client.py *)
(* ================================================================== *)

Definition OVERPASS_API : string := "https://overpass-api.de/api/interpreter".

Record NominatimClient : Type := mkNominatimClient {
  nominatim_base_url : string;
  nominatim_timeout : flt;
  nominatim_user_agent : string;
}.

Definition new_NominatimClient : res NominatimClient :=
  match py_float (VStr (getenv_default "NOMINATIM_TIMEOUT_SECONDS" "10")) with
  | inl e => inl e
  | inr t =>
      ok (mkNominatimClient
            (getenv_default "NOMINATIM_BASE_URL"
               "https://nominatim.openstreetmap.org")
            t "mcp-map-agents/0.1")
  end.

(** the [try] of [forward_geocode] and [reverse_geocode] *)
Definition nominatim_try (start_time : flt) (ep : string)
    (out : http_outcome flt) (k : val -> IO ToolResponse) : IO ToolResponse :=
  match out with
  | HttpJson result => k result
  | HttpTimeout =>
      ms <- elapsed_ms start_time ;;
      u <- new_ToolUsage ep ms ;;
      ret (mkToolResponse "error" None (Some "Nominatim request timed out")
             (Some u) (Some "TIMEOUT"))
  | HttpError msg =>
      ms <- elapsed_ms start_time ;;
      u <- new_ToolUsage ep ms ;;
      ret (mkToolResponse "error" None
             (Some ("Nominatim API error: " ++ msg))
             (Some u) (Some "HTTP_ERROR"))
  | HttpRaises e => raise e
  end.

(** one entry of [formatted_results] in [forward_geocode] *)
Definition format_place (r : val) : res val :=
  match py_get r "display_name" (VStr "") with
  | inl e => inl e
  | inr name =>
  match py_get r "lat" (VInt 0) with
  | inl e => inl e
  | inr lat =>
  match py_float lat with
  | inl e => inl e
  | inr latitude =>
  match py_get r "lon" (VInt 0) with
  | inl e => inl e
  | inr lon =>
  match py_float lon with
  | inl e => inl e
  | inr longitude =>
  match py_get r "importance" (VInt 0) with
  | inl e => inl e
  | inr importance =>
      ok (VDict [("name", name);
                 ("latitude", VFloat latitude);
                 ("longitude", VFloat longitude);
                 ("importance", importance)])
  end end end end end end.

Fixpoint format_places (rs : list val) : res (list val) :=
  match rs with
  | [] => ok []
  | r :: rest =>
      match format_place r with
      | inl e => inl e
      | inr x =>
          match format_places rest with
          | inl e => inl e
          | inr tl => ok (x :: tl)
          end
      end
  end.

Definition forward_geocode (self : NominatimClient) (query limit : val)
  : IO ToolResponse :=
  start_time <- perform time_time ;;
  let ep := nominatim_base_url self ++ "/search" in
  out <- perform (http_send
           (mkRequest GET ep
              [("q", query); ("format", VStr "json"); ("limit", limit)]
              None (nominatim_timeout self))) ;;
  nominatim_try start_time ep out (fun results =>
      ms <- elapsed_ms start_time ;;
      if negb (truthy results) then
        u <- new_ToolUsage ep ms ;;
        ret (mkToolResponse "success"
               (Some [("results", VList []); ("query", query)])
               (Some "No results found") (Some u) None)
      else
        items <- lift (py_iter results) ;;
        formatted_results <- lift (format_places items) ;;
        n <- lift (py_len results) ;;
        u <- new_ToolUsage ep ms ;;
        ret (mkToolResponse "success"
               (Some [("results", VList formatted_results); ("query", query)])
               (Some ("Found " ++ str_of_nat n ++ " result(s)"))
               (Some u) None)).

Definition reverse_geocode (self : NominatimClient) (latitude longitude : val)
  : IO ToolResponse :=
  start_time <- perform time_time ;;
  let ep := nominatim_base_url self ++ "/reverse" in
  out <- perform (http_send
           (mkRequest GET ep
              [("lat", latitude); ("lon", longitude); ("format", VStr "json")]
              None (nominatim_timeout self))) ;;
  nominatim_try start_time ep out (fun result =>
      ms <- elapsed_ms start_time ;;
      address <- lift (py_get result "address" (VDict [])) ;;
      display_name <- lift (py_get result "display_name" (VStr "")) ;;
      u <- new_ToolUsage ep ms ;;
      ret (mkToolResponse "success"
             (Some [("address", address);
                    ("display_name", display_name);
                    ("latitude", latitude);
                    ("longitude", longitude)])
             (Some "Reverse geocoding successful") (Some u) None)).

Definition amenity_map : list (string * string) :=
  [("restaurant", "amenity=restaurant");
   ("cafe", "amenity=cafe");
   ("coffee", "amenity=cafe");
   ("bar", "amenity=bar");
   ("pub", "amenity=pub");
   ("museum", "tourism=museum");
   ("hotel", "tourism=hotel");
   ("hospital", "amenity=hospital");
   ("pharmacy", "amenity=pharmacy");
   ("park", "leisure=park");
   ("school", "amenity=school");
   ("shop", "shop=*");
   ("grocery", "shop=supermarket|shop=convenience");
   ("church", "amenity=place_of_worship");
   ("mosque", "amenity=place_of_worship;religion=muslim")].

(** the first tag whose key occurs in the query, if any *)
Fixpoint detect_amenity (m : list (string * string)) (query_lower : string)
  : option string :=
  match m with
  | [] => None
  | (key, tag) :: rest =>
      if contains key query_lower then Some tag
      else detect_amenity rest query_lower
  end.

Definition newline : string := String (ascii_of_nat 10) EmptyString.

Definition _search_overpass (self : NominatimClient)
    (latitude longitude radius : val) (amenity_tag query_lower : string)
  : IO (list val) :=
  r <- lift (py_int radius) ;;
  let bbox_query := "(around:" ++ str_of_Z r ++ "," ++ py_str latitude ++ ","
                    ++ py_str longitude ++ ")" in
  let filter_query :=
    "node" ++ bbox_query ++ "[" ++ amenity_tag ++ "];way" ++ bbox_query
    ++ "[" ++ amenity_tag ++ "];relation" ++ bbox_query
    ++ "[" ++ amenity_tag ++ "];" in
  let overpass_query :=
    newline ++ "            [out:json];"
    ++ newline ++ "            ("
    ++ newline ++ "              " ++ filter_query
    ++ newline ++ "            );"
    ++ newline ++ "            out body;"
    ++ newline ++ "            " in
  out <- perform (http_send
           (mkRequest POST OVERPASS_API [] (Some overpass_query)
              (flt_lit (inject_Z 15)))) ;;
  match out with
  | HttpJson data =>
      result <- lift (py_get data "elements" (VList [])) ;;
      match result with
      | VList l => ret l
      | _ => ret []
      end
  | HttpTimeout | HttpError _ =>
      (* silently fail to allow fallback to larger radius *)
      ret []
  | HttpRaises e => raise e
  end.

(** the loop over [search_radii]: returns the last [results] together with
    the last value of the loop variable [search_radius] *)
Fixpoint try_radii (self : NominatimClient) (latitude longitude : val)
    (amenity_tag query_lower : string)
    (search_radii : list val) (results : list val) (search_radius : val)
  : IO (list val * val) :=
  match search_radii with
  | [] => ret (results, search_radius)
  | r :: rest =>
      results' <- _search_overpass self latitude longitude r
                    amenity_tag query_lower ;;
      if nonempty results' then ret (results', r)
      else try_radii self latitude longitude amenity_tag query_lower
             rest results' r
  end.

(** one entry of [formatted_results] in [poi_search] *)
Record poi : Type := mkPoi {
  poi_name : val;
  poi_latitude : val;
  poi_longitude : val;
  poi_type : val;
  poi_distance_meters : Z;
  poi_details : val;
}.

Definition dump_poi (x : poi) : val :=
  VDict [("name", poi_name x);
         ("latitude", poi_latitude x);
         ("longitude", poi_longitude x);
         ("type", poi_type x);
         ("distance_meters", VInt (poi_distance_meters x));
         ("details", poi_details x)].

(** [a or b] *)
Definition py_or (a b : val) : val := if truthy a then a else b.

(** the body of the formatting loop: [None] is [continue] *)
Definition format_elem (latitude longitude elem : val) : res (option poi) :=
  match py_get elem "tags" (VDict []) with
  | inl e => inl e
  | inr tags =>
  match py_get elem "lat" VNone with
  | inl e => inl e
  | inr lat =>
  match py_get elem "lon" VNone with
  | inl e => inl e
  | inr lon =>
  if is_none lat || is_none lon then ok None else
  match _haversine_distance latitude longitude lat lon with
  | inl e => inl e
  | inr distance =>
  match py_get tags "brand" (VStr "Unnamed") with
  | inl e => inl e
  | inr brand =>
  match py_get tags "name" brand with
  | inl e => inl e
  | inr name =>
  match py_get tags "amenity" VNone, py_get tags "tourism" VNone,
        py_get tags "leisure" VNone with
  | inr amenity, inr tourism, inr leisure =>
  match int_of_flt distance with
  | inl e => inl e
  | inr meters =>
  match py_get tags "phone" VNone, py_get tags "website" VNone,
        py_get tags "opening_hours" VNone with
  | inr phone, inr website, inr opening_hours =>
      ok (Some (mkPoi name lat lon
                  (py_or amenity (py_or tourism (py_or leisure (VStr "POI"))))
                  meters
                  (if truthy phone || truthy website || truthy opening_hours
                   then VDict [("phone", phone); ("website", website);
                               ("opening_hours", opening_hours)]
                   else VNone)))
  | inl e, _, _ | _, inl e, _ | _, _, inl e => inl e
  end end
  | inl e, _, _ | _, inl e, _ | _, _, inl e => inl e
  end end end end end end end.

Fixpoint format_results (latitude longitude : val) (results : list val)
  : res (list poi) :=
  match results with
  | [] => ok []
  | elem :: rest =>
      match format_elem latitude longitude elem with
      | inl e => inl e
      | inr o =>
          match format_results latitude longitude rest with
          | inl e => inl e
          | inr tl => ok (match o with Some x => x :: tl | None => tl end)
          end
      end
  end.

(** [l.sort(key=...)]: a stable sort on integer keys *)
Section Sort.
Context {A : Type} (key : A -> Z).

Fixpoint insert_by (x : A) (l : list A) : list A :=
  match l with
  | [] => [x]
  | y :: l' => if (key x <=? key y)%Z then x :: l else y :: insert_by x l'
  end.

Definition sort_by (l : list A) : list A := fold_right insert_by [] l.
End Sort.

Definition poi_search (self : NominatimClient)
    (query latitude longitude radius : val) : IO ToolResponse :=
  start_time <- perform time_time ;;
  match query with
  | VStr q =>
      (* query.lower() needs a str *)
      let query_lower := str_strip (str_lower q) in
      let amenity_tag :=
        match detect_amenity amenity_map query_lower with
        | Some tag => if String.eqb tag "" then None else Some tag
        | None => None
        end in
      let amenity_tag :=
        match amenity_tag with
        | Some tag => tag
        | None => "name~" ++ dquote ++ q ++ dquote ++ ",i"
        end in
      r15 <- lift (py_mul_float radius (3 # 2)) ;;
      r3 <- lift (py_mul_int radius 3) ;;
      r5 <- lift (py_mul_int radius 5) ;;
      let search_radii := [radius; r15; r3; r5] in
      '(results, search_radius) <-
        try_radii self latitude longitude amenity_tag query_lower
          search_radii [] VNone ;;
      ms <- elapsed_ms start_time ;;
      let ep := OVERPASS_API in
      if negb (nonempty results) then
        last_radius <- lift (py_int r5) ;;
        u <- new_ToolUsage ep ms ;;
        ret (mkToolResponse "success"
               (Some [("results", VList []); ("query", query);
                      ("center", VList [latitude; longitude])])
               (Some ("No " ++ q ++ "(s) found within " ++ str_of_Z last_radius
                      ++ "m radius. Try a different search term."))
               (Some u) None)
      else
        formatted <- lift (format_results latitude longitude results) ;;
        let formatted_results := sort_by poi_distance_meters formatted in
        sr <- lift (py_int search_radius) ;;
        u <- new_ToolUsage ep ms ;;
        ret (mkToolResponse "success"
               (Some [("results", VList (map dump_poi (firstn 10 formatted_results)));
                      ("query", query);
                      ("center", VList [latitude; longitude]);
                      ("search_radius_meters", VInt sr);
                      ("total_found", VLen (List.length formatted_results))])
               (Some ("Found " ++ str_of_nat (List.length formatted_results)
                      ++ " " ++ q ++ "(s) near the location (showing top 10)"))
               (Some u) None)
  | _ => raise (mkExn AttributeError "object has no attribute 'lower'")
  end.

(* ================================================================== *)
(** ** src/servers/geocoding/tools.py *)
(* ================================================================== *)

Definition get_geocoding_tools : list (tool_spec flt) :=
  [mkToolSpec "forward_geocode"
     "Convert an address or place name to geographic coordinates (latitude/longitude)"
     (object_schema
        [("query",
          described "string"
            "The address or place name to geocode (e.g., 'New York City', '1600 Pennsylvania Avenue')");
         ("limit",
          described_default "integer"
            "Maximum number of results to return (default: 5)" (VInt 5))]
        ["query"]);
   mkToolSpec "reverse_geocode"
     "Convert geographic coordinates (latitude/longitude) to an address"
     (object_schema
        [("latitude",
          described "number" "Latitude in decimal degrees (e.g., 40.7128)");
         ("longitude",
          described "number" "Longitude in decimal degrees (e.g., -74.0060)")]
        ["latitude"; "longitude"]);
   mkToolSpec "poi_search"
     "Search for points of interest (restaurants, hotels, landmarks, etc.) near a location"
     (object_schema
        [("query",
          described "string"
            "The type of POI to search for (e.g., 'restaurants', 'hotels', 'museums')");
         ("latitude", described "number" "Latitude of the center point");
         ("longitude", described "number" "Longitude of the center point");
         ("radius",
          described_default "number"
            "Search radius in meters (default: 1000)" (VInt 1000))]
        ["query"; "latitude"; "longitude"])].

Definition handle_geocoding_tool (tool_name : string) (tool_input : val)
  : IO (list (string * val)) :=
  client <- lift new_NominatimClient ;;
  if String.eqb tool_name "forward_geocode" then
    query <- lift (py_get tool_input "query" (VStr "")) ;;
    limit <- lift (py_get tool_input "limit" (VInt 5)) ;;
    result <- forward_geocode client query limit ;;
    ret (model_dump result)
  else if String.eqb tool_name "reverse_geocode" then
    latitude <- lift (py_get tool_input "latitude" (VInt 0)) ;;
    longitude <- lift (py_get tool_input "longitude" (VInt 0)) ;;
    result <- reverse_geocode client latitude longitude ;;
    ret (model_dump result)
  else if String.eqb tool_name "poi_search" then
    query <- lift (py_get tool_input "query" (VStr "")) ;;
    latitude <- lift (py_get tool_input "latitude" (VInt 0)) ;;
    longitude <- lift (py_get tool_input "longitude" (VInt 0)) ;;
    radius <- lift (py_get tool_input "radius" (VInt 1000)) ;;
    result <- poi_search client query latitude longitude radius ;;
    ret (model_dump result)
  else
    ret (unknown_tool tool_name).

(* ================================================================== *)
(** ** src/agents/orchestrator.py *)
(* ================================================================== *)

Record MapAgentOrchestrator : Type := mkOrchestrator {
  model : string;
  tools : list (tool_spec flt);
  system_prompt : string;
}.

Definition SYSTEM_PROMPT : string :=
  "You are a helpful map assistant that helps users with geographic queries."
  ++ newline ++ "You have access to three map services:"
  ++ newline
  ++ newline ++ "1. **Geocoding Service** - For converting addresses to coordinates and vice versa, plus POI search"
  ++ newline ++ "2. **Routing Service** - For calculating routes between locations, distance matrices, and trace matching"
  ++ newline ++ "3. **Tiles/Metadata Service** - For information about map tile providers"
  ++ newline
  ++ newline ++ "When a user asks a question:"
  ++ newline ++ "1. Identify which service(s) are most relevant"
  ++ newline ++ "2. Call the appropriate tool(s) with the correct parameters"
  ++ newline ++ "3. Present the results in a clear, concise way with proper units (km, minutes, meters)"
  ++ newline ++ "4. When reporting distances, refer to them as " ++ dquote
  ++ "between [location A] and [location B]" ++ dquote ++ " - do NOT say "
  ++ dquote ++ "from your location" ++ dquote
  ++ " since you don't know the user's location"
  ++ newline ++ "5. Always include units in your responses (km for distance, minutes for time, meters for short distances)"
  ++ newline
  ++ newline ++ "Be conversational and helpful. If something fails, explain what went wrong clearly.".

(** [_build_tools] over the three catalogs it concatenates: three
    [tools.extend(...)] on an empty list *)
Definition build_tools_of (geocoding routing tiles : list (tool_spec flt))
  : list (tool_spec flt) :=
  (([] ++ geocoding) ++ routing) ++ tiles.

Definition _build_tools : list (tool_spec flt) :=
  build_tools_of get_geocoding_tools get_routing_tools get_tiles_tools.

(** [MapAgentOrchestrator.__init__] over the three catalogs: the only step
    that can raise is the construction of the API client *)
Definition init_of (geocoding routing tiles : list (tool_spec flt))
    (model : string)
  : res MapAgentOrchestrator :=
  match AsyncOpenAI (getenv "OPENAI_API_KEY") with
  | inl e => inl e
  | inr _ =>
      ok (mkOrchestrator model (build_tools_of geocoding routing tiles)
            SYSTEM_PROMPT)
  end.

(** [MapAgentOrchestrator(model)] *)
Definition new_MapAgentOrchestrator (model : string)
  : res MapAgentOrchestrator :=
  init_of get_geocoding_tools get_routing_tools get_tiles_tools model.

(** What the orchestrator does to the outside, in order: each submission
    to the completion service with its transcript, each dispatch of a tool. *)
Inductive event : Type :=
| Submit (messages : list chat_message)
| Dispatch (tool_name : string) (tool_input : val).

Record World : Type := mkWorld { env : Env; trace : list event }.

Definition Orch (A : Type) : Type := M World A.

Definition log (ev : event) : Orch unit :=
  fun w => (inr tt, mkWorld (env w) (trace w ++ [ev])%list).

(** backend code inside the orchestrator: it sees the environment only *)
Definition run_io {A} (m : IO A) : Orch A :=
  fun w => let (r, e') := m (env w) in (r, mkWorld e' (trace w)).

(** one entry of [tool_calls_made] *)
Record tool_call_record : Type := mkRecord {
  tool : string;
  input : val;
  result : list (string * val);
}.

Definition TIMEOUT_MESSAGE : string :=
  "Request timed out. The API took too long to respond. Please try again.".

Definition _prune_message_history (messages : list chat_message)
  : list chat_message :=
  if (List.length messages <=? 2)%nat then messages
  else firstn 2 messages.

Definition _execute_tool (tool_name : string) (tool_input : val)
  : Orch (list (string * val)) :=
  _ <- log (Dispatch tool_name tool_input) ;;
  if existsb (String.eqb tool_name)
       ["forward_geocode"; "reverse_geocode"; "poi_search"] then
    run_io (handle_geocoding_tool tool_name tool_input)
  else if existsb (String.eqb tool_name)
       ["route"; "distance_matrix"; "match_trace"] then
    run_io (handle_routing_tool tool_name tool_input)
  else if existsb (String.eqb tool_name)
       ["list_tile_providers"; "get_tile_provider_info";
        "get_tile_attribution"] then
    run_io (handle_tiles_tool tool_name tool_input)
  else
    ret (unknown_tool tool_name).

(** the keyword arguments of every submission *)
Definition request_of (self : MapAgentOrchestrator)
    (messages : list chat_message) : chat_request flt :=
  mkChatRequest (model self) 1024 (tools self) "auto" messages.

(** [await asyncio.wait_for(self.client.chat.completions.create(...),
    timeout=60.0)] *)
Definition create (self : MapAgentOrchestrator) (messages : list chat_message)
  : Orch chat_completion :=
  fun w =>
    let (aw, e') := chat_completions_create (request_of self messages) (env w) in
    (wait_for aw (inject_Z 60), mkWorld e' (trace w ++ [Submit messages])%list).

(** The [try ... except] around the submission.  [inl] is a [return] out
    of [process_query]; [inr] carries the response and the transcript it
    was obtained with. *)
Definition submit (self : MapAgentOrchestrator)
    (messages : list chat_message) (tool_calls_made : list tool_call_record)
  : Orch (string * list tool_call_record
          + chat_completion * list chat_message) :=
  catch
    (response <- create self messages ;; ret (inr (response, messages)))
    (fun e =>
       if is_TimeoutError e then ret (inl (TIMEOUT_MESSAGE, tool_calls_made))
       else if contains "context_length_exceeded" (exn_str e) then
         let messages := firstn 2 messages in
         catch
           (response <- create self messages ;; ret (inr (response, messages)))
           (fun e' =>
              if is_TimeoutError e'
              then ret (inl (TIMEOUT_MESSAGE, tool_calls_made))
              else raise e')
       else raise e).

(** the [for tool_call in tool_calls] loop *)
Fixpoint run_tool_calls (tool_calls : list tool_call)
    (messages : list chat_message) (tool_calls_made : list tool_call_record)
  : Orch (list chat_message * list tool_call_record) :=
  match tool_calls with
  | [] => ret (messages, tool_calls_made)
  | tool_call :: rest =>
      let tool_name := tc_name tool_call in
      tool_args <- lift (json_loads (tc_arguments tool_call)) ;;
      tool_result <- _execute_tool tool_name tool_args ;;
      let tool_calls_made :=
        (tool_calls_made ++ [mkRecord tool_name tool_args tool_result])%list in
      let messages :=
        (messages ++ [ToolMsg (tc_id tool_call)
                        (json_dumps (VDict tool_result))])%list in
      run_tool_calls rest messages tool_calls_made
  end.

(** [s or ""] on an optional string *)
Definition or_empty (s : option string) : string :=
  match s with Some x => x | None => "" end.

(** How one pass through the body of [while True] ends. *)
Inductive step : Type :=
| Return (final_text : string) (tool_calls_made : list tool_call_record)
| Continue (messages : list chat_message)
    (tool_calls_made : list tool_call_record).

(** the [if len(messages) > 14] at the top of the loop body *)
Definition bound_history (messages : list chat_message) : list chat_message :=
  if (14 <? List.length messages)%nat
  then _prune_message_history messages
  else messages.

(** the loop body after the [try]: a final answer, or the requested tool
    calls and another pass *)
Definition interpret (response : chat_completion)
    (messages : list chat_message) (tool_calls_made : list tool_call_record)
  : Orch step :=
  c <- lift (match choices response with
             | c :: _ => ok c
             | [] => throw IndexError "list index out of range"
             end) ;;
  if String.eqb (finish_reason c) "stop" then
    ret (Return (or_empty (content c)) tool_calls_made)
  else
    match tool_calls c with
    | Some (tc :: tcs) =>
        let tool_calls := tc :: tcs in
        let messages := (messages ++ [AssistantMsg tool_calls])%list in
        '(messages, tool_calls_made) <-
          run_tool_calls tool_calls messages tool_calls_made ;;
        ret (Continue messages tool_calls_made)
    | _ =>
        (* no tool calls, return the final response *)
        ret (Return (or_empty (content c)) tool_calls_made)
    end.

Definition iteration (self : MapAgentOrchestrator)
    (messages : list chat_message) (tool_calls_made : list tool_call_record)
  : Orch step :=
  let messages := bound_history messages in
  r <- submit self messages tool_calls_made ;;
  match r with
  | inl (text, made) => ret (Return text made)
  | inr (response, messages) => interpret response messages tool_calls_made
  end.

(** [while True], unrolled at most [fuel] times; [None] when the loop is
    still running after that many passes *)
Fixpoint agentic_loop (fuel : nat) (self : MapAgentOrchestrator)
    (messages : list chat_message) (tool_calls_made : list tool_call_record)
  : Orch (option (string * list tool_call_record)) :=
  match fuel with
  | O => ret None
  | S fuel' =>
      st <- iteration self messages tool_calls_made ;;
      match st with
      | Return text made => ret (Some (text, made))
      | Continue messages made => agentic_loop fuel' self messages made
      end
  end.

Definition process_query (fuel : nat) (self : MapAgentOrchestrator)
    (user_message : string)
  : Orch (option (string * list tool_call_record)) :=
  agentic_loop fuel self
    [SystemMsg (system_prompt self); UserMsg user_message] [].

End Program.

(* ================================================================== *)
(** * The vocabulary of the properties *)
(* ================================================================== *)

Section Vocabulary.
Context {RT : Runtime}.

Local Abbreviation val := (value flt).

(** [grows m]: running [m] appends to the log and never rewrites it. *)
Definition grows {A} (m : Orch A) : Prop :=
  forall w, exists evs, trace (snd (m w)) = (trace w ++ evs)%list.

(** the awaited call is not done within [timeout] *)
Definition overruns {A} (aw : awaitable A) (timeout : Q) : bool :=
  match aw with
  | Hangs => true
  | Completes elapsed _ => negb (Qle_bool elapsed timeout)
  end.

(** The specification's reading of the dispatch phase: for each request in
    the order received, call the dispatcher, append a record, append a
    tool-result turn tagged with that request's id, and go on to the next
    request. *)
Inductive dispatched_in_order :
  list tool_call ->
  list chat_message * list tool_call_record * World ->
  list chat_message * list tool_call_record * World -> Prop :=
| dio_done st : dispatched_in_order [] st st
| dio_next tc rest messages made w args r w1 st' :
    json_loads (tc_arguments tc) = inr args ->
    _execute_tool (tc_name tc) args w = (inr r, w1) ->
    dispatched_in_order rest
      ((messages ++ [ToolMsg (tc_id tc) (json_dumps (VDict r))])%list,
       (made ++ [mkRecord (tc_name tc) args r])%list,
       w1)
      st' ->
    dispatched_in_order (tc :: rest) (messages, made, w) st'.

(** the tool-result turns of a batch, tagged with the ids of the requests *)
Definition tool_turns (tool_calls : list tool_call)
    (records : list tool_call_record) : list chat_message :=
  map (fun p => ToolMsg (tc_id (fst p)) (json_dumps (VDict (result (snd p)))))
      (combine tool_calls records).

(** the transcripts submitted in a stretch of the log *)
Definition submissions (evs : list event) : list (list chat_message) :=
  flat_map (fun ev => match ev with
                      | Submit m => [m]
                      | Dispatch _ _ => []
                      end) evs.

(** a transcript that opens with the system directive [s] and the user
    message [u] *)
Definition opens_with (s u : string) (m : list chat_message) : Prop :=
  firstn 2 m = [SystemMsg s; UserMsg u].

(** [post m P]: whenever [m] returns a value, the value satisfies [P]. *)
Definition post {S A} (m : M S A) (P : A -> Prop) : Prop :=
  forall s a s', m s = (inr a, s') -> P a.

(** on a [ToolResponse] *)
Definition response_invariant (t : ToolResponse) : Prop :=
  (status t = "error" -> data t = None)
  /\ (status t = "success" -> error_code t = None).

(** on the dict a handler returns: the key is absent *)
Definition result_invariant (r : list (string * val)) : Prop :=
  (dict_lookup "status" r = Some (VStr "error") -> dict_has "data" r = false)
  /\ (dict_lookup "status" r = Some (VStr "success") ->
      dict_has "error_code" r = false).

(** the order a sort by [key] produces *)
Definition key_le {A : Type} (key : A -> Z) (x y : A) : Prop :=
  (key x <= key y)%Z.

(** the [distance_meters] of an entry of the returned [results] *)
Definition distance_meters_of (v : val) : option Z :=
  match v with
  | VDict d =>
      match dict_lookup "distance_meters" d with
      | Some (VInt z) => Some z
      | _ => None
      end
  | _ => None
  end.


(* ------------------------------------------------------------------ *)
(** ** Further vocabulary: the rest of the code *)

(** the tools dispatched in a stretch of the log, with their arguments *)
Definition dispatches (evs : list event) : list (string * val) :=
  flat_map (fun ev => match ev with
                      | Dispatch name args => [(name, args)]
                      | Submit _ => []
                      end) evs.

(** the answer carries no request to act on: the model said stop, or it
    named no tool *)
Definition is_final (c : choice) : Prop :=
  finish_reason c = "stop"
  \/ tool_calls c = None
  \/ tool_calls c = Some [].

(** [m] leaves the environment as it found it: no request, no clock *)
Definition keeps_env {A} (m : IO A) : Prop :=
  forall e, snd (m e) = e.

(** the [provider_id] a tiles tool reads from its arguments: the entry of
    the dict, the empty string when there is none *)
Definition provider_id_of (d : list (string * val)) : val :=
  match dict_lookup "provider_id" d with
  | Some v => v
  | None => VStr ""
  end.

(** the two results of the tiles tools that look a provider up *)
Definition not_found_result (provider_id : val) : list (string * val) :=
  [("status", VStr "error");
   ("message", VStr ("Provider '" ++ py_str provider_id ++ "' not found"));
   ("error_code", VStr "NOT_FOUND")].

(** at [e], whatever is requested, the exchange ends in [out] *)
Definition answers (e : Env) (out : http_outcome flt) : Prop :=
  forall rq, fst (http_send rq e) = out.

(** how a client of [service] reports an exchange that failed: an error
    response with a code and the usage, or the exception itself when it is
    not one of httpx *)
Definition failure_reported (service : string) (out : http_outcome flt)
    (run : res ToolResponse) : Prop :=
  match out with
  | HttpTimeout =>
      exists u,
        run = inr (mkToolResponse "error" None
                     (Some (service ++ " request timed out"))
                     (Some u) (Some "TIMEOUT"))
  | HttpError msg =>
      exists u,
        run = inr (mkToolResponse "error" None
                     (Some (service ++ " API error: " ++ msg))
                     (Some u) (Some "HTTP_ERROR"))
  | HttpRaises x => run = inl x
  | HttpJson _ => True
  end.

(** the response to an input the client rejects before any request *)
Definition invalid_input (msg : string) : ToolResponse :=
  mkToolResponse "error" None (Some msg) None (Some "INVALID_INPUT").

(** no exchange gets through: each one times out or fails at the HTTP
    level *)
Definition unreachable : Prop :=
  forall (rq : http_request flt) (e : Env),
    match fst (http_send rq e) with
    | HttpTimeout | HttpError _ => True
    | HttpRaises _ | HttpJson _ => False
    end.

(** a value Python computes with as a number *)
Definition is_number (v : val) : bool :=
  match v with
  | VInt _ | VFloat _ | VBool _ => true
  | _ => false
  end.

(** a formatted entry comes from [elem], which has both coordinates *)
Definition located_in (elem : val) (x : poi) : Prop :=
  py_get elem "lat" VNone = inr (poi_latitude x)
  /\ py_get elem "lon" VNone = inr (poi_longitude x)
  /\ is_none (poi_latitude x) = false
  /\ is_none (poi_longitude x) = false.




End Vocabulary.

(* ================================================================== *)
(** * A scripted runtime and the inputs of the concrete runs *)
(* ================================================================== *)

Section Scripted.

(** The outside world as two scripts: the answers of the completion
    service (and what it does once the script is used up) and the outcomes
    of the HTTP exchanges, in the order they are asked for. *)
Record Script : Type := mkScript {
  llm_script : list (awaitable chat_completion);
  llm_after : awaitable chat_completion;
  http_script : list (http_outcome Q);
  clock : Z;
}.

Definition scripted_create (rq : chat_request Q) (e : Script)
  : awaitable chat_completion * Script :=
  match llm_script e with
  | a :: rest => (a, mkScript rest (llm_after e) (http_script e) (clock e))
  | [] => (llm_after e, e)
  end.

Definition scripted_http (rq : http_request Q) (e : Script)
  : http_outcome Q * Script :=
  match http_script e with
  | o :: rest => (o, mkScript (llm_script e) (llm_after e) rest (clock e))
  | [] => (HttpTimeout, e)
  end.

Definition scripted_time (e : Script) : Q * Script :=
  (inject_Z (clock e),
   mkScript (llm_script e) (llm_after e) (http_script e) (clock e + 1)).

(** the argument texts the scripted service sends *)
Definition route_arguments_text : string :=
  "{" ++ dquote ++ "start_latitude" ++ dquote ++ ": 1, "
  ++ dquote ++ "start_longitude" ++ dquote ++ ": 2, "
  ++ dquote ++ "end_latitude" ++ dquote ++ ": 3, "
  ++ dquote ++ "end_longitude" ++ dquote ++ ": 4}".

Definition route_arguments : value Q :=
  VDict [("start_latitude", VInt 1); ("start_longitude", VInt 2);
         ("end_latitude", VInt 3); ("end_longitude", VInt 4)].

Definition scripted_loads (s : string) : res (value Q) :=
  if String.eqb s "{}" then ok (VDict [])
  else if String.eqb s route_arguments_text then ok route_arguments
  else throw ValueError "Expecting value".

Definition scripted_str (v : value Q) : string :=
  match v with
  | VStr s => s
  | VInt z => str_of_Z z
  | VNone => "None"
  | VBool true => "True"
  | VBool false => "False"
  | _ => "?"
  end.

Definition scripted_haversine (lat1 lon1 lat2 lon2 : value Q) : res Q :=
  match lat1, lon1, lat2, lon2 with
  | VInt a, VInt b, VInt c, VInt d =>
      ok (inject_Z (111000 * (Z.abs (c - a) + Z.abs (d - b))))
  | _, _, _, _ => throw TypeError "must be real number"
  end.

Definition scripted_float (s : string) : res Q :=
  if String.eqb s "10" then ok (inject_Z 10)
  else if String.eqb s "15" then ok (inject_Z 15)
  else throw ValueError "could not convert string to float".

Definition scripted_runtime : Runtime := {|
  flt := Q;
  flt_lit := fun q => q;
  flt_is_zero := fun q => Qeq_bool q 0;
  flt_sub := Qminus;
  flt_mul := Qmult;
  flt_div := Qdiv;
  flt_of_Z := fun z => ok (inject_Z z);
  int_truediv := fun a b => ok (Qdiv (inject_Z a) (inject_Z b));
  int_of_flt := fun q => ok (Z.quot (Qnum q) (Zpos (Qden q)));
  int_of_str := fun _ => throw ValueError "invalid literal for int()";
  float_of_str := scripted_float;
  fmt_1f := fun q => str_of_Z (Z.quot (Qnum q) (Zpos (Qden q)));
  py_str := scripted_str;
  str_lower := fun s => s;
  str_strip := fun s => s;
  _haversine_distance := scripted_haversine;
  json_loads := scripted_loads;
  json_dumps := fun _ => "<json>";
  getenv := fun k => if String.eqb k "OPENAI_API_KEY" then Some "sk-test"
                     else None;
  Env := Script;
  time_time := scripted_time;
  utcnow := fun e => ("2025-01-01T00:00:00", e);
  http_send := scripted_http;
  AsyncOpenAI := fun key =>
    match key with
    | Some _ => ok tt
    | None => throw OtherException "The api_key client option must be set"
    end;
  chat_completions_create := scripted_create;
|}.

#[local] Existing Instance scripted_runtime.

Definition the_orchestrator : MapAgentOrchestrator :=
  mkOrchestrator "gpt-4o-mini" _build_tools SYSTEM_PROMPT.

(** the two opening turns of a query *)
Definition opening (user_message : string) : list chat_message :=
  [SystemMsg SYSTEM_PROMPT; UserMsg user_message].

Definition overflow : exn :=
  mkExn OtherException
    "Error code: 400 - This model's maximum context length is 128000 tokens (context_length_exceeded)".

Definition always_overflowing : World :=
  mkWorld (mkScript [] (Completes (1 # 1) (inl overflow)) [] 0) [].

(** a tiles catalog that offers a tool of its own under the name [route] *)
Definition tiles_with_route : list (tool_spec Q) :=
  mkToolSpec "route" "Describe the tile route of a provider"
    (object_schema [] [])
  :: get_tiles_tools.

Definition nine_tools : list string :=
  ["forward_geocode"; "reverse_geocode"; "poi_search";
   "route"; "distance_matrix"; "match_trace";
   "list_tile_providers"; "get_tile_provider_info";
   "get_tile_attribution"].

Definition quiet : World := mkWorld (mkScript [] Hangs [] 0) [].

(** a transcript of fifteen turns *)
Definition fifteen_turns : list chat_message :=
  opening "where am I?"
  ++ [AssistantMsg []; ToolMsg "1" "a"; ToolMsg "2" "b"; ToolMsg "3" "c";
      ToolMsg "4" "d"; ToolMsg "5" "e"; ToolMsg "6" "f"; ToolMsg "7" "g";
      ToolMsg "8" "h"; ToolMsg "9" "i"; ToolMsg "10" "j"; ToolMsg "11" "k";
      ToolMsg "12" "l"].

(** one pass made one record; the next submission is never answered *)
Definition teleport_call : tool_call := mkToolCall "call_1" "teleport" "{}".

Definition teleport_record : tool_call_record :=
  mkRecord "teleport" (VDict []) (unknown_tool "teleport").

Definition after_teleport : list chat_message :=
  opening "beam me up"
  ++ [AssistantMsg [teleport_call]; ToolMsg "call_1" "<json>"].

Definition then_silence : World :=
  mkWorld (mkScript [] Hangs [] 0)
    [Submit (opening "beam me up"); Dispatch "teleport" (VDict [])].

(** capacity overflow on the first call, silence on the second *)
Definition overflow_then_silence : World :=
  mkWorld (mkScript [Completes (1 # 1) (inl overflow)] Hangs [] 0) [].

(** a provider that does not exist: an error result without [data] *)
Definition no_such_provider : list (string * value Q) :=
  [("status", VStr "error");
   ("message", VStr "Provider 'atlantis' not found");
   ("error_code", VStr "NOT_FOUND")].

(** the OSRM answer for one route of 1200 m and 300 s *)
Definition one_route : value Q :=
  VDict [("code", VStr "Ok");
         ("routes", VList [VDict [("distance", VInt 1200);
                                  ("duration", VInt 300)]])].

Definition route_call : tool_call :=
  mkToolCall "call_7" "route" route_arguments_text.

Definition asks_for_route : chat_completion :=
  mkCompletion [mkChoice "tool_calls" None (Some [route_call])].

Definition says_stop : chat_completion :=
  mkCompletion [mkChoice "stop" (Some "It is 1.2 km.") None].

Definition route_then_stop : World :=
  mkWorld
    (mkScript [Completes (2 # 1) (inr asks_for_route);
               Completes (3 # 1) (inr says_stop)]
       Hangs [HttpJson one_route] 0)
    [].

Definition after_first_answer : Script :=
  mkScript [Completes (3 # 1) (inr says_stop)] Hangs [HttpJson one_route] 0.

Definition route_result : list (string * value Q) :=
  Eval vm_compute in
    match fst (handle_routing_tool "route" route_arguments after_first_answer)
    with
    | inr r => r
    | inl _ => []
    end.

Definition after_route : Script :=
  Eval vm_compute in
    snd (handle_routing_tool "route" route_arguments after_first_answer).

Definition four_turns : list chat_message :=
  [SystemMsg SYSTEM_PROMPT; UserMsg "how far?";
   AssistantMsg [route_call]; ToolMsg "call_7" "<json>"].

(** one source, one destination *)
Definition one_pair : list (string * value Q) :=
  [("sources", VList [VList [VInt 1; VInt 2]]);
   ("destinations", VList [VList [VInt 3; VInt 4]])].

Definition osrm_answers : Script :=
  mkScript [] Hangs [HttpJson one_route] 0.

(** twelve cafes at 1..12 degrees of latitude, in no particular order *)
Definition cafe_at (z : Z) : value Q :=
  VDict [("lat", VInt z); ("lon", VInt 0);
         ("tags", VDict [("name", VStr "cafe"); ("amenity", VStr "cafe")])].

Definition twelve_cafes : Script :=
  mkScript [] Hangs
    [HttpJson
       (VDict [("elements",
                VList (map cafe_at [5; 3; 9; 1; 12; 7; 2; 11; 4; 8; 6; 10]))])]
    0.

Definition nominatim : NominatimClient :=
  mkNominatimClient "https://nominatim.openstreetmap.org" (inject_Z 10)
    "mcp-map-agents/0.1".

Definition cafes_found : ToolResponse :=
  Eval vm_compute in
    match fst (poi_search nominatim (VStr "cafe") (VInt 0) (VInt 0)
                 (VInt 1000) twelve_cafes) with
    | inr t => t
    | inl _ => mkToolResponse "" None None None None
    end.

(** a final answer that still carries a tool call *)
Definition stops_with_call : choice :=
  mkChoice "stop" (Some "Done.") (Some [route_call]).

Definition answers_with_stop : World :=
  mkWorld
    (mkScript [Completes (2 # 1) (inr (mkCompletion [stops_with_call]))]
       Hangs [HttpJson one_route] 0)
    [].

(** the service refuses the key *)
Definition unauthorized : exn :=
  mkExn OtherException "Error code: 401 - Incorrect API key provided".

Definition refuses_key : World :=
  mkWorld (mkScript [Completes (1 # 1) (inl unauthorized)] Hangs [] 0) [].

(** a transcript of exactly fourteen turns *)
Definition fourteen_turns : list chat_message := firstn 14 fifteen_turns.

Definition osrm : OSRMClient :=
  mkOSRMClient "http://router.project-osrm.org" (inject_Z 15)
    "mcp-map-agents/0.1".

(** the next exchange fails at the HTTP level *)
Definition bad_gateway : Script :=
  mkScript [] Hangs [HttpError "502 Bad Gateway"; HttpError "502 Bad Gateway"]
    0.

(** OSRM finds no route *)
Definition no_route : value Q :=
  VDict [("code", VStr "NoRoute"); ("routes", VList [])].

Definition osrm_finds_nothing : Script :=
  mkScript [] Hangs [HttpJson no_route; HttpJson no_route] 0.

(** Nominatim finds one place *)
Definition one_place : list (value Q) :=
  [VDict [("display_name", VStr "Paris"); ("lat", VStr "10");
          ("lon", VStr "15"); ("importance", VInt 1)]].

Definition nominatim_finds_paris : Script :=
  mkScript [] Hangs [HttpJson (VList one_place); HttpJson (VList one_place)] 0.

(** Nominatim answers with an error object *)
Definition unable_to_geocode : list (string * value Q) :=
  [("error", VStr "Unable to geocode")].

Definition nominatim_is_unable : Script :=
  mkScript [] Hangs
    [HttpJson (VDict unable_to_geocode); HttpJson (VDict unable_to_geocode)] 0.

(** two elements found, one of them without coordinates *)
Definition two_elements : list (value Q) :=
  [VDict [("tags", VDict [("name", VStr "nowhere")])]; cafe_at 3].

Definition one_formatted : list poi :=
  Eval vm_compute in
    match format_results (VInt 0) (VInt 0) two_elements with
    | inr l => l
    | inl _ => []
    end.

(** the scripted runtime with another process environment and another
    network *)
Definition runtime_with (env_var : string -> option string)
    (send : http_request Q -> Script -> http_outcome Q * Script) : Runtime := {|
  flt := Q;
  flt_lit := fun q => q;
  flt_is_zero := fun q => Qeq_bool q 0;
  flt_sub := Qminus;
  flt_mul := Qmult;
  flt_div := Qdiv;
  flt_of_Z := fun z => ok (inject_Z z);
  int_truediv := fun a b => ok (Qdiv (inject_Z a) (inject_Z b));
  int_of_flt := fun q => ok (Z.quot (Qnum q) (Zpos (Qden q)));
  int_of_str := fun _ => throw ValueError "invalid literal for int()";
  float_of_str := scripted_float;
  fmt_1f := fun q => str_of_Z (Z.quot (Qnum q) (Zpos (Qden q)));
  py_str := scripted_str;
  str_lower := fun s => s;
  str_strip := fun s => s;
  _haversine_distance := scripted_haversine;
  json_loads := scripted_loads;
  json_dumps := fun _ => "<json>";
  getenv := env_var;
  Env := Script;
  time_time := scripted_time;
  utcnow := fun e => ("2025-01-01T00:00:00", e);
  http_send := send;
  AsyncOpenAI := fun key =>
    match key with
    | Some _ => ok tt
    | None => throw OtherException "The api_key client option must be set"
    end;
  chat_completions_create := scripted_create;
|}.

(** no exchange ever gets through *)
Definition offline_runtime : Runtime :=
  runtime_with (fun _ => None) (fun _ e => (HttpTimeout, e)).

(** both timeouts of the process environment are set to a word *)
Definition misconfigured_runtime : Runtime :=
  runtime_with
    (fun k => if String.eqb k "OSRM_TIMEOUT_SECONDS"
                 || String.eqb k "NOMINATIM_TIMEOUT_SECONDS"
              then Some "soon" else None)
    scripted_http.

Definition not_a_float : exn :=
  mkExn ValueError "could not convert string to float".








End Scripted.

(* ================================================================== *)
(** * Properties *)
(* ================================================================== *)

(** ** Strings and lists *)

Lemma prefix_refl (s : string) : String.prefix s s = true.
Proof.
  induction s as [|c s IH]; simpl; [reflexivity|].
  destruct (ascii_dec c c) as [_|ne]; [exact IH | now elim ne].
Qed.

Lemma contains_refl (s : string) : contains s s = true.
Proof.
  destruct s as [|c s]; [reflexivity|].
  change (contains (String c s) (String c s))
    with (String.prefix (String c s) (String c s) || contains (String c s) s).
  now rewrite prefix_refl.
Qed.

Lemma contains_append_r (p s : string) : contains s (p ++ s) = true.
Proof.
  induction p as [|c p IH].
  - apply contains_refl.
  - change (contains s (String c p ++ s))
      with (String.prefix s (String c (p ++ s)) || contains s (p ++ s)).
    rewrite IH. apply orb_true_r.
Qed.

Lemma existsb_eqb_false (x : string) (l : list string) :
  ~ In x l -> existsb (String.eqb x) l = false.
Proof.
  induction l as [|y l IH]; simpl; intros H; [reflexivity|].
  destruct (String.eqb_spec x y) as [->|ne]; simpl.
  - elim H. now left.
  - apply IH. intros Hin. apply H. now right.
Qed.

Lemma firstn_firstn_same {A} (n : nat) (l : list A) :
  firstn n (firstn n l) = firstn n l.
Proof. rewrite firstn_firstn. now rewrite Nat.min_id. Qed.

Section Properties.
Context {RT : Runtime}.

Local Abbreviation val := (value flt).

(* ------------------------------------------------------------------ *)
(** ** The transcript bound *)

Lemma prune_length (messages : list chat_message) :
  (List.length (_prune_message_history messages) <= 2)%nat.
Proof.
  unfold _prune_message_history.
  destruct (Nat.leb_spec (List.length messages) 2) as [H|H]; [exact H|].
  rewrite length_firstn. apply Nat.le_min_l.
Qed.

Lemma prune_long (messages : list chat_message) :
  (2 < List.length messages)%nat ->
  _prune_message_history messages = firstn 2 messages.
Proof.
  intros H. unfold _prune_message_history.
  destruct (Nat.leb_spec (List.length messages) 2); [lia | reflexivity].
Qed.

Lemma prune_short (messages : list chat_message) :
  (List.length messages <= 2)%nat ->
  _prune_message_history messages = messages.
Proof.
  intros H. unfold _prune_message_history.
  destruct (Nat.leb_spec (List.length messages) 2); [reflexivity | lia].
Qed.

(** C8. Pruning is idempotent: pruning a pruned transcript changes
    nothing, and a transcript of two turns is returned as it is. *)
Theorem prune_idempotent :
  (forall messages : list chat_message,
      _prune_message_history (_prune_message_history messages)
      = _prune_message_history messages)
  /\ (forall a b : chat_message, _prune_message_history [a; b] = [a; b]).
Proof.
  split.
  - intros messages. apply prune_short, prune_length.
  - intros a b. reflexivity.
Qed.

(* ------------------------------------------------------------------ *)
(** ** The dispatcher *)

(** C4. A name outside the nine known tool names is answered, whatever
    the arguments, with an error result whose message is
    [Unknown tool: <name>]; the call returns (it does not raise) and
    touches nothing but the dispatch log. *)
Theorem unknown_tool_is_error_result
    (tool_name : string) (tool_input : val) (w : World) :
  ~ In tool_name
      ["forward_geocode"; "reverse_geocode"; "poi_search";
       "route"; "distance_matrix"; "match_trace";
       "list_tile_providers"; "get_tile_provider_info";
       "get_tile_attribution"] ->
  exists r : list (string * val),
    _execute_tool tool_name tool_input w
    = (inr r,
       mkWorld (env w) (trace w ++ [Dispatch tool_name tool_input])%list)
    /\ dict_lookup "status" r = Some (VStr "error")
    /\ dict_lookup "message" r = Some (VStr ("Unknown tool: " ++ tool_name))
    /\ dict_has "data" r = false
    /\ contains tool_name ("Unknown tool: " ++ tool_name) = true.
Proof.
  intros Hnot. exists (unknown_tool tool_name).
  repeat split; try reflexivity.
  - unfold _execute_tool, bind, log, ret.
    rewrite !existsb_eqb_false; [reflexivity | | |];
      intros Hin; apply Hnot; simpl in *; intuition.
  - apply contains_append_r.
Qed.

(* ------------------------------------------------------------------ *)
(** ** The log only grows *)

Lemma grows_ret {A} (a : A) : grows (ret a).
Proof. intros w. exists []. simpl. now rewrite app_nil_r. Qed.

Lemma grows_raise {A} (x : exn) : grows (@raise World A x).
Proof. intros w. exists []. simpl. now rewrite app_nil_r. Qed.

Lemma grows_lift {A} (r : res A) : grows (lift r).
Proof. intros w. exists []. simpl. now rewrite app_nil_r. Qed.

Lemma grows_bind {A B} (m : Orch A) (k : A -> Orch B) :
  grows m -> (forall a, grows (k a)) -> grows (bind m k).
Proof.
  intros Hm Hk w. unfold bind.
  destruct (Hm w) as [evs Hevs].
  destruct (m w) as [[x|a] w1]; simpl in *.
  - now exists evs.
  - destruct (Hk a w1) as [evs' Hevs'].
    exists (evs ++ evs')%list. rewrite Hevs', Hevs. now rewrite app_assoc.
Qed.

Lemma grows_catch {A} (m : Orch A) (h : exn -> Orch A) :
  grows m -> (forall x, grows (h x)) -> grows (catch m h).
Proof.
  intros Hm Hh w. unfold catch.
  destruct (Hm w) as [evs Hevs].
  destruct (m w) as [[x|a] w1]; simpl in *.
  - destruct (Hh x w1) as [evs' Hevs'].
    exists (evs ++ evs')%list. rewrite Hevs', Hevs. now rewrite app_assoc.
  - now exists evs.
Qed.

Lemma grows_log (ev : event) : grows (log ev).
Proof. intros w. now exists [ev]. Qed.

Lemma grows_run_io {A} (m : IO A) : grows (run_io m).
Proof.
  intros w. exists []. unfold run_io.
  destruct (m (env w)) as [r e']. simpl. now rewrite app_nil_r.
Qed.

Lemma create_unfold (self : MapAgentOrchestrator)
    (messages : list chat_message) (w : World) aw e' :
  chat_completions_create (request_of self messages) (env w) = (aw, e') ->
  create self messages w
  = (wait_for aw (inject_Z 60),
     mkWorld e' (trace w ++ [Submit messages])%list).
Proof. intros H. unfold create. now rewrite H. Qed.

Lemma grows_create self messages : grows (create self messages).
Proof.
  intros w. exists [Submit messages].
  destruct (chat_completions_create (request_of self messages) (env w))
    as [aw e'] eqn:E.
  now rewrite (create_unfold _ _ _ E).
Qed.

Lemma grows_execute_tool tool_name (tool_input : val) :
  grows (_execute_tool tool_name tool_input).
Proof.
  unfold _execute_tool. apply grows_bind; [apply grows_log|]. intros _.
  repeat match goal with
         | |- grows (if ?b then _ else _) => destruct b
         end;
    first [apply grows_run_io | apply grows_ret].
Qed.

Lemma grows_run_tool_calls tool_calls :
  forall messages made, grows (run_tool_calls tool_calls messages made).
Proof.
  induction tool_calls as [|tc rest IH]; intros messages made; simpl.
  - apply grows_ret.
  - apply grows_bind; [apply grows_lift|]. intros args.
    apply grows_bind; [apply grows_execute_tool|]. intros r.
    apply IH.
Qed.

Lemma grows_interpret response messages made :
  grows (interpret response messages made).
Proof.
  unfold interpret.
  apply grows_bind; [apply grows_lift|]. intros c.
  destruct (String.eqb (finish_reason c) "stop"); [apply grows_ret|].
  destruct (tool_calls c) as [[|tc tcs]|]; try apply grows_ret.
  apply grows_bind; [apply grows_run_tool_calls|].
  intros [m' made']. apply grows_ret.
Qed.

(** The submission, case by case: one call to the service, and a second
    one, with the first two turns, exactly when the first raised something
    other than a timeout whose text mentions [context_length_exceeded]. *)
Lemma submit_unfold self messages made (w : World) aw1 e1 :
  chat_completions_create (request_of self messages) (env w) = (aw1, e1) ->
  let w1 := mkWorld e1 (trace w ++ [Submit messages])%list in
  submit self messages made w
  = match wait_for aw1 (inject_Z 60) with
    | inr response => (inr (inr (response, messages)), w1)
    | inl x =>
        if is_TimeoutError x then (inr (inl (TIMEOUT_MESSAGE, made)), w1)
        else if contains "context_length_exceeded" (exn_str x) then
          let (aw2, e2) :=
            chat_completions_create
              (request_of self (firstn 2 messages)) e1 in
          let w2 :=
            mkWorld e2
              (trace w ++ [Submit messages; Submit (firstn 2 messages)])%list in
          match wait_for aw2 (inject_Z 60) with
          | inr response => (inr (inr (response, firstn 2 messages)), w2)
          | inl x' =>
              if is_TimeoutError x'
              then (inr (inl (TIMEOUT_MESSAGE, made)), w2)
              else (inl x', w2)
          end
        else (inl x, w1)
    end.
Proof.
  intros E1 w1.
  unfold submit, catch, bind, create, ret, raise. rewrite E1.
  destruct (wait_for aw1 (inject_Z 60)) as [x|response]; [|reflexivity].
  destruct (is_TimeoutError x); [reflexivity|].
  destruct (contains "context_length_exceeded" (exn_str x)); [|reflexivity].
  cbn [env trace].
  destruct (chat_completions_create (request_of self (firstn 2 messages)) e1)
    as [aw2 e2].
  rewrite <- app_assoc. cbn [app].
  destruct (wait_for aw2 (inject_Z 60)) as [x'|response]; [|reflexivity].
  destruct (is_TimeoutError x'); reflexivity.
Qed.

(** every submission starts by logging the transcript it is given *)
Lemma submit_logs_first self messages made (w : World) :
  exists evs,
    trace (snd (submit self messages made w))
    = (trace w ++ Submit messages :: evs)%list.
Proof.
  destruct (chat_completions_create (request_of self messages) (env w))
    as [aw1 e1] eqn:E1.
  rewrite (submit_unfold _ _ _ _ E1). cbv zeta.
  destruct (wait_for aw1 (inject_Z 60)) as [x|response];
    [|now exists []].
  destruct (is_TimeoutError x); [now exists []|].
  destruct (contains "context_length_exceeded" (exn_str x));
    [|now exists []].
  destruct (chat_completions_create (request_of self (firstn 2 messages)) e1)
    as [aw2 e2].
  exists [Submit (firstn 2 messages)].
  destruct (wait_for aw2 (inject_Z 60)) as [x'|response]; [|reflexivity].
  destruct (is_TimeoutError x'); reflexivity.
Qed.

(* ------------------------------------------------------------------ *)
(** ** Timeouts and capacity overflow *)

Lemma overruns_wait_for {A} (aw : awaitable A) (timeout : Q) :
  overruns aw timeout = true ->
  wait_for aw timeout = throw TimeoutError "".
Proof.
  destruct aw as [elapsed r|]; simpl; [|reflexivity].
  destruct (Qle_bool elapsed timeout); [discriminate | reflexivity].
Qed.

Lemma firstn_2_bound_history (messages : list chat_message) :
  firstn 2 (bound_history messages) = firstn 2 messages.
Proof.
  unfold bound_history, _prune_message_history.
  destruct (14 <? List.length messages)%nat; [|reflexivity].
  destruct (List.length messages <=? 2)%nat; [reflexivity|].
  apply firstn_firstn_same.
Qed.

(** C5. A submission that is not answered within 60 time units ends the
    query at once: the loop returns the fixed timeout message with the
    records made so far, and the service was called once (nothing is
    resubmitted).  The loop state [(messages, made)] is that of any pass
    of [process_query]. *)
Theorem timeout_aborts_query
    (fuel : nat) (self : MapAgentOrchestrator) (messages : list chat_message)
    (made : list tool_call_record) (w : World)
    (aw : awaitable chat_completion) (e1 : Env) :
  chat_completions_create
    (request_of self (bound_history messages)) (env w) = (aw, e1) ->
  overruns aw (inject_Z 60) = true ->
  agentic_loop (S fuel) self messages made w
  = (inr (Some (TIMEOUT_MESSAGE, made)),
     mkWorld e1 (trace w ++ [Submit (bound_history messages)])%list).
Proof.
  intros E Hover.
  cbn [agentic_loop]. unfold iteration. cbv zeta. unfold bind.
  rewrite (submit_unfold _ _ _ _ E). cbv zeta.
  rewrite (overruns_wait_for _ _ Hover). reflexivity.
Qed.

(** C1 (as the code has it). When a submission raises the
    capacity-exceeded condition, the transcript is cut to its first two
    turns (the system directive and the user message it opens with) and
    submitted once more, and there is no third call.  If that
    second call times out, the loop returns the timeout message with the
    records made so far; if it raises anything else, that exception
    leaves [process_query]; if it answers, the pass continues on the
    two-turn transcript. *)
Theorem capacity_overflow_resubmits_once
    (fuel : nat) (self : MapAgentOrchestrator) (messages : list chat_message)
    (made : list tool_call_record) (w : World)
    (aw1 aw2 : awaitable chat_completion) (e1 e2 : Env) (x : exn) :
  chat_completions_create
    (request_of self (bound_history messages)) (env w) = (aw1, e1) ->
  wait_for aw1 (inject_Z 60) = inl x ->
  is_TimeoutError x = false ->
  contains "context_length_exceeded" (exn_str x) = true ->
  chat_completions_create
    (request_of self (firstn 2 messages)) e1 = (aw2, e2) ->
  (2 <= List.length messages)%nat ->
  let w2 :=
    mkWorld e2
      (trace w ++ [Submit (bound_history messages);
                   Submit (firstn 2 messages)])%list in
  List.length (firstn 2 messages) = 2%nat
  /\ (forall s u rest,
        messages = SystemMsg s :: UserMsg u :: rest ->
        firstn 2 messages = [SystemMsg s; UserMsg u])
  /\ match wait_for aw2 (inject_Z 60) with
     | inl x' =>
         agentic_loop (S fuel) self messages made w
         = (if is_TimeoutError x'
            then inr (Some (TIMEOUT_MESSAGE, made))
            else inl x',
            w2)
     | inr response =>
         iteration self messages made w
         = interpret response (firstn 2 messages) made w2
     end.
Proof.
  intros E1 Hx Hnt Hctx E2 Hlen w2.
  split; [rewrite length_firstn; lia|].
  split; [now intros s u rest ->|].
  assert (Hit : submit self (bound_history messages) made w
                = match wait_for aw2 (inject_Z 60) with
                  | inr response =>
                      (inr (inr (response, firstn 2 messages)), w2)
                  | inl x' =>
                      if is_TimeoutError x'
                      then (inr (inl (TIMEOUT_MESSAGE, made)), w2)
                      else (inl x', w2)
                  end).
  { rewrite (submit_unfold _ _ _ _ E1). cbv zeta.
    rewrite Hx, Hnt, Hctx, firstn_2_bound_history, E2. reflexivity. }
  destruct (wait_for aw2 (inject_Z 60)) as [x'|response].
  - cbn [agentic_loop]. unfold iteration. cbv zeta. unfold bind at 1 2.
    rewrite Hit. destruct (is_TimeoutError x'); reflexivity.
  - unfold iteration. cbv zeta. unfold bind at 1. now rewrite Hit.
Qed.

(* ------------------------------------------------------------------ *)
(** ** Tool calls, one after the other *)

Lemma execute_tool_trace tool_name (tool_input : val) (w : World) :
  trace (snd (_execute_tool tool_name tool_input w))
  = (trace w ++ [Dispatch tool_name tool_input])%list.
Proof.
  unfold _execute_tool, bind, log, run_io, ret.
  repeat match goal with
         | |- context [if ?b then _ else _] => destruct b
         end;
    cbn [env trace];
    try match goal with
        | |- context [let (_, _) := ?m ?e in _] => destruct (m e)
        end; reflexivity.
Qed.

Lemma run_tool_calls_in_order tool_calls :
  forall messages made w messages' made' w',
    run_tool_calls tool_calls messages made w = (inr (messages', made'), w')
    <-> dispatched_in_order tool_calls
          (messages, made, w) (messages', made', w').
Proof.
  induction tool_calls as [|tc rest IH]; intros messages made w m' made' w'.
  - simpl. unfold ret. split.
    + intros H. injection H as <- <- <-. constructor.
    + intros H. inversion H; subst. reflexivity.
  - cbn [run_tool_calls]. unfold bind, lift. split.
    + intros H.
      destruct (json_loads (tc_arguments tc)) as [x|args] eqn:Ej;
        [discriminate|].
      destruct (_execute_tool (tc_name tc) args w) as [[x|r] w1] eqn:Ex;
        [discriminate|].
      apply IH in H. econstructor; eassumption.
    + intros H. inversion H; subst.
      match goal with
      | Hj : json_loads _ = _, Hx : _execute_tool _ _ _ = _ |- _ =>
          rewrite Hj, Hx
      end.
      now apply IH.
Qed.

Lemma dispatched_in_order_summary tool_calls st st' :
  dispatched_in_order tool_calls st st' ->
  exists records,
    map tool records = map tc_name tool_calls
    /\ snd (fst st') = (snd (fst st) ++ records)%list
    /\ fst (fst st') = (fst (fst st) ++ tool_turns tool_calls records)%list
    /\ trace (snd st')
       = (trace (snd st)
          ++ map (fun rc => Dispatch (tool rc) (input rc)) records)%list.
Proof.
  induction 1 as [st|tc rest messages made w args r w1 st' Hj Hx Hrest IH].
  - exists []. simpl. now rewrite !app_nil_r.
  - destruct IH as (records & Hn & Hm & Ht & Htr). simpl in *.
    exists (mkRecord (tc_name tc) args r :: records). simpl.
    repeat split.
    + now rewrite Hn.
    + now rewrite Hm, <- app_assoc.
    + unfold tool_turns in *. simpl. now rewrite Ht, <- app_assoc.
    + rewrite Htr.
      pose proof (execute_tool_trace (tc_name tc) args w) as Hw.
      rewrite Hx in Hw. simpl in Hw. now rewrite Hw, <- app_assoc.
Qed.

Lemma iteration_unfold self messages made (w : World) :
  iteration self messages made w
  = match submit self (bound_history messages) made w with
    | (inl x, w1) => (inl x, w1)
    | (inr (inl (text, made')), w1) => (inr (Return text made'), w1)
    | (inr (inr (response, messages')), w1) =>
        interpret response messages' made w1
    end.
Proof.
  unfold iteration. cbv zeta. unfold bind.
  destruct (submit self (bound_history messages) made w)
    as [[x|[[text made']|[response messages']]] w1]; reflexivity.
Qed.

Lemma agentic_loop_unfold fuel self messages made (w : World) :
  agentic_loop (S fuel) self messages made w
  = match iteration self messages made w with
    | (inl x, w1) => (inl x, w1)
    | (inr (Return text made'), w1) => (inr (Some (text, made')), w1)
    | (inr (Continue messages' made'), w1) =>
        agentic_loop fuel self messages' made' w1
    end.
Proof.
  cbn [agentic_loop]. unfold bind.
  destruct (iteration self messages made w) as [[x|[text made'|m' made']] w1];
    reflexivity.
Qed.

Lemma interpret_stop response c cs messages made (w : World) :
  choices response = c :: cs ->
  finish_reason c = "stop" ->
  interpret response messages made w
  = (inr (Return (or_empty (content c)) made), w).
Proof.
  intros Hc Hs. unfold interpret, bind, lift, ok. rewrite Hc.
  cbv beta iota. rewrite Hs. reflexivity.
Qed.

Lemma interpret_tool_calls response c cs tc tcs messages made (w : World) :
  choices response = c :: cs ->
  String.eqb (finish_reason c) "stop" = false ->
  tool_calls c = Some (tc :: tcs) ->
  interpret response messages made w
  = match run_tool_calls (tc :: tcs)
            (messages ++ [AssistantMsg (tc :: tcs)])%list made w with
    | (inl x, w1) => (inl x, w1)
    | (inr (messages', made'), w1) => (inr (Continue messages' made'), w1)
    end.
Proof.
  intros Hc Hs Ht. unfold interpret, bind at 1, lift, ok. rewrite Hc.
  cbv beta iota. rewrite Hs, Ht. cbv zeta. unfold bind, ret.
  destruct (run_tool_calls (tc :: tcs)
              (messages ++ [AssistantMsg (tc :: tcs)])%list made w)
    as [[x|[m' made']] w1]; reflexivity.
Qed.

Lemma execute_route (args : val) (w : World) :
  _execute_tool "route" args w
  = let (r, e') := handle_routing_tool "route" args (env w) in
    (r, mkWorld e' (trace w ++ [Dispatch "route" args])%list).
Proof. reflexivity. Qed.

(** C6. (1) When the first answer requests the single tool call [route]
    and the second answer is a stop, [process_query] returns one record,
    for [route], and the second submission carries four turns: system,
    user, the assistant turn with the request, the tool result.
    (2) In every batch the requests are dispatched one after the other in
    the order received, each followed by its record and its tool-result
    turn before the next is dispatched; so the records, the tool turns and
    the dispatches come out in the order of the requests. *)
Theorem route_call_then_stop :
  (forall (fuel : nat) (self : MapAgentOrchestrator) (user_message : string)
          (w0 : World) aw1 e1 c1 cs1 tc args r e2 aw2 e3 c2 cs2,
      let m0 := [SystemMsg (system_prompt self); UserMsg user_message] in
      let m1 := [SystemMsg (system_prompt self); UserMsg user_message;
                 AssistantMsg [tc];
                 ToolMsg (tc_id tc) (json_dumps (VDict r))] in
      chat_completions_create (request_of self m0) (env w0) = (aw1, e1) ->
      wait_for aw1 (inject_Z 60) = inr (mkCompletion (c1 :: cs1)) ->
      String.eqb (finish_reason c1) "stop" = false ->
      tool_calls c1 = Some [tc] ->
      tc_name tc = "route" ->
      json_loads (tc_arguments tc) = inr args ->
      handle_routing_tool "route" args e1 = (inr r, e2) ->
      chat_completions_create (request_of self m1) e2 = (aw2, e3) ->
      wait_for aw2 (inject_Z 60) = inr (mkCompletion (c2 :: cs2)) ->
      finish_reason c2 = "stop" ->
      process_query (S (S fuel)) self user_message w0
      = (inr (Some (or_empty (content c2), [mkRecord "route" args r])),
         mkWorld e3
           (trace w0 ++ [Submit m0; Dispatch "route" args; Submit m1])%list)
      /\ List.length m1 = 4%nat)
  /\ (forall tool_calls messages made (w : World) messages' made' w',
        run_tool_calls tool_calls messages made w
        = (inr (messages', made'), w') ->
        dispatched_in_order tool_calls
          (messages, made, w) (messages', made', w')
        /\ exists records,
             map tool records = map tc_name tool_calls
             /\ made' = (made ++ records)%list
             /\ messages' = (messages ++ tool_turns tool_calls records)%list
             /\ trace w'
                = (trace w
                   ++ map (fun rc => Dispatch (tool rc) (input rc)) records)%list).
Proof.
  split.
  - intros fuel self user_message w0 aw1 e1 c1 cs1 tc args r e2 aw2 e3 c2 cs2
      m0 m1 E1 W1 Hns Htc Hname Hargs Hroute E2 W2 Hstop.
    split; [|reflexivity].
    unfold process_query.
    (* first pass: the request for [route] *)
    rewrite agentic_loop_unfold, iteration_unfold.
    change (bound_history [SystemMsg (system_prompt self); UserMsg user_message])
      with m0.
    rewrite (submit_unfold _ _ _ _ E1). cbv zeta. rewrite W1.
    erewrite interpret_tool_calls; [|reflexivity|exact Hns|exact Htc].
    assert (Hrun :
      run_tool_calls [tc] (m0 ++ [AssistantMsg [tc]])%list []
        (mkWorld e1 (trace w0 ++ [Submit m0])%list)
      = (inr (m1, [mkRecord "route" args r]),
         mkWorld e2 (trace w0 ++ [Submit m0; Dispatch "route" args])%list)).
    { apply run_tool_calls_in_order.
      eapply dio_next; [exact Hargs | | rewrite Hname; apply dio_done].
      rewrite Hname, execute_route. cbn [env trace]. rewrite Hroute.
      now rewrite <- app_assoc. }
    rewrite Hrun.
    (* second pass: the stop *)
    rewrite agentic_loop_unfold, iteration_unfold.
    change (bound_history m1) with m1.
    rewrite (submit_unfold self m1 _ (mkWorld e2 _) E2). cbv zeta.
    rewrite W2.
    erewrite interpret_stop; [|reflexivity|exact Hstop]. cbn [trace].
    now rewrite <- app_assoc.
  - intros tcs messages made w messages' made' w' H.
    apply run_tool_calls_in_order in H. split; [exact H|].
    destruct (dispatched_in_order_summary H) as (records & Hn & Hm & Ht & Htr).
    now exists records.
Qed.

(* ------------------------------------------------------------------ *)
(** ** What is submitted, over a whole query *)

Lemma submissions_app (evs evs' : list event) :
  submissions (evs ++ evs') = (submissions evs ++ submissions evs')%list.
Proof. apply flat_map_app. Qed.

Lemma opens_with_app s u (m tail : list chat_message) :
  opens_with s u m -> opens_with s u (m ++ tail).
Proof.
  unfold opens_with. intros H.
  destruct m as [|a [|b m]]; try discriminate H. exact H.
Qed.

Lemma opens_with_firstn s u (m : list chat_message) :
  opens_with s u m -> opens_with s u (firstn 2 m).
Proof. unfold opens_with. now rewrite firstn_firstn_same. Qed.

Lemma bound_history_length (m : list chat_message) :
  (List.length (bound_history m) <= 14)%nat.
Proof.
  unfold bound_history.
  destruct (Nat.ltb_spec 14 (List.length m)) as [H|H]; [|exact H].
  pose proof (prune_length m). lia.
Qed.

Lemma opens_with_bound_history s u (m : list chat_message) :
  opens_with s u m -> opens_with s u (bound_history m).
Proof.
  unfold opens_with. now rewrite firstn_2_bound_history.
Qed.

Lemma run_tool_calls_cons tc rest messages made (w : World) :
  run_tool_calls (tc :: rest) messages made w
  = match json_loads (tc_arguments tc) with
    | inl x => (inl x, w)
    | inr args =>
        match _execute_tool (tc_name tc) args w with
        | (inl x, w1) => (inl x, w1)
        | (inr r, w1) =>
            run_tool_calls rest
              (messages ++ [ToolMsg (tc_id tc) (json_dumps (VDict r))])%list
              (made ++ [mkRecord (tc_name tc) args r])%list w1
        end
    end.
Proof.
  cbn [run_tool_calls]. unfold bind, lift.
  destruct (json_loads (tc_arguments tc)) as [x|args]; [reflexivity|].
  destruct (_execute_tool (tc_name tc) args w) as [[x|r] w1]; reflexivity.
Qed.

Lemma interpret_unfold response messages made (w : World) :
  interpret response messages made w
  = match choices response with
    | [] => (throw IndexError "list index out of range", w)
    | c :: _ =>
        if String.eqb (finish_reason c) "stop"
        then (inr (Return (or_empty (content c)) made), w)
        else
          match tool_calls c with
          | Some (tc :: tcs) =>
              match run_tool_calls (tc :: tcs)
                      (messages ++ [AssistantMsg (tc :: tcs)])%list made w
              with
              | (inl x, w1) => (inl x, w1)
              | (inr (messages', made'), w1) =>
                  (inr (Continue messages' made'), w1)
              end
          | _ => (inr (Return (or_empty (content c)) made), w)
          end
    end.
Proof.
  unfold interpret, bind at 1, lift, ok.
  destruct (choices response) as [|c cs]; [reflexivity|]. cbv beta iota.
  destruct (String.eqb (finish_reason c) "stop"); [reflexivity|].
  destruct (tool_calls c) as [[|tc tcs]|]; try reflexivity.
  cbv zeta. unfold bind, ret.
  destruct (run_tool_calls (tc :: tcs)
              (messages ++ [AssistantMsg (tc :: tcs)])%list made w)
    as [[x|[m' made']] w1]; reflexivity.
Qed.

Lemma run_tool_calls_only_dispatches tool_calls :
  forall messages made (w : World),
  exists evs,
    trace (snd (run_tool_calls tool_calls messages made w))
    = (trace w ++ evs)%list
    /\ submissions evs = []
    /\ forall messages' made',
         fst (run_tool_calls tool_calls messages made w)
         = inr (messages', made') ->
         exists tail, messages' = (messages ++ tail)%list.
Proof.
  induction tool_calls as [|tc rest IH]; intros messages made w.
  - exists []. simpl. rewrite app_nil_r. split; [reflexivity|].
    split; [reflexivity|].
    intros m' made' H. injection H as <- _. exists []. now rewrite app_nil_r.
  - rewrite run_tool_calls_cons.
    destruct (json_loads (tc_arguments tc)) as [x|args].
    { exists []. simpl. rewrite app_nil_r. split; [reflexivity|].
      split; [reflexivity|]. discriminate. }
    pose proof (execute_tool_trace (tc_name tc) args w) as Htr.
    destruct (_execute_tool (tc_name tc) args w) as [[x|r] w1];
      simpl in Htr.
    { exists [Dispatch (tc_name tc) args]. simpl. split; [exact Htr|].
      split; [reflexivity|]. discriminate. }
    destruct (IH (messages ++ [ToolMsg (tc_id tc) (json_dumps (VDict r))])%list
                 (made ++ [mkRecord (tc_name tc) args r])%list w1)
      as (evs & Hevs & Hsub & Hm).
    exists (Dispatch (tc_name tc) args :: evs). split; [|split].
    + rewrite Hevs, Htr. now rewrite <- app_assoc.
    + exact Hsub.
    + intros m' made' H. destruct (Hm _ _ H) as [tail ->].
      eexists. now rewrite <- app_assoc.
Qed.

Lemma interpret_only_dispatches response messages made (w : World) :
  exists evs,
    trace (snd (interpret response messages made w)) = (trace w ++ evs)%list
    /\ submissions evs = []
    /\ forall messages' made',
         fst (interpret response messages made w)
         = inr (Continue messages' made') ->
         exists tail, messages' = (messages ++ tail)%list.
Proof.
  rewrite interpret_unfold.
  destruct (choices response) as [|c cs].
  { exists []. simpl. rewrite app_nil_r. split; [reflexivity|].
    split; [reflexivity|]. discriminate. }
  destruct (String.eqb (finish_reason c) "stop").
  { exists []. simpl. rewrite app_nil_r. split; [reflexivity|].
    split; [reflexivity|]. discriminate. }
  destruct (tool_calls c) as [[|tc tcs]|];
    try (exists []; simpl; rewrite app_nil_r; split; [reflexivity|];
         split; [reflexivity|]; discriminate).
  destruct (run_tool_calls_only_dispatches (tc :: tcs)
              (messages ++ [AssistantMsg (tc :: tcs)])%list made w)
    as (evs & Hevs & Hsub & Hm).
  destruct (run_tool_calls (tc :: tcs)
              (messages ++ [AssistantMsg (tc :: tcs)])%list made w)
    as [[x|[m' made']] w1]; simpl in *.
  - exists evs. split; [assumption|]. split; [assumption|]. discriminate.
  - exists evs. split; [assumption|]. split; [assumption|].
    intros m'' made'' H. injection H as <- <-.
    destruct (Hm _ _ eq_refl) as [tail ->].
    eexists. now rewrite <- app_assoc.
Qed.

(** what one pass submits: transcripts of at most 14 turns that open as
    the transcript it started from; and so does the transcript it hands to
    the next pass *)
Lemma iteration_submissions s u self messages made (w : World) :
  opens_with s u messages ->
  exists evs,
    trace (snd (iteration self messages made w)) = (trace w ++ evs)%list
    /\ Forall (fun m => opens_with s u m /\ (List.length m <= 14)%nat)
         (submissions evs)
    /\ forall messages' made',
         fst (iteration self messages made w)
         = inr (Continue messages' made') ->
         opens_with s u messages'.
Proof.
  intros Hopen. rewrite iteration_unfold.
  pose proof (opens_with_bound_history Hopen) as Hb.
  pose proof (bound_history_length messages) as Hlen.
  set (bm := bound_history messages) in *.
  assert (H2 : opens_with s u (firstn 2 bm) /\
               (List.length (firstn 2 bm) <= 14)%nat).
  { split; [now apply opens_with_firstn|]. rewrite length_firstn. lia. }
  destruct (chat_completions_create (request_of self bm) (env w))
    as [aw1 e1] eqn:E1.
  rewrite (submit_unfold self bm made w E1). cbv zeta.
  assert (Hafter : forall response m' (w1 : World) pre,
            trace w1 = (trace w ++ pre)%list ->
            Forall (fun m => opens_with s u m /\ (List.length m <= 14)%nat)
              (submissions pre) ->
            opens_with s u m' ->
            exists evs,
              trace (snd (interpret response m' made w1))
              = (trace w ++ evs)%list
              /\ Forall (fun m => opens_with s u m
                                  /\ (List.length m <= 14)%nat)
                   (submissions evs)
              /\ forall messages' made',
                   fst (interpret response m' made w1)
                   = inr (Continue messages' made') ->
                   opens_with s u messages').
  { intros response m' w1 pre Hw1 Hpre Hm'.
    destruct (interpret_only_dispatches response m' made w1)
      as (evs & Hevs & Hsub & Hm).
    exists (pre ++ evs)%list. split; [|split].
    - rewrite Hevs, Hw1. now rewrite app_assoc.
    - rewrite submissions_app, Hsub, app_nil_r. exact Hpre.
    - intros m'' made'' H. destruct (Hm _ _ H) as [tail ->].
      now apply opens_with_app. }
  destruct (wait_for aw1 (inject_Z 60)) as [x|response].
  - destruct (is_TimeoutError x).
    { exists [Submit bm]. simpl. split; [reflexivity|].
      split; [|discriminate]. constructor; [now split | constructor]. }
    destruct (contains "context_length_exceeded" (exn_str x)).
    2:{ exists [Submit bm]. simpl. split; [reflexivity|].
        split; [|discriminate]. constructor; [now split | constructor]. }
    destruct (chat_completions_create (request_of self (firstn 2 bm)) e1)
      as [aw2 e2].
    assert (Hpre : Forall (fun m => opens_with s u m
                                    /\ (List.length m <= 14)%nat)
                     (submissions [Submit bm; Submit (firstn 2 bm)])).
    { simpl. constructor; [now split|]. constructor; [exact H2|constructor]. }
    destruct (wait_for aw2 (inject_Z 60)) as [x'|response].
    + destruct (is_TimeoutError x');
        exists [Submit bm; Submit (firstn 2 bm)];
        (split; [reflexivity|]); (split; [exact Hpre|]); discriminate.
    + apply (Hafter response (firstn 2 bm) _ [Submit bm; Submit (firstn 2 bm)]);
        [reflexivity | exact Hpre | exact (proj1 H2)].
  - apply (Hafter response bm _ [Submit bm]); [reflexivity | | exact Hb].
    simpl. constructor; [now split | constructor].
Qed.

Lemma agentic_loop_submissions s u self fuel :
  forall messages made (w : World),
    opens_with s u messages ->
    exists evs,
      trace (snd (agentic_loop fuel self messages made w))
      = (trace w ++ evs)%list
      /\ Forall (fun m => opens_with s u m /\ (List.length m <= 14)%nat)
           (submissions evs).
Proof.
  induction fuel as [|fuel IH]; intros messages made w Hopen.
  - exists []. simpl. rewrite app_nil_r. split; [reflexivity|constructor].
  - rewrite agentic_loop_unfold.
    destruct (iteration_submissions self made w Hopen)
      as (evs & Hevs & Hall & Hnext).
    destruct (iteration self messages made w)
      as [[x|[text made'|m' made']] w1]; simpl in *;
      try (exists evs; now split).
    destruct (IH m' made' w1 (Hnext _ _ eq_refl)) as (evs' & Hevs' & Hall').
    exists (evs ++ evs')%list. split.
    + rewrite Hevs', Hevs. now rewrite app_assoc.
    + rewrite submissions_app. apply Forall_app. now split.
Qed.

(** C7. (1) When a pass of the loop starts with more than 14 turns, what
    it submits is the first two turns and nothing else: for a transcript
    that opens with the system directive and the user message, exactly
    those two.  (2) Over a whole query, every transcript submitted opens
    with the system directive and the original user message and has at
    most 14 turns. *)
Theorem long_transcript_pruned_before_submission :
  (forall (self : MapAgentOrchestrator) (messages : list chat_message)
          (made : list tool_call_record) (w : World),
      (14 < List.length messages)%nat ->
      bound_history messages = firstn 2 messages
      /\ List.length (bound_history messages) = 2%nat
      /\ (forall s u rest,
            messages = SystemMsg s :: UserMsg u :: rest ->
            bound_history messages = [SystemMsg s; UserMsg u])
      /\ exists later,
           trace (snd (iteration self messages made w))
           = (trace w ++ Submit (firstn 2 messages) :: later)%list)
  /\ (forall (fuel : nat) (self : MapAgentOrchestrator)
             (user_message : string) (w : World),
        exists evs,
          trace (snd (process_query fuel self user_message w))
          = (trace w ++ evs)%list
          /\ Forall (fun m =>
                       firstn 2 m = [SystemMsg (system_prompt self);
                                     UserMsg user_message]
                       /\ (List.length m <= 14)%nat)
               (submissions evs)).
Proof.
  split.
  - intros self messages made w Hlen.
    assert (Hb : bound_history messages = firstn 2 messages).
    { unfold bound_history.
      destruct (Nat.ltb_spec 14 (List.length messages)); [|lia].
      apply prune_long. lia. }
    split; [exact Hb|]. split; [|split].
    + rewrite Hb, length_firstn. lia.
    + intros s u rest ->. now rewrite Hb.
    + unfold iteration. rewrite Hb. unfold bind at 1.
      destruct (submit_logs_first self (firstn 2 messages) made w)
        as [evs Hevs].
      destruct (submit self (firstn 2 messages) made w) as [[x|r] w1];
        simpl in *.
      * now exists evs.
      * destruct r as [[text made']|[response messages']]; simpl.
        -- now exists evs.
        -- destruct (grows_interpret response messages' made w1)
             as [evs' Hevs'].
           exists (evs ++ evs')%list. rewrite Hevs', Hevs.
           now rewrite <- app_assoc.
  - intros fuel self user_message w. unfold process_query.
    apply agentic_loop_submissions. reflexivity.
Qed.

(* ------------------------------------------------------------------ *)
(** ** The tool catalog *)

(** C2 (as the code has it). Construction concatenates the three catalogs
    in the order geocoding, routing, tiles and never looks at the names: it
    fails only when the API client cannot be built, whatever the catalogs
    hold.  The nine names of the shipped catalogs are pairwise distinct. *)
Theorem construction_concatenates_catalogs :
  (forall (geocoding routing tiles : list (tool_spec flt)) (model : string),
      init_of geocoding routing tiles model
      = match AsyncOpenAI (getenv "OPENAI_API_KEY") with
        | inl e => inl e
        | inr _ =>
            ok (mkOrchestrator model (geocoding ++ routing ++ tiles)%list
                  SYSTEM_PROMPT)
        end)
  /\ (forall model,
        new_MapAgentOrchestrator model
        = init_of get_geocoding_tools get_routing_tools get_tiles_tools model)
  /\ map (@ts_name flt) _build_tools
     = ["forward_geocode"; "reverse_geocode"; "poi_search";
        "route"; "distance_matrix"; "match_trace";
        "list_tile_providers"; "get_tile_provider_info";
        "get_tile_attribution"]
  /\ NoDup (map (@ts_name flt) _build_tools).
Proof.
  split; [|split; [|split]].
  - intros g r t model. unfold init_of, build_tools_of.
    cbn [app]. now rewrite app_assoc.
  - reflexivity.
  - reflexivity.
  - change (map (@ts_name flt) _build_tools)
      with ["forward_geocode"; "reverse_geocode"; "poi_search";
            "route"; "distance_matrix"; "match_trace";
            "list_tile_providers"; "get_tile_provider_info";
            "get_tile_attribution"].
    repeat constructor; simpl; intuition discriminate.
Qed.

(* ------------------------------------------------------------------ *)
(** ** Postconditions of computations that return *)

Lemma post_ret {S A} (a : A) (P : A -> Prop) : P a -> post (@ret S A a) P.
Proof. intros H s a' s' E. injection E as <- _. exact H. Qed.

Lemma post_raise {S A} (x : exn) (P : A -> Prop) : post (@raise S A x) P.
Proof. intros s a s' E. discriminate E. Qed.

Lemma post_lift {S A} (r : res A) (P : A -> Prop) :
  (forall a, r = inr a -> P a) -> post (@lift S A r) P.
Proof. intros H s a s' E. injection E as -> _. now apply H. Qed.

(** the continuation is entered with the run of [m] that led to it *)
Lemma post_bind_run {S A B} (m : M S A) (k : A -> M S B) (P : B -> Prop) :
  (forall s a s1, m s = (inr a, s1) -> post (k a) P) -> post (bind m k) P.
Proof.
  intros H s b s' E. unfold bind in E.
  destruct (m s) as [[x|a] s1] eqn:Em; [discriminate|].
  exact (H s a s1 Em s1 b s' E).
Qed.

Lemma post_bind {S A B} (m : M S A) (k : A -> M S B) (P : B -> Prop) :
  (forall a, post (k a) P) -> post (bind m k) P.
Proof. intros H. apply post_bind_run. intros s a s1 _. apply H. Qed.


Lemma post_then {S A B} (m : M S A) (k : A -> M S B)
    (Q : A -> Prop) (P : B -> Prop) :
  post m Q -> (forall a, Q a -> post (k a) P) -> post (bind m k) P.
Proof.
  intros Hm Hk. apply post_bind_run. intros s a s1 E.
  apply Hk. exact (Hm s a s1 E).
Qed.

Lemma post_run_io {A} (m : IO A) (P : A -> Prop) :
  post m P -> post (run_io m) P.
Proof.
  intros H w a w' E. unfold run_io in E.
  destruct (m (env w)) as [r e'] eqn:Em. injection E as -> _.
  exact (H _ _ _ Em).
Qed.

(** one step through a computation, towards its returns *)
Ltac post_step :=
  lazymatch goal with
  | |- post (ret _) _ => apply post_ret
  | |- post (raise _) _ => apply post_raise
  | |- post (bind _ _) _ => apply post_bind; intros
  | |- post (if ?b then _ else _) _ => destruct b
  | |- post (match ?x with _ => _ end) _ => destruct x
  end.

(* ------------------------------------------------------------------ *)
(** ** The ToolResult invariant *)

Lemma model_dump_status (t : ToolResponse) :
  dict_lookup "status" (model_dump t) = Some (VStr (status t)).
Proof. reflexivity. Qed.

Lemma model_dump_data (t : ToolResponse) :
  dict_lookup "data" (model_dump t)
  = match data t with Some d => Some (VDict d) | None => None end.
Proof.
  unfold model_dump.
  destruct (data t), (message t), (usage t), (error_code t); reflexivity.
Qed.

Lemma model_dump_error_code (t : ToolResponse) :
  dict_lookup "error_code" (model_dump t)
  = match error_code t with Some c => Some (VStr c) | None => None end.
Proof.
  unfold model_dump.
  destruct (data t), (message t), (usage t), (error_code t); reflexivity.
Qed.

Lemma model_dump_invariant (t : ToolResponse) :
  response_invariant t -> result_invariant (model_dump t).
Proof.
  intros [He Hs]. unfold result_invariant, dict_has.
  rewrite model_dump_status, model_dump_data, model_dump_error_code.
  split; intros H; injection H as H.
  - now rewrite (He H).
  - now rewrite (Hs H).
Qed.

Lemma unknown_tool_invariant (tool_name : string) :
  result_invariant (unknown_tool tool_name).
Proof. split; intros H; [reflexivity | discriminate H]. Qed.

(** every response built with a literal status and matching fields *)
Ltac literal_response :=
  split; cbn [status data error_code]; intros H;
  first [reflexivity | discriminate H].

Ltac response_steps := repeat (cbv beta; post_step); try literal_response.

Lemma route_invariant self a b c d p :
  post (route self a b c d p) response_invariant.
Proof. unfold route, osrm_try, elapsed_ms, new_ToolUsage. response_steps. Qed.

Lemma distance_matrix_invariant self srcs dsts p :
  post (distance_matrix self srcs dsts p) response_invariant.
Proof.
  unfold distance_matrix, osrm_try, elapsed_ms, new_ToolUsage.
  response_steps.
Qed.

Lemma match_trace_invariant self coords p :
  post (match_trace self coords p) response_invariant.
Proof.
  unfold match_trace, osrm_try, elapsed_ms, new_ToolUsage. response_steps.
Qed.

Lemma forward_geocode_invariant self q l :
  post (forward_geocode self q l) response_invariant.
Proof.
  unfold forward_geocode, nominatim_try, elapsed_ms, new_ToolUsage.
  response_steps.
Qed.

Lemma reverse_geocode_invariant self lat lon :
  post (reverse_geocode self lat lon) response_invariant.
Proof.
  unfold reverse_geocode, nominatim_try, elapsed_ms, new_ToolUsage.
  response_steps.
Qed.

Lemma poi_search_invariant self q lat lon radius :
  post (poi_search self q lat lon radius) response_invariant.
Proof.
  unfold poi_search, elapsed_ms, new_ToolUsage. response_steps.
Qed.

(** a handler ends in [model_dump] of a client response, or in the
    unknown-tool dict *)
Ltac handler_steps lem :=
  repeat first
    [ apply post_ret;
      first [apply unknown_tool_invariant
            | apply model_dump_invariant; assumption]
    | eapply post_then; [apply lem | intros ? ?]
    | post_step ].

Lemma handle_routing_tool_invariant tool_name (tool_input : val) :
  post (handle_routing_tool tool_name tool_input) result_invariant.
Proof.
  unfold handle_routing_tool.
  apply post_bind; intros client.
  destruct (String.eqb tool_name "route");
    [handler_steps route_invariant|].
  destruct (String.eqb tool_name "distance_matrix").
  - apply post_bind; intros sources.
    apply post_bind; intros destinations.
    match goal with
    | |- post (match ?x with _ => _ end) _ => destruct x as [|s [|s' ss]]
    end;
      try match goal with
          | |- post (match ?x with _ => _ end) _ => destruct x as [|d [|d' ds]]
          end;
      first [ solve [handler_steps route_invariant]
            | solve [handler_steps distance_matrix_invariant] ].
  - destruct (String.eqb tool_name "match_trace");
      handler_steps match_trace_invariant.
Qed.

Lemma handle_geocoding_tool_invariant tool_name (tool_input : val) :
  post (handle_geocoding_tool tool_name tool_input) result_invariant.
Proof.
  unfold handle_geocoding_tool.
  apply post_bind; intros client.
  destruct (String.eqb tool_name "forward_geocode");
    [handler_steps forward_geocode_invariant|].
  destruct (String.eqb tool_name "reverse_geocode");
    [handler_steps reverse_geocode_invariant|].
  destruct (String.eqb tool_name "poi_search");
    handler_steps poi_search_invariant.
Qed.

Lemma handle_tiles_tool_invariant tool_name (tool_input : val) :
  post (handle_tiles_tool tool_name tool_input) result_invariant.
Proof.
  unfold handle_tiles_tool.
  eapply post_then with (Q := response_invariant).
  - response_steps.
  - intros t Ht. apply post_ret. now apply model_dump_invariant.
Qed.

Lemma execute_tool_invariant tool_name (tool_input : val) :
  post (_execute_tool tool_name tool_input) result_invariant.
Proof.
  unfold _execute_tool. apply post_bind; intros _.
  repeat match goal with
         | |- post (if ?b then _ else _) _ => destruct b
         end.
  - apply post_run_io, handle_geocoding_tool_invariant.
  - apply post_run_io, handle_routing_tool_invariant.
  - apply post_run_io, handle_tiles_tool_invariant.
  - apply post_ret, unknown_tool_invariant.
Qed.

(** C3. Whatever the tool name, the arguments and the outside world,
    every result that one of the three handlers returns (and so every
    result the dispatcher returns) has no [data] when its status is
    [error] and no [error_code] when its status is [success]. *)
Theorem tool_result_status_invariant
    (tool_name : string) (tool_input : val) (r : list (string * val)) :
  (exists e e', handle_geocoding_tool tool_name tool_input e = (inr r, e'))
  \/ (exists e e', handle_routing_tool tool_name tool_input e = (inr r, e'))
  \/ (exists e e', handle_tiles_tool tool_name tool_input e = (inr r, e'))
  \/ (exists w w', _execute_tool tool_name tool_input w = (inr r, w')) ->
  (dict_lookup "status" r = Some (VStr "error") -> dict_has "data" r = false)
  /\ (dict_lookup "status" r = Some (VStr "success") ->
      dict_has "error_code" r = false).
Proof.
  intros [(e & e' & H)|[(e & e' & H)|[(e & e' & H)|(w & w' & H)]]].
  - exact (@handle_geocoding_tool_invariant _ _ _ _ _ H).
  - exact (@handle_routing_tool_invariant _ _ _ _ _ H).
  - exact (@handle_tiles_tool_invariant _ _ _ _ _ H).
  - exact (@execute_tool_invariant _ _ _ _ _ H).
Qed.

(* ------------------------------------------------------------------ *)
(** ** distance_matrix with one source and one destination *)







(* ------------------------------------------------------------------ *)
(** ** Sorting by an integer key *)

Section SortFacts.
Context {A : Type} (key : A -> Z).

Lemma insert_by_perm (x : A) (l : list A) :
  Permutation (insert_by key x l) (x :: l).
Proof.
  induction l as [|y l IH]; simpl; [reflexivity|].
  destruct (key x <=? key y)%Z; [reflexivity|].
  rewrite IH. apply perm_swap.
Qed.

Lemma sort_by_perm (l : list A) : Permutation (sort_by key l) l.
Proof.
  induction l as [|x l IH]; simpl; [reflexivity|].
  rewrite insert_by_perm. now constructor.
Qed.


Lemma insert_by_hd (x y : A) (l : list A) :
  (key_le key) y x -> HdRel (key_le key) y l -> HdRel (key_le key) y (insert_by key x l).
Proof.
  intros Hyx Hl. destruct l as [|z l]; simpl; [now constructor|].
  destruct (key x <=? key z)%Z; constructor; [exact Hyx|].
  now inversion Hl.
Qed.

Lemma insert_by_sorted (x : A) (l : list A) :
  Sorted (key_le key) l -> Sorted (key_le key) (insert_by key x l).
Proof.
  induction 1 as [|y l Hl IH Hhd]; simpl; [repeat constructor|].
  destruct (Z.leb_spec (key x) (key y)) as [Hle|Hlt].
  - constructor; [now constructor|]. now constructor.
  - constructor; [exact IH|].
    apply insert_by_hd; [|exact Hhd]. unfold key_le. lia.
Qed.

Lemma sort_by_sorted (l : list A) : Sorted (key_le key) (sort_by key l).
Proof.
  induction l as [|x l IH]; simpl; [constructor|].
  now apply insert_by_sorted.
Qed.

Lemma sort_by_strongly_sorted (l : list A) :
  StronglySorted (key_le key) (sort_by key l).
Proof.
  apply Sorted_StronglySorted; [|apply sort_by_sorted].
  intros x y z. unfold key_le. lia.
Qed.


End SortFacts.

(* ------------------------------------------------------------------ *)
(** ** poi_search: the ten nearest *)




(* ================================================================== *)
(** * Further properties of the orchestrator *)
(* ================================================================== *)

Lemma dispatches_app (evs evs' : list event) :
  dispatches (evs ++ evs') = (dispatches evs ++ dispatches evs')%list.
Proof. apply flat_map_app. Qed.

Lemma dispatches_of_records (records : list tool_call_record) :
  dispatches (map (fun rc => Dispatch (tool rc) (input rc)) records)
  = map (fun rc => (tool rc, input rc)) records.
Proof.
  induction records as [|rc records IH]; simpl; [reflexivity|].
  now rewrite IH.
Qed.

Lemma interpret_final response c cs messages made (w : World) :
  choices response = c :: cs ->
  is_final c ->
  interpret response messages made w
  = (inr (Return (or_empty (content c)) made), w).
Proof.
  intros Hc Hfin. rewrite interpret_unfold, Hc.
  destruct (String.eqb_spec (finish_reason c) "stop") as [_|Hns];
    [reflexivity|].
  destruct Hfin as [Hs|[Hn|Hn]]; [now elim Hns | |]; now rewrite Hn.
Qed.

(** X1. A pass whose answer is final (finish reason [stop], whatever tool
    calls come with it, or no tool call at all) ends the query: the loop
    returns the answer's text, the empty string when there is none, with
    the records made so far, after that one submission and without
    dispatching anything. *)
Theorem final_answer_ends_query
    (fuel : nat) (self : MapAgentOrchestrator) (messages : list chat_message)
    (made : list tool_call_record) (w : World)
    (aw : awaitable chat_completion) (e1 : Env) (c : choice)
    (cs : list choice) :
  chat_completions_create
    (request_of self (bound_history messages)) (env w) = (aw, e1) ->
  wait_for aw (inject_Z 60) = inr (mkCompletion (c :: cs)) ->
  is_final c ->
  agentic_loop (S fuel) self messages made w
  = (inr (Some (or_empty (content c), made)),
     mkWorld e1 (trace w ++ [Submit (bound_history messages)])%list).
Proof.
  intros E W Hfin.
  rewrite agentic_loop_unfold, iteration_unfold.
  rewrite (submit_unfold self (bound_history messages) made w E). cbv zeta.
  rewrite W.
  erewrite interpret_final; [reflexivity | reflexivity | exact Hfin].
Qed.

(** X2. An exception of the completion service that is neither a timeout
    nor a capacity overflow is not handled: it leaves the loop as it is,
    after the one submission that raised it. *)
Theorem other_exception_propagates
    (fuel : nat) (self : MapAgentOrchestrator) (messages : list chat_message)
    (made : list tool_call_record) (w : World)
    (aw : awaitable chat_completion) (e1 : Env) (x : exn) :
  chat_completions_create
    (request_of self (bound_history messages)) (env w) = (aw, e1) ->
  wait_for aw (inject_Z 60) = inl x ->
  is_TimeoutError x = false ->
  contains "context_length_exceeded" (exn_str x) = false ->
  agentic_loop (S fuel) self messages made w
  = (inl x, mkWorld e1 (trace w ++ [Submit (bound_history messages)])%list).
Proof.
  intros E W Hnt Hctx.
  rewrite agentic_loop_unfold, iteration_unfold.
  rewrite (submit_unfold self (bound_history messages) made w E). cbv zeta.
  now rewrite W, Hnt, Hctx.
Qed.

(** X3. A transcript of at most 14 turns is submitted as it is: the
    threshold is strict, nothing is cut at exactly 14 turns. *)
Theorem short_transcript_submitted_whole
    (self : MapAgentOrchestrator) (messages : list chat_message)
    (made : list tool_call_record) (w : World) :
  (List.length messages <= 14)%nat ->
  bound_history messages = messages
  /\ exists later,
       trace (snd (iteration self messages made w))
       = (trace w ++ Submit messages :: later)%list.
Proof.
  intros Hlen.
  assert (Hb : bound_history messages = messages).
  { unfold bound_history.
    destruct (Nat.ltb_spec 14 (List.length messages)); [lia|reflexivity]. }
  split; [exact Hb|].
  rewrite iteration_unfold, Hb.
  destruct (submit_logs_first self messages made w) as [evs Hevs].
  destruct (submit self messages made w)
    as [[x|[[text made']|[response messages']]] w1]; simpl in *;
    try (now exists evs).
  destruct (grows_interpret response messages' made w1) as [evs' Hevs'].
  exists (evs ++ evs')%list. rewrite Hevs', Hevs. now rewrite <- app_assoc.
Qed.

Lemma interpret_records response messages made (w : World) st w1 :
  interpret response messages made w = (inr st, w1) ->
  exists new evs,
    trace w1 = (trace w ++ evs)%list
    /\ dispatches evs = map (fun rc => (tool rc, input rc)) new
    /\ match st with
       | Return _ made' | Continue _ made' => made' = (made ++ new)%list
       end.
Proof.
  rewrite interpret_unfold. intros H.
  assert (Hnone : forall text,
             (@inr exn step (Return text made), w) = (inr st, w1) ->
             exists new evs,
               trace w1 = (trace w ++ evs)%list
               /\ dispatches evs = map (fun rc => (tool rc, input rc)) new
               /\ match st with
                  | Return _ made' | Continue _ made' =>
                      made' = (made ++ new)%list
                  end).
  { intros text E. injection E as <- <-. exists [], [].
    now rewrite !app_nil_r. }
  destruct (choices response) as [|c cs]; [discriminate H|].
  destruct (String.eqb (finish_reason c) "stop"); [now apply (Hnone _ H)|].
  destruct (tool_calls c) as [[|tc tcs]|];
    try (now apply (Hnone _ H)).
  destruct (run_tool_calls (tc :: tcs)
              (messages ++ [AssistantMsg (tc :: tcs)])%list made w)
    as [[x|[m' made']] w2] eqn:Erun; [discriminate H|].
  injection H as <- <-.
  apply run_tool_calls_in_order in Erun.
  destruct (dispatched_in_order_summary Erun) as (records & _ & Hm & _ & Htr).
  simpl in Hm, Htr.
  exists records, (map (fun rc => Dispatch (tool rc) (input rc)) records).
  split; [exact Htr|]. split; [apply dispatches_of_records | exact Hm].
Qed.

Lemma iteration_records self messages made (w : World) st w1 :
  iteration self messages made w = (inr st, w1) ->
  exists new evs,
    trace w1 = (trace w ++ evs)%list
    /\ dispatches evs = map (fun rc => (tool rc, input rc)) new
    /\ match st with
       | Return _ made' | Continue _ made' => made' = (made ++ new)%list
       end.
Proof.
  rewrite iteration_unfold.
  set (bm := bound_history messages).
  destruct (chat_completions_create (request_of self bm) (env w))
    as [aw1 e1] eqn:E1.
  rewrite (submit_unfold self bm made w E1). cbv zeta.
  assert (Hret : forall text pre (e : Env),
             dispatches pre = [] ->
             (@inr exn step (Return text made),
              mkWorld e (trace w ++ pre)%list)
             = (inr st, w1) ->
             exists new evs,
               trace w1 = (trace w ++ evs)%list
               /\ dispatches evs = map (fun rc => (tool rc, input rc)) new
               /\ match st with
                  | Return _ made' | Continue _ made' =>
                      made' = (made ++ new)%list
                  end).
  { intros text pre e Hpre E. injection E as <- <-.
    exists [], pre. simpl. now rewrite app_nil_r. }
  assert (Hint : forall response m' pre (e : Env),
             dispatches pre = [] ->
             interpret response m' made (mkWorld e (trace w ++ pre)%list)
             = (inr st, w1) ->
             exists new evs,
               trace w1 = (trace w ++ evs)%list
               /\ dispatches evs = map (fun rc => (tool rc, input rc)) new
               /\ match st with
                  | Return _ made' | Continue _ made' =>
                      made' = (made ++ new)%list
                  end).
  { intros response m' pre e Hpre E.
    destruct (interpret_records _ _ _ _ E) as (new & evs & Htr & Hd & Hm).
    exists new, (pre ++ evs)%list. simpl in Htr.
    split; [now rewrite Htr, app_assoc|].
    split; [now rewrite dispatches_app, Hpre|exact Hm]. }
  destruct (wait_for aw1 (inject_Z 60)) as [x|response].
  - destruct (is_TimeoutError x).
    { intros H. exact (Hret _ [Submit bm] e1 eq_refl H). }
    destruct (contains "context_length_exceeded" (exn_str x));
      [|discriminate].
    destruct (chat_completions_create (request_of self (firstn 2 bm)) e1)
      as [aw2 e2].
    destruct (wait_for aw2 (inject_Z 60)) as [x'|response].
    + destruct (is_TimeoutError x'); [|discriminate].
      intros H.
      exact (Hret _ [Submit bm; Submit (firstn 2 bm)] e2 eq_refl H).
    + intros H.
      exact (Hint _ _ [Submit bm; Submit (firstn 2 bm)] e2 eq_refl H).
  - intros H. exact (Hint _ _ [Submit bm] e1 eq_refl H).
Qed.

Lemma agentic_loop_records self fuel :
  forall messages made (w : World) text made' w',
    agentic_loop fuel self messages made w = (inr (Some (text, made')), w') ->
    exists new evs,
      made' = (made ++ new)%list
      /\ trace w' = (trace w ++ evs)%list
      /\ dispatches evs = map (fun rc => (tool rc, input rc)) new.
Proof.
  induction fuel as [|fuel IH]; intros messages made w text made' w' H.
  - discriminate H.
  - rewrite agentic_loop_unfold in H.
    destruct (iteration self messages made w) as [[x|st] w1] eqn:Eit;
      [discriminate H|].
    destruct (iteration_records _ _ _ _ Eit) as (new & evs & Htr & Hd & Hm).
    destruct st as [text1 made1|m1 made1].
    + injection H as <- <- <-. exists new, evs. now repeat split.
    + destruct (IH _ _ _ _ _ _ H) as (new' & evs' & Hm' & Htr' & Hd').
      exists (new ++ new')%list, (evs ++ evs')%list.
      split; [now rewrite Hm', Hm, app_assoc|].
      split; [now rewrite Htr', Htr, app_assoc|].
      now rewrite dispatches_app, map_app, Hd, Hd'.
Qed.

(** X4. The records a query returns are an exact audit of what was
    dispatched: read off the log, the tools dispatched during the query,
    with their arguments, are those of the records, one for one and in the
    same order. *)
Theorem records_mirror_dispatches
    (fuel : nat) (self : MapAgentOrchestrator) (user_message : string)
    (w w' : World) (text : string) (records : list tool_call_record) :
  process_query fuel self user_message w
  = (inr (Some (text, records)), w') ->
  exists evs,
    trace w' = (trace w ++ evs)%list
    /\ dispatches evs = map (fun rc => (tool rc, input rc)) records.
Proof.
  unfold process_query. intros H.
  destruct (agentic_loop_records _ _ _ _ _ H) as (new & evs & Hm & Htr & Hd).
  simpl in Hm. subst new. now exists evs.
Qed.

Lemma build_tools_names :
  map (@ts_name flt) _build_tools
  = ["forward_geocode"; "reverse_geocode"; "poi_search";
     "route"; "distance_matrix"; "match_trace";
     "list_tile_providers"; "get_tile_provider_info";
     "get_tile_attribution"].
Proof. reflexivity. Qed.

Lemma execute_unknown (name : string) (args : val) (w : World) :
  ~ In name (map (@ts_name flt) _build_tools) ->
  _execute_tool name args w
  = (inr (unknown_tool name),
     mkWorld (env w) (trace w ++ [Dispatch name args])%list).
Proof.
  rewrite build_tools_names. intros Hnot.
  unfold _execute_tool, bind, log, ret.
  rewrite !existsb_eqb_false; [reflexivity | | |];
    intros Hin; apply Hnot; simpl in *; intuition.
Qed.

(** X5. A request for a tool that is in no catalog does not stop the
    batch: its error result is recorded and put in the transcript like any
    other result, and the loop goes on with the next request. *)
Theorem unknown_tool_does_not_stop_batch
    (tc : tool_call) (rest : list tool_call) (args : val)
    (messages : list chat_message) (made : list tool_call_record)
    (w : World) :
  ~ In (tc_name tc) (map (@ts_name flt) _build_tools) ->
  json_loads (tc_arguments tc) = inr args ->
  run_tool_calls (tc :: rest) messages made w
  = run_tool_calls rest
      (messages
       ++ [ToolMsg (tc_id tc)
             (json_dumps (VDict (unknown_tool (tc_name tc))))])%list
      (made ++ [mkRecord (tc_name tc) args (unknown_tool (tc_name tc))])%list
      (mkWorld (env w) (trace w ++ [Dispatch (tc_name tc) args])%list).
Proof.
  intros Hnot Hargs.
  now rewrite run_tool_calls_cons, Hargs, (execute_unknown args w Hnot).
Qed.

(** X6. The catalog and the dispatcher agree: a name of the geocoding,
    routing or tiles catalog is handed, with its arguments, to that
    backend's handler, and a name of no catalog is answered by the
    dispatcher itself. *)
Theorem catalog_names_reach_their_backend
    (name : string) (input : val) (w : World) :
  let w' := mkWorld (env w) (trace w ++ [Dispatch name input])%list in
  (In name (map (@ts_name flt) get_geocoding_tools) ->
   _execute_tool name input w
   = run_io (handle_geocoding_tool name input) w')
  /\ (In name (map (@ts_name flt) get_routing_tools) ->
      _execute_tool name input w
      = run_io (handle_routing_tool name input) w')
  /\ (In name (map (@ts_name flt) get_tiles_tools) ->
      _execute_tool name input w
      = run_io (handle_tiles_tool name input) w')
  /\ (~ In name (map (@ts_name flt) _build_tools) ->
      _execute_tool name input w = (inr (unknown_tool name), w')).
Proof.
  intros w'. split; [|split; [|split]].
  - intros [<-|[<-|[<-|[]]]]; reflexivity.
  - intros [<-|[<-|[<-|[]]]]; reflexivity.
  - intros [<-|[<-|[<-|[]]]]; reflexivity.
  - apply execute_unknown.
Qed.

(* ================================================================== *)
(** * Further properties of the tiles backend *)
(* ================================================================== *)

Lemma keeps_ret {A} (a : A) : keeps_env (ret a).
Proof. intros e. reflexivity. Qed.

Lemma keeps_raise {A} (x : exn) : keeps_env (@raise Env A x).
Proof. intros e. reflexivity. Qed.

Lemma keeps_lift {A} (r : res A) : keeps_env (lift r).
Proof. intros e. reflexivity. Qed.

Lemma keeps_bind {A B} (m : IO A) (k : A -> IO B) :
  keeps_env m -> (forall a, keeps_env (k a)) -> keeps_env (bind m k).
Proof.
  intros Hm Hk e. unfold bind. specialize (Hm e).
  destruct (m e) as [[x|a] e1]; simpl in *; subst e1; [reflexivity|].
  apply Hk.
Qed.

Ltac keeps_step :=
  lazymatch goal with
  | |- keeps_env (ret _) => apply keeps_ret
  | |- keeps_env (raise _) => apply keeps_raise
  | |- keeps_env (lift _) => apply keeps_lift
  | |- keeps_env (bind _ _) => apply keeps_bind; [|intros]
  | |- keeps_env (if ?b then _ else _) => destruct b
  | |- keeps_env (match ?x with _ => _ end) => destruct x
  end.

(** X7. The tiles handler answers from the table it carries: whatever the
    tool name and the arguments, it leaves the environment untouched (no
    request is sent, no clock is read). *)
Theorem tiles_handler_is_local
    (tool_name : string) (tool_input : val) (e : Env) :
  snd (handle_tiles_tool tool_name tool_input e) = e.
Proof.
  revert e. change (keeps_env (handle_tiles_tool tool_name tool_input)).
  unfold handle_tiles_tool. repeat keeps_step.
Qed.

Lemma dict_lookup_in {V} (k : string) (d : list (string * V)) :
  In k (map fst d) <-> exists v, dict_lookup k d = Some v.
Proof.
  induction d as [|[k' v'] d IH]; simpl.
  - split; [intros [] | intros [v H]; discriminate H].
  - destruct (String.eqb_spec k k') as [->|ne].
    + split; [intros _; now exists v' | intros _; now left].
    + rewrite <- IH. split; [intros [H|H]; [now elim ne | exact H]|].
      intros H. now right.
Qed.

(** what every entry of [TILE_PROVIDERS] has *)
Lemma provider_entries (s : string) (provider : list (string * val)) :
  dict_lookup s TILE_PROVIDERS = Some provider ->
  nonempty provider = true
  /\ (forall v, dict_set "id" v provider = (provider ++ [("id", v)])%list)
  /\ exists a, dict_lookup "attribution" provider = Some (VStr a).
Proof.
  intros H. unfold TILE_PROVIDERS in H. cbn [dict_lookup] in H.
  repeat match type of H with
         | (if ?b then _ else _) = _ =>
             destruct b;
             [injection H as <-;
              split; [reflexivity|]; split; [reflexivity|];
              eexists; reflexivity|]
         end.
  discriminate H.
Qed.

(** X8. The provider ids that [list_providers] returns are exactly the
    ids [get_tile_provider] knows, each listed once. *)
Theorem listed_providers_are_the_known_ones :
  (forall s : string,
      In s list_providers
      <-> exists provider, get_tile_provider (VStr s) = inr (Some provider))
  /\ NoDup list_providers.
Proof.
  split.
  - intros s. unfold list_providers, get_tile_provider, ok.
    rewrite dict_lookup_in. split.
    + intros [p H]. exists p. now rewrite H.
    + intros [p H]. exists p. now injection H.
  - unfold list_providers. simpl.
    repeat constructor; simpl; intuition discriminate.
Qed.

Lemma provider_id_get (d : list (string * val)) :
  py_get (VDict d) "provider_id" (VStr "") = inr (provider_id_of d).
Proof. reflexivity. Qed.

(** X9. [get_tile_provider_info] on a string id (none given counts as the
    empty string): a known provider gives a success whose data is the
    provider's entry with its [id] added at the end, any other id gives the
    error [NOT_FOUND]; nothing is raised and the environment is left as it
    was. *)
Theorem provider_info_of_string_id
    (d : list (string * val)) (s : string) (e : Env) :
  provider_id_of d = VStr s ->
  handle_tiles_tool "get_tile_provider_info" (VDict d) e
  = (inr match dict_lookup s TILE_PROVIDERS with
         | Some provider =>
             [("status", VStr "success");
              ("data", VDict (provider ++ [("id", VStr s)])%list);
              ("message",
               VStr ("Provider information for " ++ py_str (VStr s)))]
         | None => not_found_result (VStr s)
         end,
     e).
Proof.
  intros Hid.
  unfold handle_tiles_tool.
  change (String.eqb "get_tile_provider_info" "list_tile_providers")
    with false.
  change (String.eqb "get_tile_provider_info" "get_tile_provider_info")
    with true.
  cbv iota. unfold bind, lift. rewrite provider_id_get, Hid.
  unfold get_provider_info, get_tile_provider, ok.
  destruct (dict_lookup s TILE_PROVIDERS) as [provider|] eqn:El;
    [|reflexivity].
  destruct (provider_entries s El) as (Hne & Hset & _).
  rewrite Hne, Hset. reflexivity.
Qed.

(** X10. [get_tile_attribution] on a string id: a known provider gives a
    success that carries the id and the provider's attribution text, any
    other id gives the error [NOT_FOUND]; a known provider is never
    reported as missing. *)
Theorem attribution_of_string_id
    (d : list (string * val)) (s : string) (e : Env) :
  provider_id_of d = VStr s ->
  match dict_lookup s TILE_PROVIDERS with
  | Some provider =>
      exists a,
        dict_lookup "attribution" provider = Some (VStr a)
        /\ handle_tiles_tool "get_tile_attribution" (VDict d) e
           = (inr [("status", VStr "success");
                   ("data", VDict [("provider_id", VStr s);
                                   ("attribution", VStr a)]);
                   ("message",
                    VStr ("Attribution for " ++ py_str (VStr s)))],
              e)
  | None =>
      handle_tiles_tool "get_tile_attribution" (VDict d) e
      = (inr (not_found_result (VStr s)), e)
  end.
Proof.
  intros Hid.
  assert (Hrun : forall attribution,
    get_attribution (VStr s) = inr attribution ->
    handle_tiles_tool "get_tile_attribution" (VDict d) e
    = (inr (if is_none attribution
            then not_found_result (VStr s)
            else [("status", VStr "success");
                  ("data", VDict [("provider_id", VStr s);
                                  ("attribution", attribution)]);
                  ("message",
                   VStr ("Attribution for " ++ py_str (VStr s)))]),
       e)).
  { intros attribution Ha. unfold handle_tiles_tool.
    change (String.eqb "get_tile_attribution" "list_tile_providers")
      with false.
    change (String.eqb "get_tile_attribution" "get_tile_provider_info")
      with false.
    change (String.eqb "get_tile_attribution" "get_tile_attribution")
      with true.
    cbv iota. unfold bind, lift. rewrite provider_id_get, Hid, Ha.
    destruct (is_none attribution); reflexivity. }
  unfold get_attribution, get_tile_provider, ok in Hrun.
  destruct (dict_lookup s TILE_PROVIDERS) as [provider|] eqn:El.
  - destruct (provider_entries s El) as (Hne & _ & a & Ha).
    exists a. split; [exact Ha|].
    rewrite Hne, Ha in Hrun. exact (Hrun _ eq_refl).
  - exact (Hrun _ eq_refl).
Qed.

(** X11. A name that is none of its three tools makes the tiles handler
    answer, whatever the arguments, with an error result that carries the
    code [UNKNOWN_TOOL] (the dispatcher's own answer to an unknown name
    has no code); nothing is raised. *)
Theorem tiles_unknown_tool_has_code
    (tool_name : string) (tool_input : val) (e : Env) :
  ~ In tool_name (map (@ts_name flt) get_tiles_tools) ->
  handle_tiles_tool tool_name tool_input e
  = (inr [("status", VStr "error");
          ("message", VStr ("Unknown tool: " ++ tool_name));
          ("error_code", VStr "UNKNOWN_TOOL")],
     e).
Proof.
  intros Hnot. unfold handle_tiles_tool.
  assert (H : forall n, In n (map (@ts_name flt) get_tiles_tools) ->
                        String.eqb tool_name n = false).
  { intros n Hn. destruct (String.eqb_spec tool_name n) as [->|]; 
      [now elim Hnot | reflexivity]. }
  rewrite !H by (simpl; tauto). reflexivity.
Qed.

(* ================================================================== *)
(** * Further properties of the routing backend *)
(* ================================================================== *)

(** X12. Both network handlers build their client before they look at
    the tool name.  If the timeout in the process environment is not a
    number, every call raises, whatever the tool; otherwise a name that is
    none of the handler's tools is answered with the plain unknown-tool
    result, and the environment is left as it was. *)
Theorem handlers_build_client_first
    (tool_name : string) (tool_input : val) (e : Env) :
  (forall x, new_OSRMClient = inl x ->
             handle_routing_tool tool_name tool_input e = (inl x, e))
  /\ (forall c, new_OSRMClient = inr c ->
                ~ In tool_name (map (@ts_name flt) get_routing_tools) ->
                handle_routing_tool tool_name tool_input e
                = (inr (unknown_tool tool_name), e))
  /\ (forall x, new_NominatimClient = inl x ->
                handle_geocoding_tool tool_name tool_input e = (inl x, e))
  /\ (forall c, new_NominatimClient = inr c ->
                ~ In tool_name (map (@ts_name flt) get_geocoding_tools) ->
                handle_geocoding_tool tool_name tool_input e
                = (inr (unknown_tool tool_name), e)).
Proof.
  assert (Hneq : forall l n, ~ In tool_name l -> In n l ->
                             String.eqb tool_name n = false).
  { intros l n Hnot Hn. destruct (String.eqb_spec tool_name n) as [->|];
      [now elim Hnot | reflexivity]. }
  split; [|split; [|split]].
  - intros x Hx. unfold handle_routing_tool, bind, lift. now rewrite Hx.
  - intros c Hc Hnot. unfold handle_routing_tool, bind, lift. rewrite Hc.
    rewrite !(Hneq _ _ Hnot) by (simpl; tauto). reflexivity.
  - intros x Hx. unfold handle_geocoding_tool, bind, lift. now rewrite Hx.
  - intros c Hc Hnot. unfold handle_geocoding_tool, bind, lift. rewrite Hc.
    rewrite !(Hneq _ _ Hnot) by (simpl; tauto). reflexivity.
Qed.

Lemma input_pairs_absent (d : list (string * val)) (k : string) (e : Env) :
  dict_lookup k d = None ->
  input_pairs (VDict d) k e = (inr [], e).
Proof.
  intros H. unfold input_pairs, bind, lift. cbn [py_get ok]. now rewrite H.
Qed.

Lemma distance_matrix_empty self sources destinations profile (e : Env) :
  sources = [] \/ destinations = [] ->
  distance_matrix self sources destinations profile e
  = (inr (invalid_input "Sources and destinations must not be empty"),
     snd (time_time e)).
Proof.
  intros H. unfold distance_matrix, bind, perform.
  destruct (time_time e) as [t0 e0]. simpl.
  destruct H as [->| ->]; [reflexivity|].
  destruct sources; reflexivity.
Qed.

(** X13. [distance_matrix] with no source or no destination is refused
    before any request: the client returns the error [INVALID_INPUT]
    without usage, having only read the clock; and so does the tool when
    its arguments have no [sources] or no [destinations] entry. *)
Theorem distance_matrix_needs_both_ends :
  (forall self sources destinations profile (e : Env),
      sources = [] \/ destinations = [] ->
      distance_matrix self sources destinations profile e
      = (inr (invalid_input "Sources and destinations must not be empty"),
         snd (time_time e)))
  /\ (forall (d : list (string * val)) (e : Env) client,
        new_OSRMClient = inr client ->
        dict_lookup "sources" d = None ->
        dict_lookup "destinations" d = None ->
        handle_routing_tool "distance_matrix" (VDict d) e
        = (inr [("status", VStr "error");
                ("message",
                 VStr "Sources and destinations must not be empty");
                ("error_code", VStr "INVALID_INPUT")],
           snd (time_time e))).
Proof.
  split; [exact distance_matrix_empty|].
  intros d e client Hc Hs Hd.
  unfold handle_routing_tool. unfold bind at 1. unfold lift at 1.
  rewrite Hc.
  change (String.eqb "distance_matrix" "route") with false.
  change (String.eqb "distance_matrix" "distance_matrix") with true.
  cbv iota. unfold bind at 1. rewrite (input_pairs_absent _ _ e Hs).
  unfold bind at 1. rewrite (input_pairs_absent _ _ e Hd).
  cbv iota. unfold bind at 1, lift at 1. cbn [py_get ok].
  unfold bind. rewrite distance_matrix_empty by now left. reflexivity.
Qed.

(** X14. [match_trace] with fewer than two coordinates is refused before
    any request, with the error [INVALID_INPUT] and no usage. *)
Theorem match_trace_needs_two_points
    (self : OSRMClient) (coordinates : list (val * val)) (profile : val)
    (e : Env) :
  (List.length coordinates < 2)%nat ->
  match_trace self coordinates profile e
  = (inr (invalid_input "Need at least 2 coordinates"), snd (time_time e)).
Proof.
  intros H. unfold match_trace, bind, perform.
  destruct (time_time e) as [t0 e0]. simpl.
  destruct coordinates as [|c1 [|c2 rest]]; [reflexivity|reflexivity|].
  simpl in H. lia.
Qed.

Lemma osrm_try_failure start_time ep out k (e : Env) :
  failure_reported "OSRM" out (fst (osrm_try start_time ep out k e)).
Proof.
  destruct out as [|msg|x|body]; simpl; try exact I; try reflexivity;
    unfold elapsed_ms, new_ToolUsage, bind, perform, ret;
    destruct (time_time e) as [t1 e1]; destruct (utcnow e1) as [ts e2];
    eexists; reflexivity.
Qed.

(** X15. An OSRM exchange that fails never escapes as an httpx exception:
    a timeout becomes the error [TIMEOUT], any other HTTP failure the
    error [HTTP_ERROR] with the failure's text, both with usage; an
    exception that is not one of httpx is passed on.  This holds for
    [route], for [distance_matrix] and [match_trace] on inputs they
    accept. *)
Theorem osrm_failures_are_reported
    (self : OSRMClient) (e : Env) (out : http_outcome flt) :
  answers (snd (time_time e)) out ->
  (forall a b c d p,
      failure_reported "OSRM" out (fst (route self a b c d p e)))
  /\ (forall sources destinations p,
        sources <> [] -> destinations <> [] ->
        failure_reported "OSRM" out
          (fst (distance_matrix self sources destinations p e)))
  /\ (forall coordinates p,
        (2 <= List.length coordinates)%nat ->
        failure_reported "OSRM" out
          (fst (match_trace self coordinates p e))).
Proof.
  intros Hans. unfold answers in Hans.
  destruct (time_time e) as [t0 e0] eqn:Et. simpl in Hans.
  split; [|split].
  - intros a b c d p. unfold route, bind at 1, perform at 1. rewrite Et.
    cbv zeta. unfold bind at 1, perform at 1.
    match goal with
    | |- context [http_send ?rq e0] =>
        specialize (Hans rq); destruct (http_send rq e0) as [o e1]
    end.
    simpl in Hans. subst o. apply osrm_try_failure.
  - intros sources destinations p Hs Hd.
    unfold distance_matrix, bind at 1, perform at 1. rewrite Et.
    destruct sources as [|s sources]; [now elim Hs|].
    destruct destinations as [|d destinations]; [now elim Hd|].
    cbn [nonempty negb orb]. cbv zeta. unfold bind at 1, perform at 1.
    match goal with
    | |- context [http_send ?rq e0] =>
        specialize (Hans rq); destruct (http_send rq e0) as [o e1]
    end.
    simpl in Hans. subst o. apply osrm_try_failure.
  - intros coordinates p Hlen.
    unfold match_trace, bind at 1, perform at 1. rewrite Et.
    destruct coordinates as [|c1 [|c2 rest]]; simpl in Hlen; try lia.
    cbn [nonempty negb orb List.length Nat.ltb Nat.leb]. cbv zeta.
    unfold bind at 1, perform at 1.
    match goal with
    | |- context [http_send ?rq e0] =>
        specialize (Hans rq); destruct (http_send rq e0) as [o e1]
    end.
    simpl in Hans. subst o. apply osrm_try_failure.
Qed.

(** X16. When the OSRM answer has no usable [routes] entry (none at all,
    null, or an empty list), [route] returns the error [NO_ROUTE], with
    usage, instead of raising. *)
Theorem route_without_routes
    (self : OSRMClient) (a b c d p : val) (e : Env)
    (body routes : val) :
  answers (snd (time_time e)) (HttpJson body) ->
  py_get body "routes" VNone = inr routes ->
  truthy routes = false ->
  exists u,
    fst (route self a b c d p e)
    = inr (mkToolResponse "error" None (Some "No route found")
             (Some u) (Some "NO_ROUTE")).
Proof.
  intros Hans Hget Hfalsy. unfold answers in Hans.
  unfold route, bind at 1, perform at 1.
  destruct (time_time e) as [t0 e0]. simpl in Hans.
  cbv zeta. unfold bind at 1, perform at 1.
  match goal with
  | |- context [http_send ?rq e0] =>
      specialize (Hans rq); destruct (http_send rq e0) as [o e1]
  end.
  simpl in Hans. subst o. unfold osrm_try.
  unfold elapsed_ms, new_ToolUsage, bind, perform, lift, ret.
  destruct (time_time e1) as [t1 e2]. rewrite Hget, Hfalsy. simpl.
  destruct (utcnow e2) as [ts e3]. eexists. reflexivity.
Qed.

Lemma coord_pairs_cons (c : val) (rest : list val) :
  coord_pairs (c :: rest)
  = match py_index c 0, py_index c 1 with
    | inl x, _ => inl x
    | inr _, inl x => inl x
    | inr c0, inr c1 =>
        match coord_pairs rest with
        | inl x => inl x
        | inr tl => inr ((c0, c1) :: tl)
        end
    end.
Proof.
  cbn [coord_pairs].
  destruct (py_index c 0); [reflexivity|].
  destruct (py_index c 1); reflexivity.
Qed.

(** X17. Reading coordinate pairs keeps the order and the number of the
    items, takes the first two elements of each and ignores any further
    ones; a list of well-formed pairs is read back as it is. *)
Theorem coord_pairs_reads_first_two :
  (forall (items : list val) (ps : list (val * val)),
      coord_pairs items = inr ps ->
      List.length ps = List.length items
      /\ Forall2 (fun c p => py_index c 0 = inr (fst p)
                             /\ py_index c 1 = inr (snd p)) items ps)
  /\ (forall triples : list (val * val * list val),
        coord_pairs
          (map (fun t => VList (fst (fst t) :: snd (fst t) :: snd t)) triples)
        = inr (map fst triples)).
Proof.
  split.
  - induction items as [|c items IH]; intros ps H.
    + injection H as <-. split; [reflexivity | constructor].
    + rewrite coord_pairs_cons in H.
      destruct (py_index c 0) as [x|c0] eqn:E0; [discriminate H|].
      destruct (py_index c 1) as [x|c1] eqn:E1; [discriminate H|].
      destruct (coord_pairs items) as [x|tl]; [discriminate H|].
      injection H as <-. destruct (IH tl eq_refl) as [Hlen Hall].
      split; [simpl; now rewrite Hlen|]. constructor; [now split|exact Hall].
  - induction triples as [|[[a b] more] triples IH]; [reflexivity|].
    cbn [map]. rewrite coord_pairs_cons. cbn [fst snd py_index nth_error ok].
    now rewrite IH.
Qed.

(* ================================================================== *)
(** * Further properties of the geocoding backend *)
(* ================================================================== *)

Lemma nominatim_try_failure start_time ep out k (e : Env) :
  failure_reported "Nominatim" out (fst (nominatim_try start_time ep out k e)).
Proof.
  destruct out as [|msg|x|body]; simpl; try exact I; try reflexivity;
    unfold elapsed_ms, new_ToolUsage, bind, perform, ret;
    destruct (time_time e) as [t1 e1]; destruct (utcnow e1) as [ts e2];
    eexists; reflexivity.
Qed.

(** X18. A Nominatim exchange that fails is reported the same way by
    [forward_geocode] and [reverse_geocode]: the error [TIMEOUT] for a
    timeout, the error [HTTP_ERROR] with the failure's text for any other
    HTTP failure, both with usage; other exceptions are passed on. *)
Theorem nominatim_failures_are_reported
    (self : NominatimClient) (e : Env) (out : http_outcome flt) :
  answers (snd (time_time e)) out ->
  (forall query limit,
      failure_reported "Nominatim" out
        (fst (forward_geocode self query limit e)))
  /\ (forall latitude longitude,
        failure_reported "Nominatim" out
          (fst (reverse_geocode self latitude longitude e))).
Proof.
  intros Hans. unfold answers in Hans.
  destruct (time_time e) as [t0 e0] eqn:Et. simpl in Hans.
  split.
  - intros query limit.
    unfold forward_geocode, bind at 1, perform at 1. rewrite Et.
    cbv zeta. unfold bind at 1, perform at 1.
    match goal with
    | |- context [http_send ?rq e0] =>
        specialize (Hans rq); destruct (http_send rq e0) as [o e1]
    end.
    simpl in Hans. subst o. apply nominatim_try_failure.
  - intros latitude longitude.
    unfold reverse_geocode, bind at 1, perform at 1. rewrite Et.
    cbv zeta. unfold bind at 1, perform at 1.
    match goal with
    | |- context [http_send ?rq e0] =>
        specialize (Hans rq); destruct (http_send rq e0) as [o e1]
    end.
    simpl in Hans. subst o. apply nominatim_try_failure.
Qed.

Lemma format_places_length (rs fs : list val) :
  format_places rs = inr fs -> List.length fs = List.length rs.
Proof.
  revert fs. induction rs as [|r rs IH]; intros fs H.
  - now injection H as <-.
  - cbn [format_places] in H.
    destruct (format_place r) as [x|y]; [discriminate H|].
    destruct (format_places rs) as [x|tl]; [discriminate H|].
    injection H as <-. simpl. now rewrite (IH tl eq_refl).
Qed.

(** X19. [forward_geocode] on the answer of the service.  An empty answer
    (an empty list, null) is a success with no results and the message
    [No results found].  A non-empty list gives one formatted result per
    place, in order, and the message counts them; if one place cannot be
    formatted (its [lat] is not a number, say) the whole call raises. *)
Theorem forward_geocode_counts_places
    (self : NominatimClient) (query limit : val) (e : Env) (body : val) :
  answers (snd (time_time e)) (HttpJson body) ->
  (truthy body = false ->
   exists u,
     fst (forward_geocode self query limit e)
     = inr (mkToolResponse "success"
              (Some [("results", VList []); ("query", query)])
              (Some "No results found") (Some u) None))
  /\ (forall items,
        body = VList items -> items <> [] ->
        match format_places items with
        | inr formatted =>
            List.length formatted = List.length items
            /\ exists u,
                 fst (forward_geocode self query limit e)
                 = inr (mkToolResponse "success"
                          (Some [("results", VList formatted);
                                 ("query", query)])
                          (Some ("Found " ++ str_of_nat (List.length items)
                                 ++ " result(s)"))
                          (Some u) None)
        | inl x => fst (forward_geocode self query limit e) = inl x
        end).
Proof.
  intros Hans. unfold answers in Hans.
  destruct (time_time e) as [t0 e0] eqn:Et. simpl in Hans.
  split.
  - intros Hfalsy.
    unfold forward_geocode, bind at 1, perform at 1. rewrite Et.
    cbv zeta. unfold bind at 1, perform at 1.
    match goal with
    | |- context [http_send ?rq e0] =>
        specialize (Hans rq); destruct (http_send rq e0) as [o e1]
    end.
    simpl in Hans. subst o. unfold nominatim_try.
    unfold elapsed_ms, new_ToolUsage, bind, perform, lift, ret.
    destruct (time_time e1) as [t1 e2]. rewrite Hfalsy. simpl.
    destruct (utcnow e2) as [ts e3]. eexists. reflexivity.
  - intros items -> Hne.
    destruct items as [|r items]; [now elim Hne|].
    destruct (format_places (r :: items)) as [x|formatted] eqn:Ef.
    + unfold forward_geocode, bind at 1, perform at 1. rewrite Et.
      cbv zeta. unfold bind at 1, perform at 1.
      match goal with
      | |- context [http_send ?rq e0] =>
          specialize (Hans rq); destruct (http_send rq e0) as [o e1]
      end.
      simpl in Hans. subst o. unfold nominatim_try.
      unfold elapsed_ms, new_ToolUsage, bind, perform, lift, ret.
      destruct (time_time e1) as [t1 e2].
      cbn [truthy negb py_iter py_len ok nonempty]. rewrite Ef. reflexivity.
    + split; [exact (format_places_length _ Ef)|].
      unfold forward_geocode, bind at 1, perform at 1. rewrite Et.
      cbv zeta. unfold bind at 1, perform at 1.
      match goal with
      | |- context [http_send ?rq e0] =>
          specialize (Hans rq); destruct (http_send rq e0) as [o e1]
      end.
      simpl in Hans. subst o. unfold nominatim_try.
      unfold elapsed_ms, new_ToolUsage, bind, perform, lift, ret.
      destruct (time_time e1) as [t1 e2].
      cbn [truthy negb py_iter py_len ok nonempty]. rewrite Ef.
      destruct (utcnow e2) as [ts e3]. eexists. reflexivity.
Qed.

(** X20. [reverse_geocode] reports every JSON object it is answered with
    as a success, whatever the object holds: the data echo the
    coordinates asked for, with an empty [address] and an empty
    [display_name] when the answer has none. *)
Theorem reverse_geocode_accepts_any_object
    (self : NominatimClient) (latitude longitude : val) (e : Env)
    (d : list (string * val)) :
  answers (snd (time_time e)) (HttpJson (VDict d)) ->
  exists u,
    fst (reverse_geocode self latitude longitude e)
    = inr (mkToolResponse "success"
             (Some [("address",
                     match dict_lookup "address" d with
                     | Some a => a
                     | None => VDict []
                     end);
                    ("display_name",
                     match dict_lookup "display_name" d with
                     | Some n => n
                     | None => VStr ""
                     end);
                    ("latitude", latitude);
                    ("longitude", longitude)])
             (Some "Reverse geocoding successful") (Some u) None).
Proof.
  intros Hans. unfold answers in Hans.
  unfold reverse_geocode, bind at 1, perform at 1.
  destruct (time_time e) as [t0 e0]. simpl in Hans.
  cbv zeta. unfold bind at 1, perform at 1.
  match goal with
  | |- context [http_send ?rq e0] =>
      specialize (Hans rq); destruct (http_send rq e0) as [o e1]
  end.
  simpl in Hans. subst o. unfold nominatim_try.
  unfold elapsed_ms, new_ToolUsage, bind, perform, lift, ret.
  destruct (time_time e1) as [t1 e2]. cbn [py_get ok].
  destruct (utcnow e2) as [ts e3]. eexists. reflexivity.
Qed.

(** X21. The amenity tag of a query is that of the first key of the table
    that occurs in the query: no key before it occurs in the query, and
    when no tag is found no key of the table occurs in it. *)
Theorem detect_amenity_first_match
    (m : list (string * string)) (query_lower : string) :
  match detect_amenity m query_lower with
  | Some tag =>
      exists pre key post,
        m = (pre ++ (key, tag) :: post)%list
        /\ contains key query_lower = true
        /\ Forall (fun kt => contains (fst kt) query_lower = false) pre
  | None => Forall (fun kt => contains (fst kt) query_lower = false) m
  end.
Proof.
  induction m as [|[key tag] m IH]; simpl; [constructor|].
  destruct (contains key query_lower) eqn:Ec.
  - exists [], key, m. split; [reflexivity|]. split; [exact Ec|constructor].
  - destruct (detect_amenity m query_lower) as [tag'|].
    + destruct IH as (pre & key' & post & -> & Hc & Hpre).
      exists ((key, tag) :: pre), key', post.
      split; [reflexivity|]. split; [exact Hc|]. now constructor.
    + now constructor.
Qed.

Lemma last_nonempty {A} (l : list A) (d d' : A) :
  l <> [] -> last l d = last l d'.
Proof.
  induction l as [|x [|y l] IH]; intros H; [now elim H|reflexivity|].
  change (last (y :: l) d = last (y :: l) d'). apply IH. discriminate.
Qed.

(** X22. The radius that the search loop reports is one it tried: with at
    least one radius to try, the loop ends on one of them, and on the last
    of them when nothing was found; with none, it returns what it was
    given. *)
Theorem try_radii_ends_on_a_tried_radius
    (self : NominatimClient) (latitude longitude : val)
    (amenity_tag query_lower : string) (search_radii : list val) :
  forall (results0 : list val) (sr0 : val) (e e' : Env)
         (found : list val) (sr : val),
    try_radii self latitude longitude amenity_tag query_lower
      search_radii results0 sr0 e = (inr (found, sr), e') ->
    (search_radii = [] -> found = results0 /\ sr = sr0)
    /\ (search_radii <> [] ->
        In sr search_radii
        /\ (found = [] -> sr = last search_radii sr0)).
Proof.
  induction search_radii as [|r rest IH];
    intros results0 sr0 e e' found sr H.
  - injection H as <- <- _. split; [now split | intros Hn; now elim Hn].
  - split; [discriminate|]. intros _.
    cbn [try_radii] in H. unfold bind in H.
    destruct (_search_overpass self latitude longitude r amenity_tag
                query_lower e) as [[x|results'] e1]; [discriminate H|].
    destruct results' as [|y results']; cbn [nonempty] in H.
    + destruct (IH _ _ _ _ _ _ H) as [Hnil Hsome].
      destruct rest as [|r' rest'].
      * destruct (Hnil eq_refl) as [-> ->]. split; [now left|reflexivity].
      * destruct Hsome as [Hin Hlast]; [discriminate|].
        split; [now right|]. intros Hf. rewrite (Hlast Hf).
        change (last (r :: r' :: rest') sr0) with (last (r' :: rest') sr0).
        apply last_nonempty. discriminate.
    + injection H as <- <- _. split; [now left | discriminate].
Qed.

Lemma search_overpass_unreachable
    (self : NominatimClient) (latitude longitude radius : val)
    (amenity_tag query_lower : string) (r : Z) (e : Env) :
  unreachable -> py_int radius = inr r ->
  exists e',
    _search_overpass self latitude longitude radius amenity_tag query_lower e
    = (inr [], e').
Proof.
  intros Hdown Hr. unfold _search_overpass, bind at 1, lift. rewrite Hr.
  cbv zeta. unfold bind, perform.
  match goal with
  | |- context [http_send ?rq e] =>
      pose proof (Hdown rq e) as Hout; destruct (http_send rq e) as [o e1]
  end.
  simpl in Hout. destruct o; try contradiction; eexists; reflexivity.
Qed.

Lemma try_radii_unreachable
    (self : NominatimClient) (latitude longitude : val)
    (amenity_tag query_lower : string) (search_radii : list val) :
  unreachable ->
  Forall (fun radius => exists r, py_int radius = inr r) search_radii ->
  forall (sr0 : val) (e : Env),
  exists e',
    try_radii self latitude longitude amenity_tag query_lower
      search_radii [] sr0 e
    = (inr ([], last search_radii sr0), e').
Proof.
  intros Hdown Hall. induction Hall as [|r rest [z Hz] Hrest IH]; intros sr0 e.
  - eexists. reflexivity.
  - cbn [try_radii]. unfold bind.
    destruct (search_overpass_unreachable self latitude longitude r
                amenity_tag query_lower e Hdown Hz) as [e1 ->].
    cbn [nonempty]. destruct (IH r e1) as [e2 ->]. exists e2.
    destruct rest as [|r' rest']; [reflexivity|].
    change (last (r :: r' :: rest') sr0) with (last (r' :: rest') sr0).
    rewrite (@last_nonempty _ (r' :: rest') r sr0) by discriminate.
    reflexivity.
Qed.

(** X23. When Overpass cannot be reached (every exchange times out or
    fails at the HTTP level), [poi_search] with an integer radius still
    answers with a success: no results, the query and the centre echoed,
    and a message that names five times the radius asked for, the widest
    one tried.  The failure itself is not reported. *)
Theorem poi_search_hides_unreachable_overpass
    (self : NominatimClient) (q : string) (latitude longitude : val)
    (r : Z) (f : flt) (z15 : Z) (e : Env) :
  unreachable ->
  flt_of_Z r = inr f ->
  int_of_flt (flt_mul f (flt_lit (3 # 2))) = inr z15 ->
  exists u e',
    poi_search self (VStr q) latitude longitude (VInt r) e
    = (inr (mkToolResponse "success"
              (Some [("results", VList []); ("query", VStr q);
                     ("center", VList [latitude; longitude])])
              (Some ("No " ++ q ++ "(s) found within " ++ str_of_Z (r * 5)
                     ++ "m radius. Try a different search term."))
              (Some u) None), e').
Proof.
  intros Hdown Hf H15. unfold poi_search, bind at 1, perform at 1.
  destruct (time_time e) as [t0 e0]. cbv zeta.
  unfold py_mul_float, py_mul_int. rewrite Hf.
  unfold bind at 1, lift at 1, ok. unfold bind at 1, lift at 1.
  unfold bind at 1, lift at 1. unfold bind at 1.
  match goal with
  | |- context [try_radii self latitude longitude ?tag ?ql ?radii [] VNone e0] =>
      destruct (@try_radii_unreachable self latitude longitude tag ql radii
                  Hdown) with (sr0 := @VNone flt) (e := e0) as [e1 ->]
  end.
  { repeat constructor.
    - now exists r.
    - exists z15. exact H15.
    - now exists (r * 3).
    - now exists (r * 5). }
  cbn [last nonempty negb].
  unfold elapsed_ms, new_ToolUsage, bind, perform, lift, ret. cbn [py_int ok].
  destruct (time_time e1) as [t1 e2]. destruct (utcnow e2) as [ts e3].
  eexists. eexists. reflexivity.
Qed.

Lemma format_elem_located (latitude longitude elem : val) (x : poi) :
  format_elem latitude longitude elem = inr (Some x) -> located_in elem x.
Proof.
  unfold format_elem, located_in, ok. intros H.
  destruct (py_get elem "tags" (VDict [])) as [?|tags]; [discriminate H|].
  destruct (py_get elem "lat" VNone) as [?|lat]; [discriminate H|].
  destruct (py_get elem "lon" VNone) as [?|lon]; [discriminate H|].
  destruct (is_none lat || is_none lon) eqn:Hnone; [discriminate H|].
  apply orb_false_elim in Hnone as [Hlat Hlon].
  repeat match type of H with
         | match ?t with _ => _ end = _ => destruct t; try discriminate H
         end.
  injection H as <-. simpl. auto.
Qed.

(** X24. The formatting loop of [poi_search] only drops elements: it
    yields at most one entry per element found, and every entry carries
    the [lat] and [lon] of an element found, neither of them [None]. *)
Theorem formatted_entries_are_located_elements
    (latitude longitude : val) (found : list val) (formatted : list poi) :
  format_results latitude longitude found = inr formatted ->
  (List.length formatted <= List.length found)%nat
  /\ Forall (fun x => exists elem, In elem found /\ located_in elem x)
       formatted.
Proof.
  revert formatted. induction found as [|elem rest IH]; intros formatted H.
  - injection H as <-. split; [reflexivity|constructor].
  - cbn [format_results] in H.
    destruct (format_elem latitude longitude elem) as [?|o] eqn:Ee;
      [discriminate H|].
    destruct (format_results latitude longitude rest) as [?|tl];
      [discriminate H|].
    destruct (IH tl eq_refl) as [Hlen Hall].
    assert (Hall' : Forall (fun x => exists el, In el (elem :: rest)
                                      /\ located_in el x) tl).
    { eapply Forall_impl; [|exact Hall].
      intros x (el & Hin & Hloc). exists el. split; [now right|exact Hloc]. }
    injection H as <-. destruct o as [x|]; simpl.
    + split; [lia|]. constructor; [|exact Hall'].
      exists elem. split; [now left|]. eapply format_elem_located, Ee.
    + split; [lia|exact Hall'].
Qed.

Lemma insert_by_filter {A} (key : A -> Z) (k : Z) (x : A) (l : list A) :
  filter (fun y => key y =? k)%Z (insert_by key x l)
  = filter (fun y => key y =? k)%Z (x :: l).
Proof.
  induction l as [|y l IH]; [reflexivity|].
  cbn [insert_by]. destruct (Z.leb_spec (key x) (key y)) as [Hle|Hlt];
    [reflexivity|].
  cbn [filter] in *. rewrite IH.
  destruct (Z.eqb_spec (key x) k) as [Hx|Hx];
    destruct (Z.eqb_spec (key y) k) as [Hy|Hy]; try reflexivity.
  lia.
Qed.

(** X25. Sorting by distance is stable and loses nothing: the sorted list
    is a permutation of the formatted entries, and the entries at any one
    distance stay in the order in which they were formatted. *)
Theorem sort_by_is_stable {A} (key : A -> Z) (l : list A) :
  Permutation (sort_by key l) l
  /\ forall k : Z,
       filter (fun x => key x =? k)%Z (sort_by key l)
       = filter (fun x => key x =? k)%Z l.
Proof.
  split; [apply sort_by_perm|]. intros k.
  induction l as [|x l IH]; [reflexivity|].
  change (sort_by key (x :: l)) with (insert_by key x (sort_by key l)).
  rewrite insert_by_filter. cbn [filter]. now rewrite IH.
Qed.

Lemma strongly_sorted_cut {A} (R : A -> A -> Prop) (l : list A) :
  StronglySorted R l ->
  forall (n : nat) (x y : A),
    In x (firstn n l) -> In y (skipn n l) -> R x y.
Proof.
  induction 1 as [|a l Hl IH Hall]; intros n x y Hx Hy.
  - destruct n; contradiction.
  - destruct n as [|n]; [contradiction|]. cbn [firstn skipn] in Hx, Hy.
    destruct Hx as [<-|Hx]; [|now apply (IH n)].
    rewrite Forall_forall in Hall. apply Hall.
    rewrite <- (firstn_skipn n l). apply in_or_app. now right.
Qed.

(** X26. The cut after sorting keeps the nearest entries: no entry left
    out of the first [n] sorted entries is nearer than one that is kept
    ([poi_search] cuts at ten). *)
Theorem entries_cut_are_no_nearer {A} (key : A -> Z) (l : list A) (n : nat)
    (kept dropped : A) :
  In kept (firstn n (sort_by key l)) ->
  In dropped (skipn n (sort_by key l)) ->
  (key kept <= key dropped)%Z.
Proof.
  intros Hk Hd.
  exact (strongly_sorted_cut (sort_by_strongly_sorted key l) n _ _ Hk Hd).
Qed.

(** X27. [poi_search] checks nothing itself and raises on ill-typed
    arguments before any request is sent: a query that is not a string
    raises [AttributeError] (it has no [lower]); with a string query, a
    radius that is not a number raises [TypeError] when the list of radii
    is built. *)
Theorem poi_search_raises_on_bad_arguments
    (self : NominatimClient) (query latitude longitude radius : val)
    (e : Env) :
  ((forall q, query <> VStr q) ->
   exists x,
     poi_search self query latitude longitude radius e
     = (inl x, snd (time_time e))
     /\ exn_cls x = AttributeError)
  /\ ((exists q, query = VStr q) -> is_number radius = false ->
      exists x,
        poi_search self query latitude longitude radius e
        = (inl x, snd (time_time e))
        /\ exn_cls x = TypeError).
Proof.
  split.
  - intros Hq. unfold poi_search, bind at 1, perform at 1.
    destruct (time_time e) as [t0 e0]. cbn [snd].
    destruct query as [| | | |q| | |];
      try (eexists; split; reflexivity).
    now elim (Hq q).
  - intros [q ->] Hr. unfold poi_search, bind at 1, perform at 1.
    destruct (time_time e) as [t0 e0]. cbn [snd].
    cbv zeta. unfold bind at 1, lift at 1.
    destruct radius; try discriminate Hr; eexists; split; reflexivity.
Qed.

End Properties.

(* ================================================================== *)
(** * Concrete runs on the scripted runtime *)
(* ================================================================== *)

Section Runs.

#[local] Existing Instance scripted_runtime.

(** with an API key in the environment, construction succeeds *)
Lemma the_orchestrator_constructed :
  new_MapAgentOrchestrator "gpt-4o-mini" = inr the_orchestrator.
Proof. reflexivity. Qed.

(** C1, as stated, fails: with a service that raises the capacity-exceeded
    condition on every call, [process_query] submits twice and then the
    second exception leaves it; no timeout message is returned. *)
Lemma always_overflowing_raises :
  process_query 3 the_orchestrator "hello" always_overflowing
  = (inl overflow,
     mkWorld (mkScript [] (Completes (1 # 1) (inl overflow)) [] 0)
       [Submit (opening "hello"); Submit (opening "hello")])
  /\ fst (process_query 3 the_orchestrator "hello" always_overflowing)
     <> inr (Some (TIMEOUT_MESSAGE, [])).
Proof. split; [vm_compute; reflexivity | vm_compute; discriminate]. Qed.

(** C2, as stated, fails: when the tiles catalog also offers [route],
    construction succeeds and the assembled catalog holds the name twice. *)
Lemma colliding_catalogs_accepted :
  exists orch,
    init_of get_geocoding_tools get_routing_tools tiles_with_route
      "gpt-4o-mini" = inr orch
    /\ In "route" (map (@ts_name Q) get_routing_tools)
    /\ In "route" (map (@ts_name Q) tiles_with_route)
    /\ ~ NoDup (map (@ts_name Q) (tools orch)).
Proof.
  eexists. split; [reflexivity|]. split; [simpl; tauto|].
  split; [now left|].
  vm_compute. intros H.
  repeat match goal with
         | H : NoDup (_ :: _) |- _ => inversion H; clear H; subst
         end.
  match goal with
  | H : ~ In "route" _ |- _ => apply H; simpl; tauto
  end.
Qed.

(** [teleport] is none of the nine names: an error result, no exception *)
Lemma unknown_tool_witness :
  ~ In "teleport" nine_tools
  /\ exists r,
       _execute_tool "teleport" (VDict []) quiet
       = (inr r, mkWorld (env quiet) [Dispatch "teleport" (VDict [])])
       /\ dict_lookup "status" r = Some (VStr "error")
       /\ dict_lookup "message" r = Some (VStr "Unknown tool: teleport").
Proof.
  assert (H : ~ In "teleport" nine_tools)
    by (simpl; intuition discriminate).
  split; [exact H|].
  destruct (@unknown_tool_is_error_result scripted_runtime
              "teleport" (VDict []) quiet H)
    as (r & Hr & Hs & Hm & _).
  exists r. repeat split; assumption.
Defined.

(** fifteen turns are cut to the opening two before the submission *)
Lemma long_transcript_witness :
  (14 < List.length fifteen_turns)%nat
  /\ bound_history fifteen_turns = opening "where am I?"
  /\ exists later,
       trace (snd (iteration the_orchestrator fifteen_turns [] quiet))
       = Submit (opening "where am I?") :: later.
Proof.
  assert (H : (14 < List.length fifteen_turns)%nat) by (simpl; lia).
  split; [exact H|].
  destruct (proj1 (@long_transcript_pruned_before_submission
                     scripted_runtime)
              the_orchestrator fifteen_turns [] quiet H)
    as (_ & _ & Hb & Hl).
  split; [exact (Hb _ _ _ eq_refl) | exact Hl].
Defined.

(** one record made, then a submission that is never answered *)
Lemma timeout_witness :
  chat_completions_create
    (request_of the_orchestrator (bound_history after_teleport))
    (env then_silence)
  = (Hangs, env then_silence)
  /\ overruns (@Hangs chat_completion) (inject_Z 60) = true
  /\ agentic_loop 1 the_orchestrator after_teleport [teleport_record]
       then_silence
     = (inr (Some (TIMEOUT_MESSAGE, [teleport_record])),
        mkWorld (env then_silence)
          [Submit (opening "beam me up"); Dispatch "teleport" (VDict []);
           Submit after_teleport]).
Proof.
  split; [reflexivity|]. split; [reflexivity|].
  exact (@timeout_aborts_query scripted_runtime 0%nat the_orchestrator
           after_teleport [teleport_record] then_silence Hangs
           (env then_silence) eq_refl eq_refl).
Defined.

(** the whole query, from the user message on *)
Example timeout_after_one_tool_call :
  process_query 5 the_orchestrator "beam me up"
    (mkWorld
       (mkScript
          [Completes (2 # 1)
             (inr (mkCompletion
                     [mkChoice "tool_calls" None (Some [teleport_call])]))]
          Hangs [] 0) [])
  = (inr (Some (TIMEOUT_MESSAGE, [teleport_record])),
     mkWorld (mkScript [] Hangs [] 0)
       [Submit (opening "beam me up"); Dispatch "teleport" (VDict []);
        Submit after_teleport]).
Proof. vm_compute. reflexivity. Qed.

(** overflow, one resubmission of the opening two turns, then the timeout
    message *)
Lemma capacity_overflow_witness :
  chat_completions_create
    (request_of the_orchestrator (bound_history (opening "hello")))
    (env overflow_then_silence)
  = (Completes (1 # 1) (inl overflow), mkScript [] Hangs [] 0)
  /\ wait_for (Completes (1 # 1) (@inl exn chat_completion overflow))
       (inject_Z 60) = inl overflow
  /\ is_TimeoutError overflow = false
  /\ contains "context_length_exceeded" (exn_str overflow) = true
  /\ chat_completions_create
       (request_of the_orchestrator (firstn 2 (opening "hello")))
       (mkScript [] Hangs [] 0)
     = (Hangs, mkScript [] Hangs [] 0)
  /\ (2 <= List.length (opening "hello"))%nat
  /\ agentic_loop 1 the_orchestrator (opening "hello") []
       overflow_then_silence
     = (inr (Some (TIMEOUT_MESSAGE, [])),
        mkWorld (mkScript [] Hangs [] 0)
          [Submit (opening "hello"); Submit (opening "hello")]).
Proof.
  split; [reflexivity|]. split; [reflexivity|]. split; [reflexivity|].
  split; [vm_compute; reflexivity|]. split; [reflexivity|].
  split; [simpl; lia|].
  exact (proj2 (proj2
           (@capacity_overflow_resubmits_once scripted_runtime 0%nat
              the_orchestrator (opening "hello") [] overflow_then_silence
              (Completes (1 # 1) (inl overflow)) Hangs
              (mkScript [] Hangs [] 0) (mkScript [] Hangs [] 0) overflow
              eq_refl eq_refl eq_refl eq_refl eq_refl
              (le_n 2)))).
Defined.

(** an error result of the tiles handler has no [data] *)
Lemma tool_result_witness :
  handle_tiles_tool "get_tile_attribution"
    (VDict [("provider_id", VStr "atlantis")]) (env quiet)
  = (inr no_such_provider, env quiet)
  /\ (dict_lookup "status" no_such_provider = Some (VStr "error") ->
      dict_has "data" no_such_provider = false)
  /\ (dict_lookup "status" no_such_provider = Some (VStr "success") ->
      dict_has "error_code" no_such_provider = false).
Proof.
  assert (H : handle_tiles_tool "get_tile_attribution"
                (VDict [("provider_id", VStr "atlantis")]) (env quiet)
              = (inr no_such_provider, env quiet)) by reflexivity.
  split; [exact H|].
  apply (@tool_result_status_invariant scripted_runtime
           "get_tile_attribution" (VDict [("provider_id", VStr "atlantis")])).
  right. right. left. exists (env quiet), (env quiet). exact H.
Defined.

(** one [route] request, then a stop: one record, four turns submitted *)
Lemma route_call_witness :
  (process_query 2 the_orchestrator "how far?" route_then_stop
   = (inr (Some ("It is 1.2 km.",
                 [mkRecord "route" route_arguments route_result])),
      mkWorld (mkScript [] Hangs [] 2)
        [Submit (opening "how far?"); Dispatch "route" route_arguments;
         Submit four_turns])
   /\ List.length four_turns = 4%nat)
  /\ dispatched_in_order [route_call]
       ((opening "how far?" ++ [AssistantMsg [route_call]])%list, [],
        mkWorld after_first_answer [Submit (opening "how far?")])
       (four_turns, [mkRecord "route" route_arguments route_result],
        mkWorld after_route
          [Submit (opening "how far?"); Dispatch "route" route_arguments]).
Proof.
  split.
  - exact (proj1 (@route_call_then_stop scripted_runtime)
             0%nat the_orchestrator "how far?" route_then_stop
             (Completes (2 # 1) (inr asks_for_route)) after_first_answer
             (mkChoice "tool_calls" None (Some [route_call])) []
             route_call route_arguments route_result after_route
             (Completes (3 # 1) (inr says_stop)) (mkScript [] Hangs [] 2)
             (mkChoice "stop" (Some "It is 1.2 km.") None) []
             eq_refl eq_refl eq_refl eq_refl eq_refl eq_refl eq_refl
             eq_refl eq_refl eq_refl).
  - apply (proj2 (@route_call_then_stop scripted_runtime)
             [route_call]
             (opening "how far?" ++ [AssistantMsg [route_call]])%list []
             (@mkWorld scripted_runtime after_first_answer
                [Submit (opening "how far?")])).
    vm_compute. reflexivity.
Defined.



Example single_pair_has_distance_and_duration :
  exists r e',
    handle_routing_tool "distance_matrix" (VDict one_pair) osrm_answers
    = (inr r, e')
    /\ dict_lookup "status" r = Some (VStr "success")
    /\ dict_lookup "data" r
       = Some (VDict [("distance_meters", VInt 1200);
                      ("duration_seconds", VInt 300);
                      ("geometry", VNone); ("legs", VNone);
                      ("profile", VStr "car")]).
Proof. do 2 eexists. vm_compute. repeat split; reflexivity. Qed.


Example twelve_cafes_ten_shown :
  match data cafes_found with
  | Some dd =>
      match dict_lookup "results" dd with
      | Some (VList results) =>
          map distance_meters_of results
          = map (fun z => Some (111000 * z)%Z) [1; 2; 3; 4; 5; 6; 7; 8; 9; 10]
      | _ => False
      end
      /\ dict_lookup "total_found" dd = Some (VInt 12)
  | None => False
  end.
Proof. vm_compute. split; reflexivity. Qed.

(* ------------------------------------------------------------------ *)
(** ** Runs of the further properties *)

(** a [stop] that comes with a tool call: the call is not dispatched *)
Lemma final_answer_witness :
  chat_completions_create
    (request_of the_orchestrator (bound_history (opening "how far?")))
    (env answers_with_stop)
  = (Completes (2 # 1) (inr (mkCompletion [stops_with_call])),
     mkScript [] Hangs [HttpJson one_route] 0)
  /\ wait_for (Completes (2 # 1)
                 (@inr exn chat_completion (mkCompletion [stops_with_call])))
       (inject_Z 60)
     = inr (mkCompletion [stops_with_call])
  /\ is_final stops_with_call
  /\ agentic_loop 1 the_orchestrator (opening "how far?") []
       answers_with_stop
     = (inr (Some ("Done.", [])),
        mkWorld (mkScript [] Hangs [HttpJson one_route] 0)
          [Submit (opening "how far?")]).
Proof.
  split; [reflexivity|]. split; [reflexivity|].
  split; [left; reflexivity|].
  exact (@final_answer_ends_query scripted_runtime 0%nat the_orchestrator
           (opening "how far?") [] answers_with_stop
           (Completes (2 # 1) (inr (mkCompletion [stops_with_call])))
           (mkScript [] Hangs [HttpJson one_route] 0)
           stops_with_call [] eq_refl eq_refl (or_introl eq_refl)).
Defined.

(** a refused key leaves the query as the exception it is *)
Lemma other_exception_witness :
  chat_completions_create
    (request_of the_orchestrator (bound_history (opening "hello")))
    (env refuses_key)
  = (Completes (1 # 1) (inl unauthorized), mkScript [] Hangs [] 0)
  /\ wait_for (Completes (1 # 1) (@inl exn chat_completion unauthorized))
       (inject_Z 60) = inl unauthorized
  /\ is_TimeoutError unauthorized = false
  /\ contains "context_length_exceeded" (exn_str unauthorized) = false
  /\ agentic_loop 1 the_orchestrator (opening "hello") [] refuses_key
     = (inl unauthorized,
        mkWorld (mkScript [] Hangs [] 0) [Submit (opening "hello")]).
Proof.
  split; [reflexivity|]. split; [reflexivity|]. split; [reflexivity|].
  split; [vm_compute; reflexivity|].
  exact (@other_exception_propagates scripted_runtime 0%nat the_orchestrator
           (opening "hello") [] refuses_key
           (Completes (1 # 1) (inl unauthorized)) (mkScript [] Hangs [] 0)
           unauthorized eq_refl eq_refl eq_refl eq_refl).
Defined.

(** fourteen turns are submitted as they are *)
Lemma short_transcript_witness :
  (List.length fourteen_turns <= 14)%nat
  /\ bound_history fourteen_turns = fourteen_turns
  /\ exists later,
       trace (snd (iteration the_orchestrator fourteen_turns [] quiet))
       = Submit fourteen_turns :: later.
Proof.
  assert (H : (List.length fourteen_turns <= 14)%nat) by (simpl; lia).
  split; [exact H|].
  exact (@short_transcript_submitted_whole scripted_runtime the_orchestrator
           fourteen_turns [] quiet H).
Defined.

(** the one record of the [route] query is the one dispatch of its log *)
Lemma records_mirror_witness :
  process_query 2 the_orchestrator "how far?" route_then_stop
  = (inr (Some ("It is 1.2 km.",
                [mkRecord "route" route_arguments route_result])),
     mkWorld (mkScript [] Hangs [] 2)
       [Submit (opening "how far?"); Dispatch "route" route_arguments;
        Submit four_turns])
  /\ exists evs,
       [Submit (opening "how far?"); Dispatch "route" route_arguments;
        Submit four_turns] = evs
       /\ dispatches evs = [("route", route_arguments)].
Proof.
  assert (H : process_query 2 the_orchestrator "how far?" route_then_stop
              = (inr (Some ("It is 1.2 km.",
                            [mkRecord "route" route_arguments route_result])),
                 mkWorld (mkScript [] Hangs [] 2)
                   [Submit (opening "how far?");
                    Dispatch "route" route_arguments; Submit four_turns]))
    by (vm_compute; reflexivity).
  split; [exact H|].
  destruct (@records_mirror_dispatches scripted_runtime 2%nat the_orchestrator
              "how far?" route_then_stop _ _ _ H) as (evs & Ht & Hd).
  exists evs. split; [exact Ht | exact Hd].
Defined.

(** [teleport] first, [route] second: the batch goes on *)
Lemma unknown_tool_in_batch_witness :
  ~ In "teleport" (map (@ts_name Q) _build_tools)
  /\ json_loads (tc_arguments teleport_call) = inr (VDict [])
  /\ run_tool_calls [teleport_call; route_call] (opening "beam me up") []
       quiet
     = run_tool_calls [route_call]
         (opening "beam me up" ++ [ToolMsg "call_1" "<json>"])%list
         [teleport_record]
         (mkWorld (env quiet) [Dispatch "teleport" (VDict [])]).
Proof.
  assert (H : ~ In "teleport" (map (@ts_name Q) _build_tools))
    by (simpl; intuition discriminate).
  split; [exact H|]. split; [reflexivity|].
  exact (@unknown_tool_does_not_stop_batch scripted_runtime teleport_call
           [route_call] (VDict []) (opening "beam me up") [] quiet
           H eq_refl).
Defined.

(** one name of each catalog, and one of none *)
Lemma catalog_names_witness :
  (In "poi_search" (map (@ts_name Q) get_geocoding_tools)
   /\ _execute_tool "poi_search" (VDict []) quiet
      = run_io (handle_geocoding_tool "poi_search" (VDict []))
          (mkWorld (env quiet) [Dispatch "poi_search" (VDict [])]))
  /\ (In "route" (map (@ts_name Q) get_routing_tools)
      /\ _execute_tool "route" (VDict []) quiet
         = run_io (handle_routing_tool "route" (VDict []))
             (mkWorld (env quiet) [Dispatch "route" (VDict [])]))
  /\ (In "list_tile_providers" (map (@ts_name Q) get_tiles_tools)
      /\ _execute_tool "list_tile_providers" (VDict []) quiet
         = run_io (handle_tiles_tool "list_tile_providers" (VDict []))
             (mkWorld (env quiet) [Dispatch "list_tile_providers" (VDict [])]))
  /\ (~ In "teleport" (map (@ts_name Q) _build_tools)
      /\ _execute_tool "teleport" (VDict []) quiet
         = (inr (unknown_tool "teleport"),
            mkWorld (env quiet) [Dispatch "teleport" (VDict [])])).
Proof.
  assert (Hg : In "poi_search" (map (@ts_name Q) get_geocoding_tools))
    by (simpl; tauto).
  assert (Hr : In "route" (map (@ts_name Q) get_routing_tools))
    by (simpl; tauto).
  assert (Ht : In "list_tile_providers" (map (@ts_name Q) get_tiles_tools))
    by (simpl; tauto).
  assert (Hn : ~ In "teleport" (map (@ts_name Q) _build_tools))
    by (simpl; intuition discriminate).
  split; [split; [exact Hg|]|split; [split; [exact Hr|]|
    split; [split; [exact Ht|]|split; [exact Hn|]]]].
  - exact (proj1 (@catalog_names_reach_their_backend scripted_runtime
                    "poi_search" (VDict []) quiet) Hg).
  - exact (proj1 (proj2 (@catalog_names_reach_their_backend scripted_runtime
                           "route" (VDict []) quiet)) Hr).
  - exact (proj1 (proj2 (proj2
             (@catalog_names_reach_their_backend scripted_runtime
                "list_tile_providers" (VDict []) quiet))) Ht).
  - exact (proj2 (proj2 (proj2
             (@catalog_names_reach_their_backend scripted_runtime
                "teleport" (VDict []) quiet))) Hn).
Defined.

(** a known provider: its entry with the id added *)
Lemma provider_info_witness :
  provider_id_of [("provider_id", VStr "usgs_topo")] = VStr "usgs_topo"
  /\ handle_tiles_tool "get_tile_provider_info"
       (VDict [("provider_id", VStr "usgs_topo")]) (env quiet)
     = (inr [("status", VStr "success");
             ("data",
              VDict [("name", VStr "USGS Topo");
                     ("description", VStr "USGS topographic maps");
                     ("url_template",
                      VStr "https://basemap.nationalmap.gov/arcgis/rest/services/USGSTopo/MapServer/tile/{z}/{y}/{x}");
                     ("min_zoom", VInt 0);
                     ("max_zoom", VInt 16);
                     ("attribution", VStr "USGS");
                     ("license", VStr "Public Domain");
                     ("id", VStr "usgs_topo")]);
             ("message", VStr "Provider information for usgs_topo")],
        env quiet).
Proof.
  split; [reflexivity|].
  exact (@provider_info_of_string_id scripted_runtime
           [("provider_id", VStr "usgs_topo")] "usgs_topo" (env quiet)
           eq_refl).
Defined.

(** no [provider_id] at all counts as the empty id, which is not known *)
Lemma attribution_witness :
  provider_id_of [] = VStr ""
  /\ handle_tiles_tool "get_tile_attribution" (VDict []) (env quiet)
     = (inr (not_found_result (VStr "")), env quiet).
Proof.
  split; [reflexivity|].
  exact (@attribution_of_string_id scripted_runtime [] "" (env quiet)
           eq_refl).
Defined.

Lemma tiles_unknown_tool_witness :
  ~ In "teleport" (map (@ts_name Q) get_tiles_tools)
  /\ handle_tiles_tool "teleport" (VDict []) (env quiet)
     = (inr [("status", VStr "error");
             ("message", VStr "Unknown tool: teleport");
             ("error_code", VStr "UNKNOWN_TOOL")],
        env quiet).
Proof.
  assert (H : ~ In "teleport" (map (@ts_name Q) get_tiles_tools))
    by (simpl; intuition discriminate).
  split; [exact H|].
  exact (@tiles_unknown_tool_has_code scripted_runtime "teleport" (VDict [])
           (env quiet) H).
Defined.

(** with a timeout that is not a number every call raises, whatever the
    tool; with the defaults an unknown name is answered *)
Lemma handlers_build_client_witness :
  (@new_OSRMClient misconfigured_runtime = inl not_a_float
   /\ @handle_routing_tool misconfigured_runtime "route" route_arguments
        (env quiet)
      = (inl not_a_float, env quiet))
  /\ (@new_NominatimClient misconfigured_runtime = inl not_a_float
      /\ @handle_geocoding_tool misconfigured_runtime "teleport" (VDict [])
           (env quiet)
         = (inl not_a_float, env quiet))
  /\ (new_OSRMClient = inr osrm
      /\ ~ In "teleport" (map (@ts_name Q) get_routing_tools)
      /\ handle_routing_tool "teleport" (VDict []) (env quiet)
         = (inr (unknown_tool "teleport"), env quiet))
  /\ (new_NominatimClient = inr nominatim
      /\ ~ In "teleport" (map (@ts_name Q) get_geocoding_tools)
      /\ handle_geocoding_tool "teleport" (VDict []) (env quiet)
         = (inr (unknown_tool "teleport"), env quiet)).
Proof.
  assert (Hr : ~ In "teleport" (map (@ts_name Q) get_routing_tools))
    by (simpl; intuition discriminate).
  assert (Hg : ~ In "teleport" (map (@ts_name Q) get_geocoding_tools))
    by (simpl; intuition discriminate).
  split; [split; [reflexivity|]|split; [split; [reflexivity|]|
    split; [split; [reflexivity|split; [exact Hr|]]|
            split; [reflexivity|split; [exact Hg|]]]]].
  - exact (proj1 (@handlers_build_client_first misconfigured_runtime
                    "route" route_arguments (env quiet))
             not_a_float eq_refl).
  - exact (proj1 (proj2 (proj2
             (@handlers_build_client_first misconfigured_runtime
                "teleport" (VDict []) (env quiet))))
             not_a_float eq_refl).
  - exact (proj1 (proj2
             (@handlers_build_client_first scripted_runtime
                "teleport" (VDict []) (env quiet)))
             osrm eq_refl Hr).
  - exact (proj2 (proj2 (proj2
             (@handlers_build_client_first scripted_runtime
                "teleport" (VDict []) (env quiet))))
             nominatim eq_refl Hg).
Defined.

(** no destination; and arguments without either list *)
Lemma distance_matrix_witness :
  distance_matrix osrm [(VInt 1, VInt 2)] [] (VStr "car") osrm_answers
  = (inr (invalid_input "Sources and destinations must not be empty"),
     mkScript [] Hangs [HttpJson one_route] 1)
  /\ new_OSRMClient = inr osrm
  /\ handle_routing_tool "distance_matrix" (VDict []) osrm_answers
     = (inr [("status", VStr "error");
             ("message", VStr "Sources and destinations must not be empty");
             ("error_code", VStr "INVALID_INPUT")],
        mkScript [] Hangs [HttpJson one_route] 1).
Proof.
  split; [|split; [reflexivity|]].
  - exact (proj1 (@distance_matrix_needs_both_ends scripted_runtime)
             osrm [(VInt 1, VInt 2)] [] (VStr "car") osrm_answers
             (or_intror eq_refl)).
  - exact (proj2 (@distance_matrix_needs_both_ends scripted_runtime)
             [] osrm_answers osrm eq_refl eq_refl eq_refl).
Defined.

(** a trace of one point *)
Lemma match_trace_witness :
  (List.length [(@VInt Q 1, @VInt Q 2)] < 2)%nat
  /\ match_trace osrm [(VInt 1, VInt 2)] (VStr "car") osrm_answers
     = (inr (invalid_input "Need at least 2 coordinates"),
        mkScript [] Hangs [HttpJson one_route] 1).
Proof.
  assert (H : (List.length [(@VInt Q 1, @VInt Q 2)] < 2)%nat)
    by (simpl; lia).
  split; [exact H|].
  exact (@match_trace_needs_two_points scripted_runtime osrm
           [(VInt 1, VInt 2)] (VStr "car") osrm_answers H).
Defined.

(** a bad gateway on a [route] exchange *)
Lemma osrm_failures_witness :
  answers (snd (time_time bad_gateway)) (HttpError "502 Bad Gateway")
  /\ failure_reported "OSRM" (HttpError "502 Bad Gateway")
       (fst (route osrm (VInt 1) (VInt 2) (VInt 3) (VInt 4) (VStr "car")
               bad_gateway))
  /\ (2 <= List.length [(@VInt Q 1, @VInt Q 2); (VInt 3, VInt 4)])%nat
  /\ failure_reported "OSRM" (HttpError "502 Bad Gateway")
       (fst (match_trace osrm [(VInt 1, VInt 2); (VInt 3, VInt 4)]
               (VStr "car") bad_gateway)).
Proof.
  assert (H : answers (snd (time_time bad_gateway))
                (HttpError "502 Bad Gateway"))
    by (intros rq; reflexivity).
  assert (H2 : (2 <= List.length [(@VInt Q 1, @VInt Q 2); (VInt 3, VInt 4)])%nat)
    by (simpl; lia).
  split; [exact H|]. split; [|split; [exact H2|]].
  - exact (proj1 (@osrm_failures_are_reported scripted_runtime osrm
                    bad_gateway (HttpError "502 Bad Gateway") H)
             (VInt 1) (VInt 2) (VInt 3) (VInt 4) (VStr "car")).
  - exact (proj2 (proj2 (@osrm_failures_are_reported scripted_runtime osrm
                           bad_gateway (HttpError "502 Bad Gateway") H))
             [(VInt 1, VInt 2); (VInt 3, VInt 4)] (VStr "car") H2).
Defined.

(** OSRM answers with an empty list of routes *)
Lemma route_without_routes_witness :
  answers (snd (time_time osrm_finds_nothing)) (HttpJson no_route)
  /\ py_get no_route "routes" VNone = inr (VList [])
  /\ truthy (@VList Q []) = false
  /\ exists u,
       fst (route osrm (VInt 1) (VInt 2) (VInt 3) (VInt 4) (VStr "car")
              osrm_finds_nothing)
       = inr (mkToolResponse "error" None (Some "No route found")
                (Some u) (Some "NO_ROUTE")).
Proof.
  assert (H : answers (snd (time_time osrm_finds_nothing)) (HttpJson no_route))
    by (intros rq; reflexivity).
  split; [exact H|]. split; [reflexivity|]. split; [reflexivity|].
  exact (@route_without_routes scripted_runtime osrm (VInt 1) (VInt 2)
           (VInt 3) (VInt 4) (VStr "car") osrm_finds_nothing no_route
           (VList []) H eq_refl eq_refl).
Defined.

(** a coordinate with a third element *)
Lemma coord_pairs_witness :
  coord_pairs [@VList Q [VInt 1; VInt 2; VInt 9]] = inr [(VInt 1, VInt 2)]
  /\ List.length [(@VInt Q 1, @VInt Q 2)]
     = List.length [@VList Q [VInt 1; VInt 2; VInt 9]]
  /\ Forall2 (fun c p => py_index c 0 = inr (fst p)
                         /\ py_index c 1 = inr (snd p))
       [@VList Q [VInt 1; VInt 2; VInt 9]] [(@VInt Q 1, @VInt Q 2)].
Proof.
  split; [reflexivity|].
  exact (proj1 (@coord_pairs_reads_first_two scripted_runtime)
           [VList [VInt 1; VInt 2; VInt 9]] [(VInt 1, VInt 2)] eq_refl).
Defined.

(** a Nominatim exchange that times out *)
Lemma nominatim_failures_witness :
  answers (snd (time_time (env quiet))) (@HttpTimeout Q)
  /\ failure_reported "Nominatim" (@HttpTimeout Q)
       (fst (forward_geocode nominatim (VStr "Paris") (VInt 5) (env quiet)))
  /\ failure_reported "Nominatim" (@HttpTimeout Q)
       (fst (reverse_geocode nominatim (VInt 1) (VInt 2) (env quiet))).
Proof.
  assert (H : answers (snd (time_time (env quiet))) (@HttpTimeout Q))
    by (intros rq; reflexivity).
  split; [exact H|]. split.
  - exact (proj1 (@nominatim_failures_are_reported scripted_runtime nominatim
                    (env quiet) HttpTimeout H) (VStr "Paris") (VInt 5)).
  - exact (proj2 (@nominatim_failures_are_reported scripted_runtime nominatim
                    (env quiet) HttpTimeout H) (VInt 1) (VInt 2)).
Defined.

(** one place found: one result, counted in the message *)
Lemma forward_geocode_witness :
  answers (snd (time_time nominatim_finds_paris)) (HttpJson (VList one_place))
  /\ one_place <> []
  /\ exists u,
       fst (forward_geocode nominatim (VStr "Paris") (VInt 5)
              nominatim_finds_paris)
       = inr (mkToolResponse "success"
                (Some [("results",
                        VList [VDict [("name", VStr "Paris");
                                      ("latitude", VFloat (inject_Z 10));
                                      ("longitude", VFloat (inject_Z 15));
                                      ("importance", VInt 1)]]);
                       ("query", VStr "Paris")])
                (Some "Found 1 result(s)") (Some u) None).
Proof.
  assert (H : answers (snd (time_time nominatim_finds_paris))
                (HttpJson (VList one_place)))
    by (intros rq; reflexivity).
  assert (Hne : one_place <> []) by discriminate.
  split; [exact H|]. split; [exact Hne|].
  exact (proj2 (proj2 (@forward_geocode_counts_places scripted_runtime
                         nominatim (VStr "Paris") (VInt 5)
                         nominatim_finds_paris (VList one_place) H)
                  one_place eq_refl Hne)).
Defined.

(** an error object of the service is reported as a success *)
Lemma reverse_geocode_witness :
  answers (snd (time_time nominatim_is_unable))
    (HttpJson (VDict unable_to_geocode))
  /\ exists u,
       fst (reverse_geocode nominatim (VInt 1) (VInt 2) nominatim_is_unable)
       = inr (mkToolResponse "success"
                (Some [("address", VDict []);
                       ("display_name", VStr "");
                       ("latitude", VInt 1);
                       ("longitude", VInt 2)])
                (Some "Reverse geocoding successful") (Some u) None).
Proof.
  assert (H : answers (snd (time_time nominatim_is_unable))
                (HttpJson (VDict unable_to_geocode)))
    by (intros rq; reflexivity).
  split; [exact H|].
  exact (@reverse_geocode_accepts_any_object scripted_runtime nominatim
           (VInt 1) (VInt 2) nominatim_is_unable unable_to_geocode H).
Defined.

(** three radii tried in vain: the loop ends on the last one *)
Lemma try_radii_witness :
  try_radii nominatim (VInt 0) (VInt 0) "amenity=cafe" "cafe"
    [VInt 100; VInt 300; VInt 500] [] VNone (env quiet)
  = (inr ([], VInt 500), env quiet)
  /\ In (@VInt Q 500) [VInt 100; VInt 300; VInt 500]
  /\ @VInt Q 500 = last [VInt 100; VInt 300; VInt 500] VNone.
Proof.
  assert (H : try_radii nominatim (VInt 0) (VInt 0) "amenity=cafe" "cafe"
                [VInt 100; VInt 300; VInt 500] [] VNone (env quiet)
              = (inr ([], VInt 500), env quiet))
    by (vm_compute; reflexivity).
  split; [exact H|].
  destruct (proj2 (@try_radii_ends_on_a_tried_radius scripted_runtime
                     nominatim (VInt 0) (VInt 0) "amenity=cafe" "cafe"
                     [VInt 100; VInt 300; VInt 500] [] VNone (env quiet)
                     (env quiet) [] (VInt 500) H))
    as [Hin Hlast]; [discriminate|].
  split; [exact Hin | exact (Hlast eq_refl)].
Defined.

(** offline: four exchanges time out, the answer is a success *)
Lemma poi_search_offline_witness :
  @unreachable offline_runtime
  /\ @flt_of_Z offline_runtime 1000 = inr (inject_Z 1000)
  /\ @int_of_flt offline_runtime
       (@flt_mul offline_runtime (inject_Z 1000)
          (@flt_lit offline_runtime (3 # 2)))
     = inr 1500%Z
  /\ exists u e',
       @poi_search offline_runtime
         (@mkNominatimClient offline_runtime
            "https://nominatim.openstreetmap.org" (inject_Z 10)
            "mcp-map-agents/0.1")
         (VStr "cafe") (VInt 0) (VInt 0) (VInt 1000) (env quiet)
       = (inr (@mkToolResponse offline_runtime "success"
                 (Some [("results", VList []); ("query", VStr "cafe");
                        ("center", VList [VInt 0; VInt 0])])
                 (Some "No cafe(s) found within 5000m radius. Try a different search term.")
                 (Some u) None), e').
Proof.
  assert (H : @unreachable offline_runtime) by (intros rq e; exact I).
  split; [exact H|]. split; [reflexivity|]. split; [reflexivity|].
  exact (@poi_search_hides_unreachable_overpass offline_runtime
           (@mkNominatimClient offline_runtime
              "https://nominatim.openstreetmap.org" (inject_Z 10)
              "mcp-map-agents/0.1")
           "cafe" (VInt 0) (VInt 0) 1000%Z (inject_Z 1000) 1500%Z (env quiet)
           H eq_refl eq_refl).
Defined.

(** the element without coordinates is dropped, the cafe is kept *)
Lemma formatted_entries_witness :
  format_results (VInt 0) (VInt 0) two_elements = inr one_formatted
  /\ (List.length one_formatted <= List.length two_elements)%nat
  /\ Forall (fun x => exists elem, In elem two_elements /\ located_in elem x)
       one_formatted.
Proof.
  split; [reflexivity|].
  exact (@formatted_entries_are_located_elements scripted_runtime
           (VInt 0) (VInt 0) two_elements one_formatted eq_refl).
Defined.

(** twelve distances cut at ten: 10 is kept, 11 is not *)
Lemma entries_cut_witness :
  In 10%Z (firstn 10 (sort_by (fun z : Z => z)
                        [5; 3; 9; 1; 12; 7; 2; 11; 4; 8; 6; 10]%Z))
  /\ In 11%Z (skipn 10 (sort_by (fun z : Z => z)
                          [5; 3; 9; 1; 12; 7; 2; 11; 4; 8; 6; 10]%Z))
  /\ (10 <= 11)%Z.
Proof.
  assert (Hk : In 10%Z (firstn 10 (sort_by (fun z : Z => z)
                 [5; 3; 9; 1; 12; 7; 2; 11; 4; 8; 6; 10]%Z)))
    by (vm_compute; tauto).
  assert (Hd : In 11%Z (skipn 10 (sort_by (fun z : Z => z)
                 [5; 3; 9; 1; 12; 7; 2; 11; 4; 8; 6; 10]%Z)))
    by (vm_compute; tauto).
  split; [exact Hk|]. split; [exact Hd|].
  exact (@entries_cut_are_no_nearer Z (fun z => z)
           [5; 3; 9; 1; 12; 7; 2; 11; 4; 8; 6; 10]%Z 10%nat 10%Z 11%Z Hk Hd).
Defined.

(** a number as query; a word as radius *)
Lemma poi_search_bad_arguments_witness :
  (forall q, @VInt Q 5 <> VStr q)
  /\ (exists x,
        poi_search nominatim (VInt 5) (VInt 0) (VInt 0) (VInt 1000)
          (env quiet)
        = (inl x, snd (time_time (env quiet)))
        /\ exn_cls x = AttributeError)
  /\ is_number (@VStr Q "far") = false
  /\ (exists x,
        poi_search nominatim (VStr "cafe") (VInt 0) (VInt 0) (VStr "far")
          (env quiet)
        = (inl x, snd (time_time (env quiet)))
        /\ exn_cls x = TypeError).
Proof.
  assert (H : forall q, @VInt Q 5 <> VStr q) by (intros q; discriminate).
  split; [exact H|]. split; [|split; [reflexivity|]].
  - exact (proj1 (@poi_search_raises_on_bad_arguments scripted_runtime
                    nominatim (VInt 5) (VInt 0) (VInt 0) (VInt 1000)
                    (env quiet)) H).
  - exact (proj2 (@poi_search_raises_on_bad_arguments scripted_runtime
                    nominatim (VStr "cafe") (VInt 0) (VInt 0) (VStr "far")
                    (env quiet))
             (ex_intro _ "cafe" eq_refl) eq_refl).
Defined.

End Runs.
